(** * WaveSmith: point store, pointer interaction, synthesis and WAV export

    A shallow embedding of the editing and synthesis core of WaveSmith
    (dataModel.js, interaction.js, canvasRenderer.js, audioEngine.js,
    fileIO.js) and the properties of it that the specification states.

    Numbers are JavaScript numbers, that is IEEE 754 binary64 values: they
    are modelled by Rocq's primitive floats, whose operations are the same
    round-to-nearest-even operations.  Point objects live in an object
    store and are named by references, because the code shares them between
    the point array and the selection set and mutates them in place.
    Integers that count or index (array lengths, indices, byte offsets,
    the results of [Math.floor] and [Math.ceil]) are integers of [nat] or
    [Z].  What the platform provides ([JSON], [DataView], [AudioBuffer],
    typed arrays) is modelled as far as the code relies on it. *)

From Stdlib Require Import ZArith QArith Floats List Bool Lia String.
From Stdlib Require Import Permutation Sorted.
From stdpp Require Import base list.
Import ListNotations.

#[local] Set Warnings "-inexact-float,-register-all".
#[local] Close Scope Q_scope.
#[local] Open Scope nat_scope.

(* ================================================================= *)
(** ** JavaScript numbers *)

Module JS.

Abbreviation number := float.

(** [ToBoolean] on a number: [+0], [-0] and [NaN] are falsy. *)
Definition truthy (x : number) : bool := negb (is_nan x || is_zero x).

(** [x > y] is [y < x]; both are false when an operand is [NaN]. *)
Definition gtb (x y : number) : bool := (y <? x)%float.
Definition geb (x y : number) : bool := (y <=? x)%float.

(** [x !== y] on two numbers. *)
Definition strict_neq (x y : number) : bool := negb (x =? y)%float.

(** [Math.min] and [Math.max] of two numbers: [NaN] is absorbing and
    [-0] is below [+0]. *)
Definition Math_min (x y : number) : number :=
  if is_nan x || is_nan y then nan
  else if (x <? y)%float then x
  else if (y <? x)%float then y
  else if get_sign x then x else y.

Definition Math_max (x y : number) : number :=
  if is_nan x || is_nan y then nan
  else if (x <? y)%float then y
  else if (y <? x)%float then x
  else if get_sign x then y else x.

(** The integer [z] as a number (exact below [2^53]). *)
Definition of_Z (z : Z) : number :=
  SF2Prim (binary_normalize prec emax z 0 false).

Definition of_nat (n : nat) : number := of_Z (Z.of_nat n).

(** The signed integer mantissa of a finite non-zero number
    [(-1)^s * m * 2^e]. *)
Definition signed (s : bool) (m : positive) : Z := cond_Zopp s (Zpos m).

(** An integral number, as [Math.floor] and [Math.ceil] return it: an
    integer, or [None] when the argument is [NaN] or an infinity (the
    result is then the argument itself). *)
Definition integral := option Z.

(** [Z.shiftl] with a negative shift divides by a power of two and rounds
    toward minus infinity. *)
Definition Math_floor (x : number) : integral :=
  match Prim2SF x with
  | S754_finite s m e => Some (Z.shiftl (signed s m) e)
  | S754_zero _ => Some 0%Z
  | _ => None
  end.

Definition Math_ceil (x : number) : integral :=
  match Prim2SF x with
  | S754_finite s m e => Some (- Z.shiftl (- signed s m) e)%Z
  | S754_zero _ => Some 0%Z
  | _ => None
  end.

(** Truncation toward zero. *)
Definition Math_trunc (x : number) : integral :=
  match Prim2SF x with
  | S754_finite s m e => Some (cond_Zopp s (Z.shiftl (Zpos m) e))
  | S754_zero _ => Some 0%Z
  | _ => None
  end.

(** [Math.fround]: rounding to the nearest binary32 value, which is what
    a store into a [Float32Array] does. *)
Definition Math_fround (x : number) : number :=
  match Prim2SF x with
  | S754_finite s m e => SF2Prim (binary_normalize 24 128 (signed s m) e s)
  | _ => x
  end.

(** The integer conversions of typed arrays and data views: truncate
    toward zero, with [NaN] and the infinities converting to [0], then
    reduce modulo the word size. *)
Definition ToIntegerOrZero (x : number) : Z :=
  match Math_trunc x with Some z => z | None => 0%Z end.
Definition ToUint32 (x : number) : Z := (ToIntegerOrZero x mod 4294967296)%Z.

(** The same conversions of a number that is already integral. *)
Definition integerOrZero (v : integral) : Z :=
  match v with Some z => z | None => 0%Z end.
Definition wrap16 (z : Z) : Z := (z mod 65536)%Z.

(** The 16 bits read as a signed integer. *)
Definition signed16 (u : Z) : Z :=
  if (u <? 32768)%Z then u else (u - 65536)%Z.
Definition ToInt16 (v : integral) : Z := signed16 (wrap16 (integerOrZero v)).

(** A JavaScript [Set] of references: insertion ordered, no duplicates. *)
Definition Set_has (s : list nat) (r : nat) : bool := bool_decide (r ∈ s).
Definition Set_add (s : list nat) (r : nat) : list nat :=
  if Set_has s r then s else s ++ [r].
Definition Set_of (l : list nat) : list nat := fold_left Set_add l [].

End JS.

(* ================================================================= *)
(** ** config.js *)

Record Config := {
  PAN_WHEEL_SENSITIVITY : float;
  PAN_MOUSE_SENSITIVITY : float;
  ZOOM_SENSITIVITY : float;
  ZOOM_MIN : float;
  ZOOM_MAX : float;
  DEFAULT_DURATION : float;
  DEFAULT_ZOOM : float;
  MAX_UNDO : Z;                 (* a depth: an integer count *)
  POINT_HIT_RADIUS : float;
  SELECTION_HIGHLIGHT_RADIUS : float;
  MAX_AUDIO_IMPORT_DURATION : float;
  AUDIO_EXPORT_BITRATE : float
}.

Definition DEFAULT_CONFIG : Config := {|
  PAN_WHEEL_SENSITIVITY := 600;
  PAN_MOUSE_SENSITIVITY := 1;
  ZOOM_SENSITIVITY := 0.001;
  ZOOM_MIN := 1;
  ZOOM_MAX := 10000;
  DEFAULT_DURATION := 10.0;
  DEFAULT_ZOOM := 10.0;
  MAX_UNDO := 50;
  POINT_HIT_RADIUS := 8;
  SELECTION_HIGHLIGHT_RADIUS := 6;
  MAX_AUDIO_IMPORT_DURATION := 5;
  AUDIO_EXPORT_BITRATE := 320
|}.

(* ================================================================= *)
(** ** canvasRenderer.js: the coordinate maps

    The four maps use only [+], [-], [*] and [/].  They are written once,
    over any carrier that has these operations, and used at two carriers:
    binary64 numbers, which is what the program computes with, and exact
    rationals, which is the reading under which the maps are inverse to
    each other without a rounding error. *)

Class Arith (N : Type) := {
  add : N -> N -> N;
  sub : N -> N -> N;
  mul : N -> N -> N;
  div : N -> N -> N;
  two : N
}.

#[export] Instance float_Arith : Arith float := {|
  add := PrimFloat.add; sub := PrimFloat.sub;
  mul := PrimFloat.mul; div := PrimFloat.div;
  two := 2%float
|}.

#[export] Instance Q_Arith : Arith Q := {|
  add := Qplus; sub := Qminus; mul := Qmult; div := Qdiv; two := 2%Q
|}.

(** The maps read [dataModel.duration], [dataModel.zoom],
    [dataModel.pan], [canvas.width] and [canvas.height], which are
    arguments here. *)
Section CoordinateMaps.
Context {N : Type} `{Arith N}.

Definition visibleRange (duration zoom : N) : N := div duration zoom.

Definition timeToX (duration zoom pan width t : N) : N :=
  mul (div (sub t pan) (visibleRange duration zoom)) width.

Definition xToTime (duration zoom pan width x : N) : N :=
  add pan (mul (div x width) (visibleRange duration zoom)).

Definition amplitudeToY (height a : N) : N :=
  sub (div height two) (mul a (div height two)).

Definition yToAmplitude (height y : N) : N :=
  div (sub (div height two) y) (div height two).
End CoordinateMaps.

(* ================================================================= *)
(** ** dataModel.js: points and the object store *)

Record Point := { time : float; amplitude : float }.

(** A reference to a point object is its index in the store; allocating an
    object appends it. *)
Abbreviation ref := nat.
Abbreviation Heap := (list Point).

Definition alloc (h : Heap) (vals : list Point) : Heap * list ref :=
  (h ++ vals, seq (length h) (length vals)).

(** [p.time] and [p.amplitude] through a reference. *)
Definition timeOf (h : Heap) (r : ref) : float :=
  match h !! r with Some p => time p | None => nan end.
Definition amplitudeOf (h : Heap) (r : ref) : float :=
  match h !! r with Some p => amplitude p | None => nan end.

(** The values of an array of point objects. *)
Definition valuesOf (h : Heap) (l : list ref) : list Point :=
  omap (fun r => h !! r) l.

(** [array.sort((a, b) => a.time - b.time)]: a stable sort; [a] stays
    before [b] unless the comparator is positive.  (With a NaN time the
    comparator is not consistent and the order is left to the engine.) *)
Definition comparator (h : Heap) (a b : ref) : float :=
  (timeOf h a - timeOf h b)%float.

Fixpoint sort_insert (h : Heap) (a : ref) (l : list ref) : list ref :=
  match l with
  | [] => [a]
  | b :: l' =>
      if (0 <? comparator h a b)%float then b :: sort_insert h a l'
      else a :: l
  end.

Definition sortByTime (h : Heap) (l : list ref) : list ref :=
  foldr (sort_insert h) [] l.

(** A snapshot is the text [JSON.stringify(points)]: it records the values
    of the points, in order.  [JSON.parse] builds fresh objects from it.
    A finite coordinate reads back as the number it was, a negative zero
    as zero.  (A coordinate that is not finite is written as [null]; the
    editor keeps coordinates finite, and that case is not followed
    here.) *)
Inductive JSONText := JSON_stringify (vals : list Point).

Definition JSON_number (x : float) : float :=
  if is_zero x then 0%float else x.

Definition JSON_parse (s : JSONText) : list Point :=
  match s with
  | JSON_stringify vals =>
      map (fun p => {| time := JSON_number (time p);
                       amplitude := JSON_number (amplitude p) |}) vals
  end.

Module DataModel.

Record t := {
  heap : Heap;
  points : list ref;
  selectedPoints : list ref;       (* a Set, in insertion order *)
  selectedPoint : option ref;
  copiedPoints : list Point;
  undoStack : list JSONText;       (* array order: the top is last *)
  redoStack : list JSONText;
  duration : float;
  zoom : float;
  pan : float
}.

Definition set_heap (h : Heap) (m : t) : t :=
  {| heap := h; points := points m; selectedPoints := selectedPoints m;
     selectedPoint := selectedPoint m; copiedPoints := copiedPoints m;
     undoStack := undoStack m; redoStack := redoStack m;
     duration := duration m; zoom := zoom m; pan := pan m |}.
Definition set_points (l : list ref) (m : t) : t :=
  {| heap := heap m; points := l; selectedPoints := selectedPoints m;
     selectedPoint := selectedPoint m; copiedPoints := copiedPoints m;
     undoStack := undoStack m; redoStack := redoStack m;
     duration := duration m; zoom := zoom m; pan := pan m |}.
Definition set_selectedPoints (s : list ref) (m : t) : t :=
  {| heap := heap m; points := points m; selectedPoints := s;
     selectedPoint := selectedPoint m; copiedPoints := copiedPoints m;
     undoStack := undoStack m; redoStack := redoStack m;
     duration := duration m; zoom := zoom m; pan := pan m |}.
Definition set_selectedPoint (p : option ref) (m : t) : t :=
  {| heap := heap m; points := points m; selectedPoints := selectedPoints m;
     selectedPoint := p; copiedPoints := copiedPoints m;
     undoStack := undoStack m; redoStack := redoStack m;
     duration := duration m; zoom := zoom m; pan := pan m |}.
Definition set_copiedPoints (c : list Point) (m : t) : t :=
  {| heap := heap m; points := points m; selectedPoints := selectedPoints m;
     selectedPoint := selectedPoint m; copiedPoints := c;
     undoStack := undoStack m; redoStack := redoStack m;
     duration := duration m; zoom := zoom m; pan := pan m |}.
Definition set_undoStack (u : list JSONText) (m : t) : t :=
  {| heap := heap m; points := points m; selectedPoints := selectedPoints m;
     selectedPoint := selectedPoint m; copiedPoints := copiedPoints m;
     undoStack := u; redoStack := redoStack m;
     duration := duration m; zoom := zoom m; pan := pan m |}.
Definition set_redoStack (r : list JSONText) (m : t) : t :=
  {| heap := heap m; points := points m; selectedPoints := selectedPoints m;
     selectedPoint := selectedPoint m; copiedPoints := copiedPoints m;
     undoStack := undoStack m; redoStack := r;
     duration := duration m; zoom := zoom m; pan := pan m |}.
Definition set_pan (x : float) (m : t) : t :=
  {| heap := heap m; points := points m; selectedPoints := selectedPoints m;
     selectedPoint := selectedPoint m; copiedPoints := copiedPoints m;
     undoStack := undoStack m; redoStack := redoStack m;
     duration := duration m; zoom := zoom m; pan := x |}.
Definition set_zoom (x : float) (m : t) : t :=
  {| heap := heap m; points := points m; selectedPoints := selectedPoints m;
     selectedPoint := selectedPoint m; copiedPoints := copiedPoints m;
     undoStack := undoStack m; redoStack := redoStack m;
     duration := duration m; zoom := x; pan := pan m |}.

Section Methods.
Variable CONFIG : Config.

(** [x || d] on numbers. *)
Definition number_or (x d : float) : float :=
  if JS.truthy x then x else d.

Definition constructor : t :=
  {| heap := []; points := []; selectedPoints := []; selectedPoint := None;
     copiedPoints := []; undoStack := []; redoStack := [];
     duration := number_or (DEFAULT_DURATION CONFIG) 10.0;
     zoom := number_or (DEFAULT_ZOOM CONFIG) 10.0;
     pan := 0 |}.

(** *** Undo/Redo *)

(** [CONFIG.MAX_UNDO || 20] *)
Definition maxUndo : Z :=
  if (MAX_UNDO CONFIG =? 0)%Z then 20%Z else MAX_UNDO CONFIG.

Definition snapshot (m : t) : JSONText :=
  JSON_stringify (valuesOf (heap m) (points m)).

Definition saveState (m : t) : t :=
  let pushed := undoStack m ++ [snapshot m] in
  let kept :=
    if (maxUndo <? Z.of_nat (length pushed))%Z then tail pushed
    else pushed in
  set_redoStack [] (set_undoStack kept m).

(** [this.points = JSON.parse(text)]: fresh objects. *)
Definition restore (text : JSONText) (m : t) : t :=
  let '(h, refs) := alloc (heap m) (JSON_parse text) in
  set_points refs (set_heap h m).

Definition undo (m : t) : bool * t :=
  match last (undoStack m) with
  | None => (false, m)
  | Some top =>
      let m1 := set_redoStack (redoStack m ++ [snapshot m]) m in
      let m2 := set_undoStack (removelast (undoStack m1)) m1 in
      (true, restore top m2)
  end.

Definition redo (m : t) : bool * t :=
  match last (redoStack m) with
  | None => (false, m)
  | Some top =>
      let m1 := set_undoStack (undoStack m ++ [snapshot m]) m in
      let m2 := set_redoStack (removelast (redoStack m1)) m1 in
      (true, restore top m2)
  end.

(** *** Point management *)

Definition sortPoints (m : t) : t :=
  set_points (sortByTime (heap m) (points m)) m.

Definition addPoint (time amplitude : float) (m : t) : t :=
  let m1 := saveState m in
  let '(h, refs) :=
    alloc (heap m1) [{| time := time; amplitude := amplitude |}] in
  sortPoints (set_points (points m1 ++ refs) (set_heap h m1)).

Definition removePoints (pointsToRemove : list ref) (m : t) : t :=
  let m1 := saveState m in
  set_points
    (filter (fun p => negb (JS.Set_has pointsToRemove p)) (points m1)) m1.

Definition updatePoint (point : ref) (newTime newAmplitude : float)
    (m : t) : t :=
  let h :=
    alter (fun _ => {| time := newTime; amplitude := newAmplitude |})
      point (heap m) in
  sortPoints (set_heap h m).

(** *** Selection management *)

Definition clearSelection (m : t) : t :=
  set_selectedPoint None (set_selectedPoints [] m).

Definition selectPoint (point : ref) (m : t) : t :=
  set_selectedPoint (Some point) (set_selectedPoints [] m).

Definition selectAllPoints (m : t) : t :=
  set_selectedPoint None (set_selectedPoints (JS.Set_of (points m)) m).

(** *** Clipboard operations *)

Definition copySelected (m : t) : t :=
  set_copiedPoints (valuesOf (heap m) (selectedPoints m)) m.

Definition pastePoints (m : t) : option (list ref) * t :=
  match copiedPoints m with
  | [] => (None, m)
  | first :: _ =>
      let m1 := saveState m in
      let startTime :=
        match last (points m1) with
        | Some lastPoint => timeOf (heap m1) lastPoint
        | None => 0%float
        end in
      let firstCopiedTime := time first in
      let newValues :=
        map (fun p =>
               {| time := startTime + (time p - firstCopiedTime);
                  amplitude := amplitude p |}%float)
            (copiedPoints m1) in
      let '(h, newPoints) := alloc (heap m1) newValues in
      let m2 := set_points (points m1 ++ newPoints) (set_heap h m1) in
      let m3 := set_selectedPoints (JS.Set_of newPoints) m2 in
      (Some newPoints, sortPoints m3)
  end.

(** *** Data loading *)

Definition loadPoints (newPoints : list ref) (m : t) : t :=
  let m1 := set_points newPoints m in
  let m2 := clearSelection m1 in
  set_redoStack [] (set_undoStack [] m2).

Definition hash (m : t) : JSONText := snapshot m.

End Methods.
End DataModel.


(* ================================================================= *)
(** ** canvasRenderer.js: the renderer's view of a data model *)

Record Canvas := { width : float; height : float }.

Module CanvasRenderer.

Definition visibleRange (dataModel : DataModel.t) : float :=
  visibleRange (DataModel.duration dataModel) (DataModel.zoom dataModel).

Definition timeToX (canvas : Canvas) (dataModel : DataModel.t) (t : float)
    : float :=
  timeToX (DataModel.duration dataModel) (DataModel.zoom dataModel)
    (DataModel.pan dataModel) (width canvas) t.

Definition xToTime (canvas : Canvas) (dataModel : DataModel.t) (x : float)
    : float :=
  xToTime (DataModel.duration dataModel) (DataModel.zoom dataModel)
    (DataModel.pan dataModel) (width canvas) x.

Definition amplitudeToY (canvas : Canvas) (a : float) : float :=
  amplitudeToY (height canvas) a.

Definition yToAmplitude (canvas : Canvas) (y : float) : float :=
  yToAmplitude (height canvas) y.

End CanvasRenderer.

(* ================================================================= *)
(** ** interaction.js: dragging *)

Record MouseEvent := { offsetX : float; offsetY : float; clientX : float }.

Module InteractionHandler.

Record t := {
  canvas : Canvas;
  dataModel : DataModel.t;
  isDragging : bool;
  draggingPoint : option ref;
  lastX : float;
  lastY : float;
  isCommandKey : bool
}.

Definition set_dataModel (dm : DataModel.t) (h : t) : t :=
  {| canvas := canvas h; dataModel := dm; isDragging := isDragging h;
     draggingPoint := draggingPoint h; lastX := lastX h; lastY := lastY h;
     isCommandKey := isCommandKey h |}.

(** The test of one candidate position in [dragPoints]. *)
Definition exceedsBounds (duration newTime newAmp : float) : bool :=
  (newTime <? 0)%float || JS.gtb newTime duration
  || (newAmp <? -1)%float || JS.gtb newAmp 1.

(** The [for (const p of selectedArray)] loop, which leaves at the first
    candidate that is out of bounds; the result is [canMove]. *)
Fixpoint canMoveAll (h : Heap) (duration dx dy : float)
    (selectedArray : list ref) : bool :=
  match selectedArray with
  | [] => true
  | p :: rest =>
      let newTime := (timeOf h p + dx)%float in
      let newAmp := (amplitudeOf h p + dy)%float in
      if exceedsBounds duration newTime newAmp then false
      else canMoveAll h duration dx dy rest
  end.

(** [p.time += dx; p.amplitude += dy] on the object [p] refers to. *)
Definition translate (dx dy : float) (p : Point) : Point :=
  {| time := time p + dx; amplitude := amplitude p + dy |}%float.

Definition moveAll (dx dy : float) (selectedArray : list ref) (h : Heap)
    : Heap :=
  fold_left (fun h p => alter (translate dx dy) p h) selectedArray h.

(** [dragPoints(e)], entered with [this.draggingPoint] set. *)
Definition dragPoints (point : ref) (e : MouseEvent) (h : t) : t :=
  let dm := dataModel h in
  let currentTime := CanvasRenderer.xToTime (canvas h) dm (offsetX e) in
  let previousTime := CanvasRenderer.xToTime (canvas h) dm (lastX h) in
  let dx := (currentTime - previousTime)%float in
  let currentAmp := CanvasRenderer.yToAmplitude (canvas h) (offsetY e) in
  let previousAmp := CanvasRenderer.yToAmplitude (canvas h) (lastY h) in
  let dy := (currentAmp - previousAmp)%float in
  let heap' :=
    if JS.Set_has (DataModel.selectedPoints dm) point then
      let selectedArray := DataModel.selectedPoints dm in
      if canMoveAll (DataModel.heap dm) (DataModel.duration dm) dx dy
           selectedArray
      then moveAll dx dy selectedArray (DataModel.heap dm)
      else DataModel.heap dm
    else
      let newTime := (timeOf (DataModel.heap dm) point + dx)%float in
      let newAmp := (amplitudeOf (DataModel.heap dm) point + dy)%float in
      if JS.geb newTime 0 && (newTime <=? DataModel.duration dm)%float
         && JS.geb newAmp (-1) && (newAmp <=? 1)%float
      then alter (fun _ => {| time := newTime; amplitude := newAmp |})
             point (DataModel.heap dm)
      else DataModel.heap dm in
  set_dataModel (DataModel.sortPoints (DataModel.set_heap heap' dm)) h.

(** The deltas [dragPoints] computes from the event and the last pointer
    position. *)
Definition dragDeltaTime (e : MouseEvent) (h : t) : float :=
  (CanvasRenderer.xToTime (canvas h) (dataModel h) (offsetX e)
   - CanvasRenderer.xToTime (canvas h) (dataModel h) (lastX h))%float.

Definition dragDeltaAmplitude (e : MouseEvent) (h : t) : float :=
  (CanvasRenderer.yToAmplitude (canvas h) (offsetY e)
   - CanvasRenderer.yToAmplitude (canvas h) (lastY h))%float.

End InteractionHandler.

(* ================================================================= *)
(** ** audioEngine.js: synthesis *)

(** A Web Audio [AudioBuffer]: each channel is a [Float32Array] of
    [length] samples. *)
Module AudioBuffer.
Record t := {
  numberOfChannels : nat;
  length : nat;
  sampleRate : float;
  channelData : list (list float)
}.
End AudioBuffer.

(** [array[i]] for an index that is a JavaScript number: [undefined]
    outside the array. *)
Definition at_index {A : Type} (l : list A) (i : Z) : option A :=
  if (i <? 0)%Z then None else l !! Z.to_nat i.

(** [array.findIndex(f)]: the first index whose element satisfies [f],
    or [-1]. *)
Fixpoint findIndexFrom {A : Type} (f : A -> bool) (l : list A) (i : Z) : Z :=
  match l with
  | [] => (-1)%Z
  | x :: l' => if f x then i else findIndexFrom f l' (i + 1)%Z
  end.

Definition findIndex {A : Type} (f : A -> bool) (l : list A) : Z :=
  findIndexFrom f l 0%Z.

Module AudioEngine.

(** [audioContext.createBuffer(numberOfChannels, length, sampleRate)]: a
    buffer of zeros.  The platform takes a length from [1] up to the
    largest [unsigned long]; no buffer is modelled for another length. *)
Definition createBuffer (numberOfChannels : nat) (length : JS.integral)
    (sampleRate : float) : option AudioBuffer.t :=
  match length with
  | Some n =>
      if (1 <=? n)%Z && (n <? 4294967296)%Z then
        Some {| AudioBuffer.numberOfChannels := numberOfChannels;
                AudioBuffer.length := Z.to_nat n;
                AudioBuffer.sampleRate := sampleRate;
                AudioBuffer.channelData :=
                  replicate numberOfChannels (replicate (Z.to_nat n) 0%float)
             |}
      else None
  | None => None
  end.

(** [points[points.length - 1]?.time || duration] *)
Definition totalTime (points : list Point) (duration : float) : float :=
  match last points with
  | Some lastPoint =>
      if JS.truthy (time lastPoint) then time lastPoint else duration
  | None => duration
  end.

Definition bufferLength (sampleRate : float) (points : list Point)
    (duration : float) : JS.integral :=
  JS.Math_ceil (sampleRate * totalTime points duration)%float.

(** The body of the sample loop: the amplitude at [time]. *)
Definition amplitudeAt (points : list Point) (time_ : float) : float :=
  let nextIndex := findIndex (fun p => JS.gtb (time p) time_) points in
  let nextIndex :=
    if (nextIndex =? -1)%Z then (Z.of_nat (length points) - 1)%Z
    else nextIndex in
  let prevIndex := Z.max 0 (nextIndex - 1) in
  let p1 := at_index points prevIndex in
  let p2 := at_index points nextIndex in
  match p1, p2 with
  | Some p1, Some p2 =>
      if JS.strict_neq (time p2) (time p1) then
        let t := ((time_ - time p1) / (time p2 - time p1))%float in
        (amplitude p1 + (amplitude p2 - amplitude p1) * t)%float
      else amplitude p1
  | Some p1, None => amplitude p1
  | None, _ => 0%float
  end.

(** [data[i] = amplitude] for [i] from [0] while [i < bufferLength]; the
    store rounds to binary32. *)
Definition fillSamples (sampleRate : float) (points : list Point)
    (count : nat) (data : list float) : list float :=
  fold_left
    (fun data i =>
       let time_ := (JS.of_nat i / sampleRate)%float in
       <[i := JS.Math_fround (amplitudeAt points time_)]> data)
    (seq 0 count) data.

(** [generateBuffer(points, duration)]; [sampleRate] is
    [this.audioContext.sampleRate]. *)
Definition generateBuffer (sampleRate : float) (points : list Point)
    (duration : float) : option AudioBuffer.t :=
  match createBuffer 1 (bufferLength sampleRate points duration) sampleRate
  with
  | None => None
  | Some buffer =>
      let data := default [] (AudioBuffer.channelData buffer !! 0) in
      let data' :=
        fillSamples sampleRate points (AudioBuffer.length buffer) data in
      Some {| AudioBuffer.numberOfChannels :=
                AudioBuffer.numberOfChannels buffer;
              AudioBuffer.length := AudioBuffer.length buffer;
              AudioBuffer.sampleRate := AudioBuffer.sampleRate buffer;
              AudioBuffer.channelData :=
                <[0 := data']> (AudioBuffer.channelData buffer) |}
  end.

(** [buffer.getChannelData(0)] of a generated buffer. *)
Definition samples (buffer : AudioBuffer.t) : list float :=
  default [] (AudioBuffer.channelData buffer !! 0).

End AudioEngine.

(* ================================================================= *)
(** ** fileIO.js: the WAV container *)

(** A [DataView] over a fresh [ArrayBuffer]: bytes, as integers below 256.
    The multi-byte writers are the little-endian ones. *)
Module DataView.

Abbreviation t := (list Z).

Definition create (byteLength : nat) : t := replicate byteLength 0%Z.

Definition setUint8 (byteOffset : nat) (value : Z) (view : t) : t :=
  <[byteOffset := (value mod 256)%Z]> view.

Definition setUint16 (byteOffset : nat) (value : Z) (view : t) : t :=
  let u := (value mod 65536)%Z in
  setUint8 (byteOffset + 1) (u / 256)%Z (setUint8 byteOffset u view).

Definition setUint32 (byteOffset : nat) (value : Z) (view : t) : t :=
  let u := (value mod 4294967296)%Z in
  setUint8 (byteOffset + 3) (u / 16777216)%Z
    (setUint8 (byteOffset + 2) (u / 65536)%Z
       (setUint8 (byteOffset + 1) (u / 256)%Z
          (setUint8 byteOffset u view))).

(** A signed 16-bit integer is stored as its two's complement bits. *)
Definition setInt16 (byteOffset : nat) (value : Z) (view : t) : t :=
  setUint16 byteOffset value view.

End DataView.

Module FileIO.

(** [writeString(offset, string)] *)
Fixpoint writeString (offset : nat) (s : string) (view : DataView.t)
    : DataView.t :=
  match s with
  | EmptyString => view
  | String c rest =>
      writeString (offset + 1) rest
        (DataView.setUint8 offset (Z.of_nat (Ascii.nat_of_ascii c)) view)
  end.

(** [buffer.getChannelData(ch)[i]]; a missing sample is [undefined], which
    [Math.min] reads as [NaN]. *)
Definition getSample (buffer : AudioBuffer.t) (ch i : nat) : float :=
  match AudioBuffer.channelData buffer !! ch with
  | Some data => default nan (data !! i)
  | None => nan
  end.

(** The three lines that turn a sample into the argument of [setInt16]. *)
Definition quantize (sample : float) : JS.integral :=
  let sample := JS.Math_max (-1) (JS.Math_min 1 sample) in
  let s :=
    if (sample <? 0)%float then (sample * 32768)%float   (* 0x8000 *)
    else (sample * 32767)%float in                       (* 0x7fff *)
  JS.Math_floor s.

(** The header writes, then the sample loops, which thread [pos]. *)
Definition writeHeader (numChannels : nat) (sampleRate : float)
    (dataSize : nat) (view : DataView.t) : DataView.t :=
  let bitsPerSample := 16 in
  let blockAlign := numChannels * (bitsPerSample / 8) in
  let byteRate := (sampleRate * JS.of_nat blockAlign)%float in
  let view := writeString 0 "RIFF" view in
  let view := DataView.setUint32 4 (Z.of_nat (36 + dataSize)) view in
  let view := writeString 8 "WAVE" view in
  let view := writeString 12 "fmt " view in
  let view := DataView.setUint32 16 16 view in
  let view := DataView.setUint16 20 1 view in
  let view := DataView.setUint16 22 (Z.of_nat numChannels) view in
  let view := DataView.setUint32 24 (JS.ToUint32 sampleRate) view in
  let view := DataView.setUint32 28 (JS.ToUint32 byteRate) view in
  let view := DataView.setUint16 32 (Z.of_nat blockAlign) view in
  let view := DataView.setUint16 34 (Z.of_nat bitsPerSample) view in
  let view := writeString 36 "data" view in
  DataView.setUint32 40 (Z.of_nat dataSize) view.

Definition writeFrame (buffer : AudioBuffer.t) (numChannels i : nat)
    (st : DataView.t * nat) : DataView.t * nat :=
  fold_left
    (fun '(view, pos) ch =>
       let v := quantize (getSample buffer ch i) in
       (DataView.setInt16 pos (JS.ToInt16 v) view, pos + 2))
    (seq 0 numChannels) st.

Definition audioBufferToWav (buffer : AudioBuffer.t) : DataView.t :=
  let numChannels := AudioBuffer.numberOfChannels buffer in
  let sampleRate := AudioBuffer.sampleRate buffer in
  let bitsPerSample := 16 in
  let blockAlign := numChannels * (bitsPerSample / 8) in
  let samples := AudioBuffer.length buffer in
  let dataSize := samples * blockAlign in
  let bufferLen := 44 + dataSize in
  let view := DataView.create bufferLen in
  let view := writeHeader numChannels sampleRate dataSize view in
  fst (fold_left (fun st i => writeFrame buffer numChannels i st)
         (seq 0 samples) (view, 44)).

End FileIO.

(* ================================================================= *)
(** ** dataModel.js: the exported functions over module-level state *)

(** A parsed JSON text. *)
Inductive JSON :=
| JNull
| JBool (b : bool)
| JNumber (x : float)
| JString (s : string)
| JArray (items : list JSON)
| JObject (members : list (string * JSON)).

(** How a statement ends: normally, or by a thrown error. *)
Inductive completion (A : Type) :=
| Normal (a : A)
| Throw (error : string).
Arguments Normal {A} a.
Arguments Throw {A} error.

Module FreeFunctions.

(** [points], [undoStack], [redoStack] and [copiedPoints]. *)
Record Store := {
  points : list Point;
  undoStack : list JSONText;
  redoStack : list JSONText;
  copiedPoints : list Point
}.

(** Statements read and write the store, and may throw: the store a throw
    leaves behind is the store at the point of the throw. *)
Definition M (A : Type) : Type := Store -> completion A * Store.

Definition ret {A : Type} (a : A) : M A := fun s => (Normal a, s).

Definition bind {A B : Type} (c : M A) (k : A -> M B) : M B :=
  fun s =>
    match c s with
    | (Normal a, s') => k a s'
    | (Throw e, s') => (Throw e, s')
    end.

Definition throw {A : Type} (e : string) : M A := fun s => (Throw e, s).

Definition lift {A : Type} (c : completion A) : M A := fun s => (c, s).

Definition modify (f : Store -> Store) : M unit := fun s => (Normal tt, f s).

(** [try { body } catch (err) { handler }] *)
Definition try_catch {A : Type} (body : M A) (handler : string -> M A)
    : M A :=
  fun s =>
    match body s with
    | (Normal a, s') => (Normal a, s')
    | (Throw e, s') => handler e s'
    end.

Notation "'let*' x := c 'in' k" := (bind c (fun x => k))
  (at level 10, x name, c at level 100, k at level 200).
Notation "'exec' c 'in' k" := (bind c (fun _ => k))
  (at level 10, c at level 100, k at level 200).

(** [array.map(f)] with a callback that may throw. *)
Fixpoint mapM {A B : Type} (f : A -> M B) (l : list A) : M (list B) :=
  match l with
  | [] => ret []
  | x :: l' => let* y := f x in let* ys := mapM f l' in ret (y :: ys)
  end.

Definition set_points (l : list Point) (s : Store) : Store :=
  {| points := l; undoStack := undoStack s; redoStack := redoStack s;
     copiedPoints := copiedPoints s |}.

(** [saveState()]: this variant keeps 100 snapshots. *)
Definition saveState_store (s : Store) : Store :=
  let pushed := undoStack s ++ [JSON_stringify (points s)] in
  let kept := if 100 <? length pushed then tail pushed else pushed in
  {| points := points s; undoStack := kept; redoStack := [];
     copiedPoints := copiedPoints s |}.

Definition saveState : M unit := modify saveState_store.

(** The last member of a parsed object with key [key], if any. *)
Fixpoint member (key : string) (members : list (string * JSON))
    : option JSON :=
  match members with
  | [] => None
  | (k, v) :: rest =>
      match member key rest with
      | Some v' => Some v'
      | None => if String.eqb k key then Some v else None
      end
  end.

(** [p.key] for a parsed value [p]: reading a property of [null] throws;
    a boolean, a number, a string and an array have no such property, so
    the result is [undefined] ([None]). *)
Definition getProperty (p : JSON) (key : string) : completion (option JSON) :=
  match p with
  | JNull => Throw "TypeError: Cannot read properties of null"
  | JObject members => Normal (member key members)
  | _ => Normal None
  end.

Section ImportFromJSON.

(** The number a string converts to, and the number an array or an object
    converts to through its primitive value (which may throw): both are
    the language's, and are left open. *)
Variable StringToNumber : string -> float.
Variable ObjectToNumber : JSON -> completion float.

(** Unary [+] on a property value. *)
Definition ToNumber (v : option JSON) : completion float :=
  match v with
  | None => Normal nan                       (* undefined *)
  | Some JNull => Normal 0%float
  | Some (JBool b) => Normal (if b then 1 else 0)%float
  | Some (JNumber x) => Normal x
  | Some (JString s) => Normal (StringToNumber s)
  | Some o => ObjectToNumber o
  end.

(** [p => ({ time: +p.time, amplitude: +p.amplitude })] *)
Definition toPoint (p : JSON) : M Point :=
  let* t := lift (getProperty p "time") in
  let* time_ := lift (ToNumber t) in
  let* a := lift (getProperty p "amplitude") in
  let* amplitude_ := lift (ToNumber a) in
  ret {| time := time_; amplitude := amplitude_ |}.

(** [importFromJSON(jsonText)].  [parsed] is what [JSON.parse(jsonText)]
    gives: [None] when it throws a [SyntaxError].  The result is the
    message passed to [console.error], if any, and the store. *)
Definition importFromJSON (parsed : option JSON) (s : Store)
    : option string * Store :=
  let body : M (option string) :=
    let* data := match parsed with
                 | Some data => ret data
                 | None => throw "SyntaxError"
                 end in
    let* items := match data with
                  | JArray items => ret items
                  | _ => throw "Invalid JSON format"
                  end in
    let* newPoints := mapM toPoint items in
    exec modify (set_points newPoints) in
    exec saveState in
    ret None in
  match try_catch body (fun err => ret (Some err)) s with
  | (Normal logged, s') => (logged, s')
  | (Throw e, s') => (Some e, s')
  end.

(** An entry whose [time] and [amplitude] are finite JSON numbers. *)
Definition finiteNumber (v : option JSON) : bool :=
  match v with
  | Some (JNumber x) => is_finite x
  | _ => false
  end.

Definition wellFormedEntry (p : JSON) : bool :=
  match p with
  | JObject members =>
      finiteNumber (member "time" members)
      && finiteNumber (member "amplitude" members)
  | _ => false
  end.

(** What [toPoint] makes of an entry when nothing throws: the point [q]
    holds the entry's [time] and [amplitude] after unary [+]. *)
Definition converts (p : JSON) (q : Point) : Prop :=
  exists t a,
    getProperty p "time" = Normal t
    /\ ToNumber t = Normal (time q)
    /\ getProperty p "amplitude" = Normal a
    /\ ToNumber a = Normal (amplitude q).

End ImportFromJSON.
End FreeFunctions.

(* ================================================================= *)
(** ** The specification's wording of the sample amplitude

    "Let [p2] be the first point with [time > t] (or the last point if
    none); let [p1] be its predecessor (or [p2] itself if none precedes).
    If [p1 != p2] and their times differ, amplitude = linear interpolation
    of their amplitudes at [t]; if only [p1] exists, amplitude =
    [p1.amplitude]; if the sequence is empty, amplitude = 0." *)

Module Spec.

(** The position of the first point with [time > t]. *)
Fixpoint firstAfter (t : float) (points : list Point) : option nat :=
  match points with
  | [] => None
  | p :: rest =>
      if JS.gtb (time p) t then Some 0
      else option_map S (firstAfter t rest)
  end.

(** The position of [p2]; there is none in an empty sequence. *)
Definition p2_position (points : list Point) (t : float) : option nat :=
  match firstAfter t points with
  | Some j => Some j
  | None =>
      match points with
      | [] => None
      | _ :: _ => Some (length points - 1)
      end
  end.

(** The position of [p1]: the predecessor, or the position itself. *)
Definition p1_position (j : nat) : nat := Nat.pred j.

Definition interpolation (p1 p2 : Point) (t : float) : float :=
  (amplitude p1
   + (amplitude p2 - amplitude p1)
     * ((t - time p1) / (time p2 - time p1)))%float.

Definition amplitudeAt (points : list Point) (t : float) : float :=
  match p2_position points t with
  | None => 0%float
  | Some j =>
      let i := p1_position j in
      match points !! i, points !! j with
      | Some p1, Some p2 =>
          if negb (i =? j) && JS.strict_neq (time p2) (time p1)
          then interpolation p1 p2 t
          else amplitude p1
      | _, _ => 0%float
      end
  end.

End Spec.

(* ================================================================= *)
(** ** Sequences of operations on a data model *)

Inductive Operation :=
| AddPoint (time amplitude : float)
| RemovePoints (pointsToRemove : list ref)
| UpdatePoint (point : ref) (newTime newAmplitude : float)
| SelectPoint (point : ref)
| SelectAllPoints
| ClearSelection
| CopySelected
| PastePoints
| SaveState
| Undo
| Redo
| LoadPoints (newPoints : list ref)
| DragPoints (canvas : Canvas) (lastX lastY : float) (point : ref)
    (e : MouseEvent).

Definition perform (CONFIG : Config) (m : DataModel.t) (op : Operation)
    : DataModel.t :=
  match op with
  | AddPoint t a => DataModel.addPoint CONFIG t a m
  | RemovePoints l => DataModel.removePoints CONFIG l m
  | UpdatePoint p t a => DataModel.updatePoint p t a m
  | SelectPoint p => DataModel.selectPoint p m
  | SelectAllPoints => DataModel.selectAllPoints m
  | ClearSelection => DataModel.clearSelection m
  | CopySelected => DataModel.copySelected m
  | PastePoints => snd (DataModel.pastePoints CONFIG m)
  | SaveState => DataModel.saveState CONFIG m
  | Undo => snd (DataModel.undo m)
  | Redo => snd (DataModel.redo m)
  | LoadPoints l => DataModel.loadPoints l m
  | DragPoints canvas lastX lastY point e =>
      InteractionHandler.dataModel
        (InteractionHandler.dragPoints point e
           {| InteractionHandler.canvas := canvas;
              InteractionHandler.dataModel := m;
              InteractionHandler.isDragging := true;
              InteractionHandler.draggingPoint := Some point;
              InteractionHandler.lastX := lastX;
              InteractionHandler.lastY := lastY;
              InteractionHandler.isCommandKey := false |})
  end.

Definition performAll (CONFIG : Config) (ops : list Operation)
    : DataModel.t :=
  fold_left (perform CONFIG) ops (DataModel.constructor CONFIG).

(** [saveState()] once for each sequence of [sequences], each installed as
    the current sequence before its snapshot is taken. *)
Definition pushSnapshots (CONFIG : Config) (sequences : list (list ref))
    (m : DataModel.t) : DataModel.t :=
  fold_left
    (fun m l => DataModel.saveState CONFIG (DataModel.set_points l m))
    sequences m.

(* ================================================================= *)
(** ** Vocabulary of the properties *)

(** A position inside [[0, duration] x [-1, 1]]. *)
Definition inBounds (duration t a : float) : bool :=
  (0 <=? t)%float && (t <=? duration)%float
  && (-1 <=? a)%float && (a <=? 1)%float.

(** The position a selected point would move to. *)
Definition candidateTime (h : Heap) (dx : float) (r : ref) : float :=
  (timeOf h r + dx)%float.
Definition candidateAmplitude (h : Heap) (dy : float) (r : ref) : float :=
  (amplitudeOf h r + dy)%float.

(** Undo and redo move snapshots between the two stacks, so the bound is
    kept on both together. *)
Definition historyBounded (CONFIG : Config) (m : DataModel.t) : Prop :=
  (Z.of_nat (length (DataModel.undoStack m))
   + Z.of_nat (length (DataModel.redoStack m))
   <= DataModel.maxUndo CONFIG)%Z.

(** The snapshot of the sequence [l] of objects of [h]. *)
Definition snapshotOf (h : Heap) (l : list ref) : JSONText :=
  JSON_stringify (valuesOf h l).

(** The order the sort's comparator leaves two neighbours in: [a] before
    [b] when [a.time - b.time] is not positive. *)
Definition inOrder (h : Heap) (a b : ref) : Prop :=
  (0 <? comparator h a b)%float = false.

(** One [setInt16] at [pos], followed by [pos += 2]. *)
Definition put16 (st : DataView.t * nat) (value : Z) : DataView.t * nat :=
  (DataView.setInt16 (snd st) value (fst st), snd st + 2).

(** The two little-endian bytes of a signed 16-bit integer. *)
Definition lowByte (value : Z) : Z := (value mod 256)%Z.
Definition highByte (value : Z) : Z := ((value / 256) mod 256)%Z.

(** The integer the sample loop writes for channel [ch] of frame [i], and
    the integers of one frame. *)
Definition pcmValue (buffer : AudioBuffer.t) (ch i : nat) : Z :=
  JS.ToInt16 (FileIO.quantize (FileIO.getSample buffer ch i)).

Definition frameValues (buffer : AudioBuffer.t) (numChannels i : nat)
    : list Z :=
  map (fun ch => pcmValue buffer ch i) (seq 0 numChannels).

(* ================================================================= *)
(** ** The examples of the specification *)

(** Synthesis: points [(0, 0)] and [(1, 1)]. *)
Definition examplePoints : list Point :=
  [ {| time := 0; amplitude := 0 |}; {| time := 1; amplitude := 1 |} ].

(** Group move: [A(time = 0.1)] and [B(time = 9.99)], both selected, in a
    model of duration 10 shown at zoom 10 on a 1000 x 500 canvas; the
    pointer goes from x = 100 to x = 120, which is 0.02 s. *)
Definition exampleModel : DataModel.t :=
  {| DataModel.heap := [ {| time := 0.1; amplitude := 0.2 |};
                         {| time := 9.99; amplitude := 0.5 |} ];
     DataModel.points := [0; 1];
     DataModel.selectedPoints := [0; 1];
     DataModel.selectedPoint := None;
     DataModel.copiedPoints := [];
     DataModel.undoStack := [];
     DataModel.redoStack := [];
     DataModel.duration := 10;
     DataModel.zoom := 10;
     DataModel.pan := 0 |}.

Definition exampleHandler : InteractionHandler.t :=
  {| InteractionHandler.canvas := {| width := 1000; height := 500 |};
     InteractionHandler.dataModel := exampleModel;
     InteractionHandler.isDragging := true;
     InteractionHandler.draggingPoint := Some 0;
     InteractionHandler.lastX := 100;
     InteractionHandler.lastY := 100;
     InteractionHandler.isCommandKey := false |}.

Definition exampleDrag : MouseEvent :=
  {| offsetX := 120; offsetY := 100; clientX := 120 |}.

(** A clipboard of one point, over an empty sequence. *)
Definition emptyWithClipboard : DataModel.t :=
  DataModel.set_copiedPoints [ {| time := 2; amplitude := 0.5 |} ]
    (DataModel.constructor DEFAULT_CONFIG).

(** One point [(1, 0.5)], added and then selected. *)
Definition onePointSelected : DataModel.t :=
  DataModel.selectAllPoints
    (DataModel.addPoint DEFAULT_CONFIG 1 0.5
       (DataModel.constructor DEFAULT_CONFIG)).

(** A mono buffer of one sample, [-2^-16]. *)
Definition quietSample : AudioBuffer.t :=
  {| AudioBuffer.numberOfChannels := 1;
     AudioBuffer.length := 1;
     AudioBuffer.sampleRate := 44100;
     AudioBuffer.channelData := [[(-0.0000152587890625)%float]] |}.

(** An import payload of one entry whose time is not finite, and an empty
    store. *)
Definition nonFiniteEntry : JSON :=
  JObject [("time"%string, JNumber infinity);
           ("amplitude"%string, JNumber 0.5%float)].

Definition emptyStore : FreeFunctions.Store :=
  {| FreeFunctions.points := []; FreeFunctions.undoStack := [];
     FreeFunctions.redoStack := []; FreeFunctions.copiedPoints := [] |}.

(* ================================================================= *)
(** ** canvasRenderer.js: the hit test *)

(** The predicate of [pickPointAt]: the pointer is within [tolerancePx]
    of the point's drawn position on both axes. *)
Definition withinTolerance (canvas : Canvas) (dataModel : DataModel.t)
    (x y tolerancePx : float) (p : ref) : bool :=
  let h := DataModel.heap dataModel in
  (abs (CanvasRenderer.timeToX canvas dataModel (timeOf h p) - x)
   <? tolerancePx)%float
  && (abs (CanvasRenderer.amplitudeToY canvas (amplitudeOf h p) - y)
      <? tolerancePx)%float.

(** [dataModel.points.find(...)]: the first point of the sequence that
    passes, or [undefined]. *)
Definition pickPointAt (canvas : Canvas) (dataModel : DataModel.t)
    (x y tolerancePx : float) : option ref :=
  List.find (withinTolerance canvas dataModel x y tolerancePx)
    (DataModel.points dataModel).

(* ================================================================= *)
(** ** interaction.js: the event handlers *)

(** The pan the wheel handler asks for when it zooms,
    [mxTime - (e.offsetX / this.canvas.width) * visible]: like the
    coordinate maps it is written over any carrier. *)
Section ZoomAtPointer.
Context {N : Type} `{Arith N}.

Definition panUnderPointer (mxTime x width visible : N) : N :=
  sub mxTime (mul (div x width) visible).
End ZoomAtPointer.

Record SelectionBox := {
  box_x : float; box_y : float; box_width : float; box_height : float
}.

Record WheelEvent := { deltaX : float; deltaY : float; wheelOffsetX : float }.

Record KeyboardEvent := {
  key : string; metaKey : bool; ctrlKey : bool; shiftKey : bool
}.

(** The handler's fields that dragging does not read are kept beside the
    ones it does. *)
Module Interaction.

Record t := {
  handler : InteractionHandler.t;
  mouseDownTime : float;
  selectionBox : option SelectionBox;
  selectionStart : float * float
}.

Definition dataModel (s : t) : DataModel.t :=
  InteractionHandler.dataModel (handler s).

Definition set_handler (h : InteractionHandler.t) (s : t) : t :=
  {| handler := h; mouseDownTime := mouseDownTime s;
     selectionBox := selectionBox s; selectionStart := selectionStart s |}.

Definition set_dataModel (dm : DataModel.t) (s : t) : t :=
  set_handler (InteractionHandler.set_dataModel dm (handler s)) s.

Definition set_isCommandKey (b : bool) (s : t) : t :=
  let h := handler s in
  set_handler
    {| InteractionHandler.canvas := InteractionHandler.canvas h;
       InteractionHandler.dataModel := InteractionHandler.dataModel h;
       InteractionHandler.isDragging := InteractionHandler.isDragging h;
       InteractionHandler.draggingPoint := InteractionHandler.draggingPoint h;
       InteractionHandler.lastX := InteractionHandler.lastX h;
       InteractionHandler.lastY := InteractionHandler.lastY h;
       InteractionHandler.isCommandKey := b |} s.

Definition set_last (x y : float) (s : t) : t :=
  let h := handler s in
  set_handler
    {| InteractionHandler.canvas := InteractionHandler.canvas h;
       InteractionHandler.dataModel := InteractionHandler.dataModel h;
       InteractionHandler.isDragging := InteractionHandler.isDragging h;
       InteractionHandler.draggingPoint := InteractionHandler.draggingPoint h;
       InteractionHandler.lastX := x;
       InteractionHandler.lastY := y;
       InteractionHandler.isCommandKey := InteractionHandler.isCommandKey h |}
    s.

Definition constructor (canvas : Canvas) (dataModel : DataModel.t) : t :=
  {| handler :=
       {| InteractionHandler.canvas := canvas;
          InteractionHandler.dataModel := dataModel;
          InteractionHandler.isDragging := false;
          InteractionHandler.draggingPoint := None;
          InteractionHandler.lastX := 0;
          InteractionHandler.lastY := 0;
          InteractionHandler.isCommandKey := false |};
     mouseDownTime := 0;
     selectionBox := None;
     selectionStart := (0%float, 0%float) |}.

(** The test of the rubber band: the drawn position of [p] is inside the
    rectangle. *)
Definition insideBox (canvas : Canvas) (dm : DataModel.t)
    (left right top bottom : float) (p : ref) : bool :=
  let x := CanvasRenderer.timeToX canvas dm (timeOf (DataModel.heap dm) p) in
  let y :=
    CanvasRenderer.amplitudeToY canvas (amplitudeOf (DataModel.heap dm) p) in
  JS.geb x left && (x <=? right)%float && JS.geb y top && (y <=? bottom)%float.

(** [this.dataModel.points.forEach(p => { if (...) selectedPoints.add(p) })] *)
Definition boxSelect (canvas : Canvas) (left right top bottom : float)
    (dm : DataModel.t) : DataModel.t :=
  DataModel.set_selectedPoints
    (fold_left
       (fun selected p =>
          if insideBox canvas dm left right top bottom p
          then JS.Set_add selected p else selected)
       (DataModel.points dm) (DataModel.selectedPoints dm))
    dm.

Section Handlers.
Variable CONFIG : Config.

(** [Math.exp] is the platform's; the handlers are written over it. *)
Variable Math_exp : float -> float.

(** [onMouseDown(e)]; [now] is what [performance.now()] returns. *)
Definition onMouseDown (now : float) (e : MouseEvent) (s : t) : t :=
  let h := handler s in
  let canvas := InteractionHandler.canvas h in
  let command := InteractionHandler.isCommandKey h in
  let dm := InteractionHandler.dataModel h in
  let pick dm :=
    pickPointAt canvas dm (offsetX e) (offsetY e) (POINT_HIT_RADIUS CONFIG) in
  let dm1 :=
    if negb command then
      match pick dm with
      | None => DataModel.clearSelection dm
      | Some clickedPoint =>
          if negb (JS.Set_has (DataModel.selectedPoints dm) clickedPoint)
          then DataModel.selectPoint clickedPoint dm
          else dm
      end
    else dm in
  let draggingPoint :=
    if command then InteractionHandler.draggingPoint h else pick dm1 in
  let dm2 :=
    if command then dm1
    else match draggingPoint with
         | Some _ => DataModel.saveState CONFIG dm1
         | None => dm1
         end in
  {| handler :=
       {| InteractionHandler.canvas := canvas;
          InteractionHandler.dataModel := dm2;
          InteractionHandler.isDragging := true;
          InteractionHandler.draggingPoint := draggingPoint;
          InteractionHandler.lastX := clientX e;
          InteractionHandler.lastY := offsetY e;
          InteractionHandler.isCommandKey := command |};
     mouseDownTime := now;
     selectionBox :=
       if command
       then Some {| box_x := offsetX e; box_y := offsetY e;
                    box_width := 0; box_height := 0 |}
       else selectionBox s;
     selectionStart :=
       if command then (offsetX e, offsetY e) else selectionStart s |}.

(** [onMouseUp(e)]: a short press that is not on a point, with the command
    key up, creates a point under the pointer. *)
Definition onMouseUp (now : float) (e : MouseEvent) (s : t) : t :=
  let h := handler s in
  let canvas := InteractionHandler.canvas h in
  let dm := InteractionHandler.dataModel h in
  let clickDuration := (now - mouseDownTime s)%float in
  let dm1 :=
    if (clickDuration <? 200)%float
       && negb (bool_decide (is_Some (InteractionHandler.draggingPoint h)))
       && negb (InteractionHandler.isCommandKey h)
    then
      let t := CanvasRenderer.xToTime canvas dm (offsetX e) in
      let a := CanvasRenderer.yToAmplitude canvas (offsetY e) in
      DataModel.addPoint CONFIG t a dm
    else dm in
  {| handler :=
       {| InteractionHandler.canvas := canvas;
          InteractionHandler.dataModel := dm1;
          InteractionHandler.isDragging := false;
          InteractionHandler.draggingPoint := None;
          InteractionHandler.lastX := InteractionHandler.lastX h;
          InteractionHandler.lastY := InteractionHandler.lastY h;
          InteractionHandler.isCommandKey := InteractionHandler.isCommandKey h
       |};
     mouseDownTime := mouseDownTime s;
     selectionBox := None;
     selectionStart := selectionStart s |}.

Definition panCanvas (e : MouseEvent) (s : t) : t :=
  let h := handler s in
  let dm := InteractionHandler.dataModel h in
  let dx := (clientX e - InteractionHandler.lastX h)%float in
  let visible := CanvasRenderer.visibleRange dm in
  let pan :=
    JS.Math_max 0
      (JS.Math_min (DataModel.duration dm - visible)
         (DataModel.pan dm
          - dx / width (InteractionHandler.canvas h) * visible
            * PAN_MOUSE_SENSITIVITY CONFIG))%float in
  set_dataModel (DataModel.set_pan pan dm) s.

(** The rubber band branch of [onMouseMove]. *)
Definition dragSelectionBox (box : SelectionBox) (e : MouseEvent) (s : t)
    : t :=
  let h := handler s in
  let start := selectionStart s in
  let box' :=
    {| box_x := box_x box; box_y := box_y box;
       box_width := (offsetX e - fst start)%float;
       box_height := (offsetY e - snd start)%float |} in
  let left := JS.Math_min (fst start) (offsetX e) in
  let right := JS.Math_max (fst start) (offsetX e) in
  let top := JS.Math_min (snd start) (offsetY e) in
  let bottom := JS.Math_max (snd start) (offsetY e) in
  let dm :=
    boxSelect (InteractionHandler.canvas h) left right top bottom
      (InteractionHandler.dataModel h) in
  {| handler := InteractionHandler.set_dataModel dm h;
     mouseDownTime := mouseDownTime s;
     selectionBox := Some box';
     selectionStart := start |}.

Definition onMouseMove (e : MouseEvent) (s : t) : t :=
  let h := handler s in
  if negb (InteractionHandler.isDragging h) then s
  else
    let moved :=
      match selectionBox s, InteractionHandler.isCommandKey h,
            InteractionHandler.draggingPoint h with
      | Some box, true, _ => dragSelectionBox box e s
      | _, _, Some point =>
          set_handler (InteractionHandler.dragPoints point e h) s
      | _, _, None => panCanvas e s
      end in
    set_last (offsetX e) (offsetY e) moved.

Definition onWheel (e : WheelEvent) (s : t) : t :=
  let h := handler s in
  let canvas := InteractionHandler.canvas h in
  let dm := InteractionHandler.dataModel h in
  if JS.gtb (abs (deltaX e)) (abs (deltaY e)) then
    (* horizontal pan *)
    let visible := CanvasRenderer.visibleRange dm in
    let pan :=
      JS.Math_max 0
        (JS.Math_min (DataModel.duration dm - visible)
           (DataModel.pan dm
            + deltaX e / PAN_WHEEL_SENSITIVITY CONFIG * visible))%float in
    set_dataModel (DataModel.set_pan pan dm) s
  else
    (* vertical zoom *)
    let mxTime := CanvasRenderer.xToTime canvas dm (wheelOffsetX e) in
    let factor := Math_exp (- deltaY e * ZOOM_SENSITIVITY CONFIG)%float in
    let zoom :=
      JS.Math_max (ZOOM_MIN CONFIG)
        (JS.Math_min (ZOOM_MAX CONFIG) (DataModel.zoom dm * factor))%float in
    let dm1 := DataModel.set_zoom zoom dm in
    let visible := CanvasRenderer.visibleRange dm1 in
    let pan :=
      JS.Math_max 0
        (JS.Math_min (DataModel.duration dm1 - visible)
           (panUnderPointer mxTime (wheelOffsetX e) (width canvas) visible))
      %float in
    set_dataModel (DataModel.set_pan pan dm1) s.

(** The Backspace/Delete branch of [onKeyDown]: the selection set if it is
    not empty, else [new Set([selectedPoint])]. *)
Definition deleteSelection (dm : DataModel.t) : DataModel.t :=
  let nonEmpty := negb (length (DataModel.selectedPoints dm) =? 0) in
  let toRemove :=
    if nonEmpty then Some (DataModel.selectedPoints dm)
    else match DataModel.selectedPoint dm with
         | Some p => Some (JS.Set_of [p])
         | None => None
         end in
  match toRemove with
  | Some pointsToRemove =>
      DataModel.clearSelection (DataModel.removePoints CONFIG pointsToRemove dm)
  | None => dm
  end.

Definition onKeyDown (e : KeyboardEvent) (s : t) : t :=
  let command := metaKey e || ctrlKey e in
  let s1 := if command then set_isCommandKey true s else s in
  let dm := dataModel s1 in
  if command && String.eqb (key e) "a" then
    set_dataModel (DataModel.selectAllPoints dm) s1
  else if command && String.eqb (key e) "c" then
    set_dataModel (DataModel.copySelected dm) s1
  else if command && String.eqb (key e) "v" then
    set_dataModel (snd (DataModel.pastePoints CONFIG dm)) s1
  else if command && String.eqb (key e) "z" && negb (shiftKey e) then
    set_dataModel (snd (DataModel.undo dm)) s1
  else if command && String.eqb (key e) "z" && shiftKey e then
    set_dataModel (snd (DataModel.redo dm)) s1
  else if String.eqb (key e) "Backspace" || String.eqb (key e) "Delete" then
    set_dataModel (deleteSelection dm) s1
  else s1.

Definition onKeyUp (e : KeyboardEvent) (s : t) : t :=
  if String.eqb (key e) "Meta" || String.eqb (key e) "Control"
  then set_isCommandKey false s
  else s.

End Handlers.
End Interaction.

(** What the listeners receive, and a session: the handlers run one after
    the other on the state the constructor sets up. *)
Inductive Event :=
| MouseDown (now : float) (e : MouseEvent)
| MouseUp (now : float) (e : MouseEvent)
| MouseMove (e : MouseEvent)
| Wheel (e : WheelEvent)
| KeyDown (e : KeyboardEvent)
| KeyUp (e : KeyboardEvent).

Definition dispatch (CONFIG : Config) (Math_exp : float -> float)
    (s : Interaction.t) (ev : Event) : Interaction.t :=
  match ev with
  | MouseDown now e => Interaction.onMouseDown CONFIG now e s
  | MouseUp now e => Interaction.onMouseUp CONFIG now e s
  | MouseMove e => Interaction.onMouseMove CONFIG e s
  | Wheel e => Interaction.onWheel CONFIG Math_exp e s
  | KeyDown e => Interaction.onKeyDown CONFIG e s
  | KeyUp e => Interaction.onKeyUp e s
  end.

Definition session (CONFIG : Config) (Math_exp : float -> float)
    (canvas : Canvas) (events : list Event) : Interaction.t :=
  fold_left (dispatch CONFIG Math_exp) events
    (Interaction.constructor canvas (DataModel.constructor CONFIG)).

(* ================================================================= *)
(** ** Arrays of point values

    Where no object is shared (the exported functions of dataModel.js, the
    points read from an audio file) an array of points is the list of its
    values; the sort is the same stable sort. *)

Fixpoint insertValue (a : Point) (l : list Point) : list Point :=
  match l with
  | [] => [a]
  | b :: l' =>
      if (0 <? time a - time b)%float then b :: insertValue a l'
      else a :: l
  end.

Definition sortValues (l : list Point) : list Point :=
  foldr insertValue [] l.

(** ** JSON texts as strings

    Two texts written by [JSON.stringify] are the same string when they
    have the same fields: a finite number is written with the shortest
    digits that read back as it (so two finite numbers are written alike
    only if they are equal, zero and negative zero both being [0]), and a
    number that is not finite is written [null]. *)

Definition JSON_field (x : float) : option float :=
  if is_finite x then Some (JSON_number x) else None.

Definition JSON_fields (s : JSONText) : list (option float * option float) :=
  match s with
  | JSON_stringify vals =>
      map (fun p => (JSON_field (time p), JSON_field (amplitude p))) vals
  end.

Definition field_eqb (a b : option float) : bool :=
  match a, b with
  | Some x, Some y => PrimFloat.Leibniz.eqb x y
  | None, None => true
  | _, _ => false
  end.

Fixpoint fields_eqb (a b : list (option float * option float)) : bool :=
  match a, b with
  | [], [] => true
  | (t1, a1) :: a', (t2, a2) :: b' =>
      field_eqb t1 t2 && field_eqb a1 a2 && fields_eqb a' b'
  | _, _ => false
  end.

(** [a === b] on two such texts. *)
Definition JSON_text_eqb (a b : JSONText) : bool :=
  fields_eqb (JSON_fields a) (JSON_fields b).

(* ================================================================= *)
(** ** audioEngine.js: playback and the buffer cache *)

Module AudioPlayback.

(** [currentSource] is the buffer source node, known by the buffer it
    plays; [lastPointsHash] is [None] for the initial empty string, which
    no text of [JSON.stringify] equals. *)
Record t := {
  isPlaying : bool;
  currentSource : option AudioBuffer.t;
  cachedBuffer : option AudioBuffer.t;
  lastPointsHash : option JSONText
}.

Definition constructor : t :=
  {| isPlaying := false; currentSource := None; cachedBuffer := None;
     lastPointsHash := None |}.

Definition hashPoints (points : list Point) : JSONText :=
  JSON_stringify points.

(** [currentHash !== this.lastPointsHash || !this.cachedBuffer] *)
Definition stale (currentHash : JSONText) (a : t) : bool :=
  match lastPointsHash a with
  | Some h => negb (JSON_text_eqb currentHash h)
  | None => true
  end
  || negb (bool_decide (is_Some (cachedBuffer a))).

(** [play(points, duration)]: [None] when [generateBuffer] throws, which
    leaves the engine as it was. *)
Definition play (sampleRate : float) (points : list Point) (duration : float)
    (a : t) : option t :=
  let currentHash := hashPoints points in
  let refreshed :=
    if stale currentHash a then
      match AudioEngine.generateBuffer sampleRate points duration with
      | Some buffer => Some (Some buffer, Some currentHash)
      | None => None
      end
    else Some (cachedBuffer a, lastPointsHash a) in
  match refreshed with
  | Some (cached, hash) =>
      Some {| isPlaying := true; currentSource := cached;
              cachedBuffer := cached; lastPointsHash := hash |}
  | None => None
  end.

Definition stop (a : t) : t :=
  match currentSource a with
  | Some _ =>
      {| isPlaying := false; currentSource := currentSource a;
         cachedBuffer := cachedBuffer a; lastPointsHash := lastPointsHash a |}
  | None => a
  end.

End AudioPlayback.

(* ================================================================= *)
(** ** fileIO.js: points from decoded audio *)

Module AudioImport.

(** [Math.min(Math.floor(maxDuration * sampleRate), channelData.length)]
    as the number of turns of [for (let i = 0; i < totalSamples; i++)]:
    none for a bound that is NaN or not positive, all of the channel for a
    bound of [+Infinity]. *)
Definition totalSamples (maxDuration sampleRate : float) (available : nat)
    : nat :=
  let wanted := (maxDuration * sampleRate)%float in
  match JS.Math_floor wanted with
  | Some n => Z.to_nat (Z.min n (Z.of_nat available))
  | None => if (0 <? wanted)%float then available else 0
  end.

(** [loadAudio(file)], from the decoded [audioBuffer] on; [duration] is
    [audioBuffer.duration]. *)
Definition loadAudio (CONFIG : Config) (duration : float)
    (audioBuffer : AudioBuffer.t) : list Point :=
  let maxDuration :=
    JS.Math_min duration (MAX_AUDIO_IMPORT_DURATION CONFIG) in
  let sampleRate := AudioBuffer.sampleRate audioBuffer in
  let channelData := default [] (AudioBuffer.channelData audioBuffer !! 0) in
  let count := totalSamples maxDuration sampleRate (length channelData) in
  let points :=
    map (fun i =>
           {| time := (JS.of_nat i / sampleRate)%float;
              amplitude := default nan (channelData !! i) |})
        (seq 0 count) in
  sortValues points.

End AudioImport.

(* ================================================================= *)
(** ** dataModel.js: the exported editing functions

    They work on the module-level store, and take their snapshot after
    the change.  ([removePoints] and [updatePoint] find their targets by
    object identity and are not among them.) *)

Module FreeEdits.

Definition undo (s : FreeFunctions.Store) : FreeFunctions.Store :=
  match last (FreeFunctions.undoStack s) with
  | None => s
  | Some top =>
      {| FreeFunctions.points := JSON_parse top;
         FreeFunctions.undoStack := removelast (FreeFunctions.undoStack s);
         FreeFunctions.redoStack :=
           FreeFunctions.redoStack s
           ++ [JSON_stringify (FreeFunctions.points s)];
         FreeFunctions.copiedPoints := FreeFunctions.copiedPoints s |}
  end.

Definition redo (s : FreeFunctions.Store) : FreeFunctions.Store :=
  match last (FreeFunctions.redoStack s) with
  | None => s
  | Some top =>
      {| FreeFunctions.points := JSON_parse top;
         FreeFunctions.undoStack :=
           FreeFunctions.undoStack s
           ++ [JSON_stringify (FreeFunctions.points s)];
         FreeFunctions.redoStack := removelast (FreeFunctions.redoStack s);
         FreeFunctions.copiedPoints := FreeFunctions.copiedPoints s |}
  end.

(** [p => ({ time: p.time, amplitude: p.amplitude })] *)
Definition copyOf (p : Point) : Point :=
  {| time := time p; amplitude := amplitude p |}.

Definition setPoints (newPoints : list Point) (s : FreeFunctions.Store)
    : FreeFunctions.Store :=
  FreeFunctions.saveState_store
    (FreeFunctions.set_points (map copyOf newPoints) s).

Definition addPoint (time amplitude : float) (s : FreeFunctions.Store)
    : FreeFunctions.Store :=
  let pushed :=
    FreeFunctions.points s ++ [{| time := time; amplitude := amplitude |}] in
  FreeFunctions.saveState_store
    (FreeFunctions.set_points (sortValues pushed) s).

Definition copyPoints (selectedPoints : list Point)
    (s : FreeFunctions.Store) : FreeFunctions.Store :=
  {| FreeFunctions.points := FreeFunctions.points s;
     FreeFunctions.undoStack := FreeFunctions.undoStack s;
     FreeFunctions.redoStack := FreeFunctions.redoStack s;
     FreeFunctions.copiedPoints := map copyOf selectedPoints |}.

(** [pastePoints(offset = 0.1)]: the result is the array it returns. *)
Definition pastePoints (offset : float) (s : FreeFunctions.Store)
    : list Point * FreeFunctions.Store :=
  match FreeFunctions.copiedPoints s with
  | [] => ([], s)
  | _ :: _ =>
      let newPoints :=
        map (fun p => {| time := (time p + offset)%float;
                         amplitude := amplitude p |})
            (FreeFunctions.copiedPoints s) in
      (newPoints,
       FreeFunctions.saveState_store
         (FreeFunctions.set_points
            (sortValues (FreeFunctions.points s ++ newPoints)) s))
  end.

Definition clearAllPoints (s : FreeFunctions.Store) : FreeFunctions.Store :=
  FreeFunctions.saveState_store (FreeFunctions.set_points [] s).

Definition getPoints (s : FreeFunctions.Store) : list Point :=
  map copyOf (FreeFunctions.points s).

(** The edits that take a snapshot. *)
Inductive Edit :=
| SetPoints (newPoints : list Point)
| AddPoint (time amplitude : float)
| PastePoints (offset : float)
| ClearAllPoints.

Definition apply (ed : Edit) (s : FreeFunctions.Store)
    : FreeFunctions.Store :=
  match ed with
  | SetPoints l => setPoints l s
  | AddPoint t a => addPoint t a s
  | PastePoints offset => snd (pastePoints offset s)
  | ClearAllPoints => clearAllPoints s
  end.

(** The module's state when it is loaded. *)
Definition initial : FreeFunctions.Store :=
  {| FreeFunctions.points := []; FreeFunctions.undoStack := [];
     FreeFunctions.redoStack := []; FreeFunctions.copiedPoints := [] |}.

(** A call of one of the exported functions, and a run of calls from the
    initial state. *)
Inductive Call :=
| Editing (ed : Edit)
| CopyPoints (selectedPoints : list Point)
| Undo
| Redo.

Definition call (s : FreeFunctions.Store) (c : Call) : FreeFunctions.Store :=
  match c with
  | Editing ed => apply ed s
  | CopyPoints l => copyPoints l s
  | Undo => undo s
  | Redo => redo s
  end.

Definition calls (cs : list Call) : FreeFunctions.Store :=
  fold_left call cs initial.

End FreeEdits.

(* ================================================================= *)
(** ** Further vocabulary of the properties *)

(** The point [r] of a data model is inside the editing area. *)
Definition pointInBounds (dm : DataModel.t) (r : ref) : bool :=
  inBounds (DataModel.duration dm) (timeOf (DataModel.heap dm) r)
    (amplitudeOf (DataModel.heap dm) r).

(** [dragPoints] turns the move down: on a selected point, when the loop
    meets a candidate that exceeds the bounds; on another point, when the
    point's own candidate fails the test. *)
Definition dragRejected (point : ref) (e : MouseEvent)
    (h : InteractionHandler.t) : bool :=
  let dm := InteractionHandler.dataModel h in
  let dx := InteractionHandler.dragDeltaTime e h in
  let dy := InteractionHandler.dragDeltaAmplitude e h in
  if JS.Set_has (DataModel.selectedPoints dm) point then
    existsb
      (fun r =>
         InteractionHandler.exceedsBounds (DataModel.duration dm)
           (candidateTime (DataModel.heap dm) dx r)
           (candidateAmplitude (DataModel.heap dm) dy r))
      (DataModel.selectedPoints dm)
  else
    negb (inBounds (DataModel.duration dm)
            (candidateTime (DataModel.heap dm) dx point)
            (candidateAmplitude (DataModel.heap dm) dy point)).

(** The largest pan that keeps the visible range inside the duration. *)
Definition maxPan (dm : DataModel.t) : float :=
  (DataModel.duration dm - CanvasRenderer.visibleRange dm)%float.

(** The pan, if it is a number, is at least 0, and at most [maxPan] when
    that is not negative. *)
Definition panInRange (dm : DataModel.t) : Prop :=
  is_nan (DataModel.pan dm) = false ->
  (0 <=? DataModel.pan dm)%float = true
  /\ ((0 <=? maxPan dm)%float = true ->
      (DataModel.pan dm <=? maxPan dm)%float = true).

(** The zoom, if it is a number, is the one the model was created with or
    lies between the configured limits. *)
Definition zoomInRange (CONFIG : Config) (dm : DataModel.t) : Prop :=
  is_nan (DataModel.zoom dm) = false ->
  DataModel.zoom dm = DataModel.zoom (DataModel.constructor CONFIG)
  \/ ((ZOOM_MIN CONFIG <=? DataModel.zoom dm)%float = true
      /\ ((ZOOM_MIN CONFIG <=? ZOOM_MAX CONFIG)%float = true ->
          (DataModel.zoom dm <=? ZOOM_MAX CONFIG)%float = true)).

(** What the views read of a data model. *)
Definition view (dm : DataModel.t) : float * float * float :=
  (DataModel.duration dm, DataModel.zoom dm, DataModel.pan dm).

(** The sequence holds each of its points once, every point of it is an
    object of the store, and the selection set has no repeats. *)
Definition wellFormed (dm : DataModel.t) : Prop :=
  NoDup (DataModel.points dm)
  /\ Forall (fun r => r < length (DataModel.heap dm)) (DataModel.points dm)
  /\ NoDup (DataModel.selectedPoints dm).

(** The view is in range. *)
Definition viewInRange (CONFIG : Config) (dm : DataModel.t) : Prop :=
  panInRange dm /\ zoomInRange CONFIG dm
  /\ DataModel.duration dm
     = DataModel.duration (DataModel.constructor CONFIG).

(** What a session keeps of the data model. *)
Definition sessionInvariant (CONFIG : Config) (dm : DataModel.t) : Prop :=
  historyBounded CONFIG dm /\ wellFormed dm.

(** The order the sort leaves two neighbouring point values in. *)
Definition valuesInOrder (a b : Point) : Prop :=
  (0 <? time a - time b)%float = false.

(** An edit of the exported functions that takes a snapshot: all of them,
    but a paste from an empty clipboard. *)
Definition takesSnapshot (ed : FreeEdits.Edit) (s : FreeFunctions.Store)
    : Prop :=
  match ed with
  | FreeEdits.PastePoints _ => FreeFunctions.copiedPoints s <> []
  | _ => True
  end.

(** ** Further examples *)

(** A handler over the example model, on a 1000 x 500 canvas, in the
    state the constructor leaves it in: nothing pressed, command key up.
    Point [A] is drawn at (100, 200). *)
Definition exampleSession : Interaction.t :=
  Interaction.constructor {| width := 1000; height := 500 |} exampleModel.

Definition pressOnA : MouseEvent :=
  {| offsetX := 100; offsetY := 200; clientX := 100 |}.

Definition pressOnNothing : MouseEvent :=
  {| offsetX := 500; offsetY := 100; clientX := 500 |}.

Definition deleteKey : KeyboardEvent :=
  {| key := "Delete"; metaKey := false; ctrlKey := false;
     shiftKey := false |}.

(** ** The layout of a WAV header *)

(** The character codes of a string. *)
Fixpoint charCodes (s : string) : list Z :=
  match s with
  | EmptyString => []
  | String c rest => (Z.of_nat (Ascii.nat_of_ascii c) mod 256)%Z :: charCodes rest
  end.

(** The bytes of a 16-bit and of a 32-bit unsigned integer, low byte
    first. *)
Definition le16 (value : Z) : list Z :=
  let u := (value mod 65536)%Z in
  [ (u mod 256)%Z; (u / 256 mod 256)%Z ].

Definition le32 (value : Z) : list Z :=
  let u := (value mod 4294967296)%Z in
  [ (u mod 256)%Z; (u / 256 mod 256)%Z; (u / 65536 mod 256)%Z;
    (u / 16777216 mod 256)%Z ].

(** The 44 bytes of the header of a 16-bit PCM file with [numChannels]
    channels and [dataSize] bytes of samples. *)
Definition wavHeader (numChannels : nat) (sampleRate : float)
    (dataSize : nat) : list Z :=
  let blockAlign := numChannels * 2 in
  charCodes "RIFF" ++ le32 (Z.of_nat (36 + dataSize))
  ++ charCodes "WAVE"
  ++ charCodes "fmt " ++ le32 16
  ++ le16 1                                       (* PCM *)
  ++ le16 (Z.of_nat numChannels)
  ++ le32 (JS.ToUint32 sampleRate)
  ++ le32 (JS.ToUint32 (sampleRate * JS.of_nat blockAlign)%float)
  ++ le16 (Z.of_nat blockAlign)
  ++ le16 16                                      (* bits per sample *)
  ++ charCodes "data" ++ le32 (Z.of_nat dataSize).

Definition copyKey : KeyboardEvent :=
  {| key := "c"; metaKey := false; ctrlKey := true; shiftKey := false |}.

Definition pasteKey : KeyboardEvent :=
  {| key := "v"; metaKey := false; ctrlKey := true; shiftKey := false |}.

Definition undoKey : KeyboardEvent :=
  {| key := "z"; metaKey := false; ctrlKey := true; shiftKey := false |}.

(** A decoded mono clip of three samples at 2 samples per second. *)
Definition shortClip : AudioBuffer.t :=
  {| AudioBuffer.numberOfChannels := 1;
     AudioBuffer.length := 3;
     AudioBuffer.sampleRate := 2;
     AudioBuffer.channelData := [[0.25; -0.5; 0.75]%float] |}.

(* ================================================================= *)
(** * Properties *)

(** ** Facts about binary64 comparison and arithmetic

    They are derived from the specification of the primitive operations
    ([Prim2SF] and the [SF] functions of the standard library). *)

Section FloatFacts.

Lemma SFcompare_antisym (x y : spec_float) :
  SFcompare y x = option_map CompOpp (SFcompare x y).
Proof.
  destruct x as [sx|sx| |sx mx ex], y as [sy|sy| |sy my ey]; simpl;
    try reflexivity;
    try (destruct sx; reflexivity); try (destruct sy; reflexivity);
    try (destruct sx, sy; reflexivity).
  destruct sx, sy; simpl; try reflexivity;
    rewrite (Z.compare_antisym ex ey);
    destruct (ex ?= ey)%Z; simpl; try reflexivity.
  all: fold (Pos.compare my mx); fold (Pos.compare mx my);
    rewrite (Pos.compare_antisym mx my); rewrite ?CompOpp_involutive;
    reflexivity.
Qed.

Lemma SFcompare_refl (x : spec_float) :
  x <> S754_nan -> SFcompare x x = Some Eq.
Proof.
  destruct x as [s|s| |s m e]; simpl; try congruence; intros _.
  - destruct s; reflexivity.
  - destruct s; rewrite Z.compare_refl;
      fold (Pos.compare m m); rewrite Pos.compare_refl; reflexivity.
Qed.

Lemma SFcompare_defined (x y : spec_float) :
  x <> S754_nan -> y <> S754_nan -> SFcompare x y <> None.
Proof. destruct x, y; simpl; congruence. Qed.

Lemma is_nan_Prim2SF (x : float) :
  is_nan x = false -> Prim2SF x <> S754_nan.
Proof.
  unfold is_nan. rewrite FloatAxioms.eqb_spec. intros H E.
  rewrite E in H. discriminate.
Qed.

Lemma not_nan_eqb_refl (x : float) :
  is_nan x = false -> (x =? x)%float = true.
Proof. unfold is_nan. destruct (x =? x)%float; simpl; congruence. Qed.

(** [y < x] is the negation of [x <= y] on numbers that are not NaN. *)
Lemma ltb_negb_leb (x y : float) :
  is_nan x = false -> is_nan y = false ->
  (y <? x)%float = negb (x <=? y)%float.
Proof.
  intros Hx Hy. rewrite FloatAxioms.ltb_spec, FloatAxioms.leb_spec.
  unfold SFltb, SFleb.
  rewrite (SFcompare_antisym (Prim2SF x) (Prim2SF y)).
  pose proof (SFcompare_defined _ _ (is_nan_Prim2SF _ Hx)
                (is_nan_Prim2SF _ Hy)) as D.
  destruct (SFcompare (Prim2SF x) (Prim2SF y)) as [[]|]; simpl; congruence.
Qed.

Lemma leb_not_ltb (x y : float) :
  (x <=? y)%float = true -> (y <? x)%float = false.
Proof.
  rewrite FloatAxioms.ltb_spec, FloatAxioms.leb_spec. unfold SFltb, SFleb.
  rewrite (SFcompare_antisym (Prim2SF x) (Prim2SF y)).
  destruct (SFcompare (Prim2SF x) (Prim2SF y)) as [[]|]; simpl.
  all: intros; try reflexivity; try discriminate.
Qed.

(** A finite number is a zero or has a mantissa and an exponent. *)
Lemma Prim2SF_finite_cases (f : float) :
  is_finite f = true ->
  (exists s, Prim2SF f = S754_zero s)
  \/ (exists s m e, Prim2SF f = S754_finite s m e).
Proof.
  unfold is_finite. intros H.
  apply negb_true_iff, orb_false_iff in H as [Hn Hi].
  unfold Prim2SF. rewrite Hn, Hi.
  destruct (is_zero f); [left; eauto|].
  destruct (Z.frexp f) as [r ex].
  destruct (shr_fexp _ _ _ _ _) as [sh e'].
  destruct (shr_m sh); [left|right|left]; eauto.
Qed.

(** [f - f] is [+0] for a finite [f]. *)
Lemma sub_self (f : float) : is_finite f = true -> (f - f)%float = 0%float.
Proof.
  intros H. apply Prim2SF_inj. rewrite sub_spec.
  destruct (Prim2SF_finite_cases f H) as [[s ->]|(s & m & e & ->)].
  - destruct s; reflexivity.
  - unfold SF64sub, SFsub. rewrite Z.sub_diag. reflexivity.
Qed.

(** [x + 0 === x] for every [x] that is not NaN. *)
Lemma add_zero_eqb (x : float) :
  is_nan x = false -> (x + 0 =? x)%float = true.
Proof.
  intros H. pose proof (is_nan_Prim2SF x H) as Hx.
  rewrite FloatAxioms.eqb_spec, add_spec.
  change (Prim2SF 0) with (S754_zero false).
  unfold SFeqb.
  destruct (Prim2SF x) as [s|s| |s m e] eqn:E; try congruence.
  - destruct s; reflexivity.
  - destruct s; reflexivity.
  - unfold SF64add, SFadd. rewrite SFcompare_refl by discriminate.
    reflexivity.
Qed.

(** Rounding keeps the sign: a negative difference is not positive. *)
Lemma binary_round_negative (m : positive) (e : Z) :
  SFltb (S754_zero false) (binary_round prec emax true m e) = false.
Proof.
  unfold binary_round, binary_round_aux.
  destruct (shl_align _ _ _) as [mz ez].
  destruct (shr_fexp _ _ _ _ _) as [mrs' e'].
  destruct (shr_fexp _ _ _ _ _) as [mrs'' e''].
  destruct (shr_m mrs''); try reflexivity.
  destruct (Z.leb _ _); reflexivity.
Qed.

Lemma binary_normalize_opp (z e : Z) :
  SFltb (S754_zero false) (binary_normalize prec emax z e false) = true ->
  SFltb (S754_zero false) (binary_normalize prec emax (- z) e false) = false.
Proof.
  destruct z as [|p|p]; simpl.
  - discriminate.
  - intros _. apply binary_round_negative.
  - rewrite binary_round_negative. discriminate.
Qed.

Lemma SFsub_sign_antisym (x y : spec_float) :
  SFltb (S754_zero false) (SF64sub x y) = true ->
  SFltb (S754_zero false) (SF64sub y x) = false.
Proof.
  unfold SF64sub, SFsub.
  destruct x as [sx|sx| |sx mx ex], y as [sy|sy| |sy my ey];
    try (destruct sx; try destruct sy; cbv; congruence);
    try (destruct sy; cbv; congruence);
    try (cbv; congruence).
  rewrite (Z.min_comm ey ex).
  set (a := cond_Zopp sx (Z.pos (fst (shl_align mx ex (Z.min ex ey))))).
  set (b := cond_Zopp sy (Z.pos (fst (shl_align my ey (Z.min ex ey))))).
  replace (b - a)%Z with (- (a - b))%Z by lia.
  apply binary_normalize_opp.
Qed.

(** If [x - y] is positive then [y - x] is not. *)
Lemma sub_sign_antisym (x y : float) :
  (0 <? x - y)%float = true -> (0 <? y - x)%float = false.
Proof.
  rewrite !FloatAxioms.ltb_spec, !sub_spec.
  change (Prim2SF 0) with (S754_zero false).
  apply SFsub_sign_antisym.
Qed.

End FloatFacts.

(* ================================================================= *)
(** ** Dragging a multi-point selection *)

Section GroupMove.
Import InteractionHandler.

Lemma canMoveAll_forallb (h : Heap) (d dx dy : float) (l : list ref) :
  canMoveAll h d dx dy l =
  forallb (fun r => negb (exceedsBounds d (candidateTime h dx r)
                            (candidateAmplitude h dy r))) l.
Proof.
  induction l as [|r l IH]; simpl; [reflexivity|].
  unfold candidateTime, candidateAmplitude in *.
  destruct (exceedsBounds _ _ _); simpl; auto.
Qed.

Lemma inBounds_not_exceeds (d t a : float) :
  inBounds d t a = true -> exceedsBounds d t a = false.
Proof.
  unfold inBounds, exceedsBounds, JS.gtb. rewrite !andb_true_iff.
  intros [[[H1 H2] H3] H4].
  rewrite (leb_not_ltb _ _ H1), (leb_not_ltb _ _ H2),
    (leb_not_ltb _ _ H3), (leb_not_ltb _ _ H4). reflexivity.
Qed.

Lemma outOfBounds_exceeds (d t a : float) :
  is_nan d = false -> is_nan t = false -> is_nan a = false ->
  inBounds d t a = false -> exceedsBounds d t a = true.
Proof.
  intros Hd Ht Ha. unfold inBounds, exceedsBounds, JS.gtb.
  rewrite (ltb_negb_leb t d Ht Hd).
  rewrite (ltb_negb_leb 0 t eq_refl Ht).
  rewrite (ltb_negb_leb (-1) a eq_refl Ha).
  rewrite (ltb_negb_leb a 1 Ha eq_refl).
  destruct (0 <=? t)%float, (t <=? d)%float, (-1 <=? a)%float,
    (a <=? 1)%float; simpl; congruence.
Qed.

Lemma moveAll_lookup_notin (dx dy : float) (l : list ref) :
  forall (h : Heap) (r : ref),
    r ∉ l -> moveAll dx dy l h !! r = h !! r.
Proof.
  induction l as [|a l IH]; intros h r Hr; simpl; [reflexivity|].
  apply not_elem_of_cons in Hr as [Hne Hr].
  unfold moveAll in *. simpl. rewrite IH by assumption.
  apply list_lookup_alter_ne. congruence.
Qed.

Lemma moveAll_lookup_in (dx dy : float) (l : list ref) :
  forall (h : Heap) (r : ref),
    NoDup l -> r ∈ l ->
    moveAll dx dy l h !! r = translate dx dy <$> (h !! r).
Proof.
  induction l as [|a l IH]; intros h r Hnd Hr.
  - inversion Hr.
  - apply NoDup_cons in Hnd as [Ha Hnd].
    unfold moveAll in *. simpl.
    apply elem_of_cons in Hr as [->|Hr].
    + fold (moveAll dx dy l (alter (translate dx dy) a h)).
      rewrite moveAll_lookup_notin by assumption.
      apply list_lookup_alter_eq.
    + rewrite IH by assumption.
      rewrite list_lookup_alter_ne; [reflexivity|].
      intros ->. contradiction.
Qed.

Lemma dragPoints_heap_group (point : ref) (e : MouseEvent) (h : t) :
  JS.Set_has (DataModel.selectedPoints (dataModel h)) point = true ->
  DataModel.heap (dataModel (dragPoints point e h)) =
  if canMoveAll (DataModel.heap (dataModel h))
       (DataModel.duration (dataModel h))
       (dragDeltaTime e h) (dragDeltaAmplitude e h)
       (DataModel.selectedPoints (dataModel h))
  then moveAll (dragDeltaTime e h) (dragDeltaAmplitude e h)
         (DataModel.selectedPoints (dataModel h))
         (DataModel.heap (dataModel h))
  else DataModel.heap (dataModel h).
Proof. intros Hs. unfold dragPoints. rewrite Hs. reflexivity. Qed.



End GroupMove.

(* ================================================================= *)
(** ** The undo history *)

Section History.
Variable CONFIG : Config.

Lemma maxUndo_positive :
  (0 < MAX_UNDO CONFIG)%Z -> DataModel.maxUndo CONFIG = MAX_UNDO CONFIG.
Proof.
  intros H. unfold DataModel.maxUndo.
  destruct (Z.eqb_spec (MAX_UNDO CONFIG) 0); [lia|reflexivity].
Qed.

Lemma saveState_undoStack (m : DataModel.t) :
  DataModel.undoStack (DataModel.saveState CONFIG m) =
  let pushed := DataModel.undoStack m ++ [DataModel.snapshot m] in
  if (DataModel.maxUndo CONFIG <? Z.of_nat (length pushed))%Z
  then tail pushed else pushed.
Proof. reflexivity. Qed.

Lemma saveState_redoStack (m : DataModel.t) :
  DataModel.redoStack (DataModel.saveState CONFIG m) = [].
Proof. reflexivity. Qed.

Lemma length_tail {A : Type} (l : list A) : length (tail l) = length l - 1.
Proof. destruct l; simpl; lia. Qed.

Lemma saveState_bounded (m : DataModel.t) :
  (0 <= DataModel.maxUndo CONFIG)%Z ->
  historyBounded CONFIG m ->
  historyBounded CONFIG (DataModel.saveState CONFIG m).
Proof.
  unfold historyBounded. intros Hpos H.
  rewrite saveState_redoStack, saveState_undoStack. cbv zeta.
  destruct (Z.ltb_spec (DataModel.maxUndo CONFIG)
              (Z.of_nat (length (DataModel.undoStack m
                                   ++ [DataModel.snapshot m]))))
    as [Hlt|Hge].
  - rewrite length_tail, length_app in *. simpl in *. lia.
  - simpl. lia.
Qed.

(** [pop()] takes one element off a stack that has a top. *)
Lemma last_Some_length {A : Type} (l : list A) (x : A) :
  last l = Some x -> length (removelast l) + 1 = length l.
Proof.
  intros H. destruct l using rev_ind; [discriminate|].
  rewrite removelast_last, length_app. simpl. lia.
Qed.

Lemma undo_bounded (m : DataModel.t) :
  historyBounded CONFIG m -> historyBounded CONFIG (snd (DataModel.undo m)).
Proof.
  unfold historyBounded, DataModel.undo. intros H.
  destruct (last (DataModel.undoStack m)) as [top|] eqn:E; simpl;
    [|exact H].
  apply last_Some_length in E. rewrite length_app. simpl. lia.
Qed.

Lemma redo_bounded (m : DataModel.t) :
  historyBounded CONFIG m -> historyBounded CONFIG (snd (DataModel.redo m)).
Proof.
  unfold historyBounded, DataModel.redo. intros H.
  destruct (last (DataModel.redoStack m)) as [top|] eqn:E; simpl;
    [|exact H].
  apply last_Some_length in E. rewrite length_app. simpl. lia.
Qed.

Lemma pastePoints_stacks (m : DataModel.t) :
  let m' := snd (DataModel.pastePoints CONFIG m) in
  (DataModel.undoStack m' = DataModel.undoStack m
   /\ DataModel.redoStack m' = DataModel.redoStack m)
  \/ (DataModel.undoStack m'
      = DataModel.undoStack (DataModel.saveState CONFIG m)
      /\ DataModel.redoStack m' = []).
Proof.
  unfold DataModel.pastePoints.
  destruct (DataModel.copiedPoints m); simpl; [left|right]; split;
    reflexivity.
Qed.

Lemma perform_bounded (m : DataModel.t) (op : Operation) :
  (0 <= DataModel.maxUndo CONFIG)%Z ->
  historyBounded CONFIG m -> historyBounded CONFIG (perform CONFIG m op).
Proof.
  intros Hpos H. destruct op; simpl;
    try exact H;
    try (apply (saveState_bounded m Hpos H)).
  - destruct (pastePoints_stacks m) as [[Hu Hr]|[Hu Hr]];
      unfold historyBounded; cbv zeta in Hu, Hr; rewrite Hu, Hr.
    + exact H.
    + apply (saveState_bounded m Hpos H).
  - apply undo_bounded, H.
  - apply redo_bounded, H.
  - unfold historyBounded. simpl. lia.
Qed.

Lemma performFrom_bounded (ops : list Operation) :
  forall m : DataModel.t,
    (0 <= DataModel.maxUndo CONFIG)%Z ->
    historyBounded CONFIG m ->
    historyBounded CONFIG (fold_left (perform CONFIG) ops m).
Proof.
  induction ops as [|op ops IH]; intros m Hpos H; simpl; [exact H|].
  apply IH; [exact Hpos|]. apply perform_bounded; assumption.
Qed.

Lemma pushSnapshots_heap (seqs : list (list ref)) :
  forall m : DataModel.t,
    DataModel.heap (pushSnapshots CONFIG seqs m) = DataModel.heap m.
Proof.
  induction seqs as [|l seqs IH]; intros m; simpl; [reflexivity|].
  unfold pushSnapshots in *. simpl. rewrite IH. reflexivity.
Qed.

(** While there is room, every snapshot is kept. *)
Lemma pushSnapshots_room (seqs : list (list ref)) :
  forall m : DataModel.t,
    (Z.of_nat (length (DataModel.undoStack m) + length seqs)
     <= DataModel.maxUndo CONFIG)%Z ->
    DataModel.undoStack (pushSnapshots CONFIG seqs m) =
    DataModel.undoStack m ++ map (snapshotOf (DataModel.heap m)) seqs.
Proof.
  induction seqs as [|l seqs IH]; intros m Hroom; simpl.
  - rewrite app_nil_r. reflexivity.
  - unfold pushSnapshots in *. simpl fold_left.
    rewrite IH.
    + rewrite saveState_undoStack. cbv zeta. simpl DataModel.undoStack.
      destruct (Z.ltb_spec (DataModel.maxUndo CONFIG)
        (Z.of_nat (length (DataModel.undoStack m ++
           [DataModel.snapshot (DataModel.set_points l m)]))))
        as [Hlt|Hge].
      * rewrite length_app in Hlt. simpl in *. lia.
      * rewrite <- app_assoc. reflexivity.
    + rewrite saveState_undoStack. cbv zeta. simpl DataModel.undoStack.
      destruct (Z.ltb_spec (DataModel.maxUndo CONFIG)
        (Z.of_nat (length (DataModel.undoStack m ++
           [DataModel.snapshot (DataModel.set_points l m)]))))
        as [Hlt|Hge].
      * rewrite length_app in Hlt. simpl in *. lia.
      * rewrite length_app. simpl in *. lia.
Qed.

Lemma pushSnapshots_app (s1 s2 : list (list ref)) (m : DataModel.t) :
  pushSnapshots CONFIG (s1 ++ s2) m =
  pushSnapshots CONFIG s2 (pushSnapshots CONFIG s1 m).
Proof. unfold pushSnapshots. apply fold_left_app. Qed.

(** C8.  For a positive depth limit [MAX_UNDO]: after any sequence of
    operations on a new data model the undo stack holds at most
    [MAX_UNDO] snapshots; [MAX_UNDO + 1] snapshots pushed on an empty
    stack leave exactly the last [MAX_UNDO] of them, the oldest being
    discarded; and every [saveState] leaves the redo stack empty. *)
Theorem undo_history_bounded :
  (0 < MAX_UNDO CONFIG)%Z ->
  (forall ops : list Operation,
     (Z.of_nat (length (DataModel.undoStack (performAll CONFIG ops)))
      <= MAX_UNDO CONFIG)%Z)
  /\ (forall (m : DataModel.t) (sequences : list (list ref)),
        DataModel.undoStack m = [] ->
        Z.of_nat (length sequences) = (MAX_UNDO CONFIG + 1)%Z ->
        DataModel.undoStack (pushSnapshots CONFIG sequences m) =
        map (snapshotOf (DataModel.heap m)) (tail sequences)
        /\ Z.of_nat (length (DataModel.undoStack
                               (pushSnapshots CONFIG sequences m)))
           = MAX_UNDO CONFIG)
  /\ (forall m : DataModel.t,
        DataModel.redoStack (DataModel.saveState CONFIG m) = []).
Proof.
  intros Hpos. pose proof (maxUndo_positive Hpos) as Hmax.
  split; [|split].
  - intros ops.
    assert (H : historyBounded CONFIG (performAll CONFIG ops)).
    { apply performFrom_bounded; [lia|]. unfold historyBounded. simpl. lia. }
    unfold historyBounded in H. lia.
  - intros m sequences Hempty Hlen.
    destruct sequences as [|lastSeq rest _] using rev_ind;
      [simpl in Hlen; lia|].
    rewrite length_app in Hlen. simpl in Hlen.
    assert (Hu : DataModel.undoStack (pushSnapshots CONFIG rest m) =
                 map (snapshotOf (DataModel.heap m)) rest).
    { rewrite pushSnapshots_room; rewrite Hempty; simpl; [reflexivity|lia]. }
    rewrite pushSnapshots_app.
    change (pushSnapshots CONFIG [lastSeq] (pushSnapshots CONFIG rest m))
      with (DataModel.saveState CONFIG
              (DataModel.set_points lastSeq (pushSnapshots CONFIG rest m))).
    rewrite saveState_undoStack. cbv zeta. simpl DataModel.undoStack.
    rewrite Hu.
    destruct (Z.ltb_spec (DataModel.maxUndo CONFIG)
      (Z.of_nat (length (map (snapshotOf (DataModel.heap m)) rest ++
         [DataModel.snapshot
            (DataModel.set_points lastSeq (pushSnapshots CONFIG rest m))]))))
      as [Hlt|Hge].
    + destruct rest as [|l1 rest]; [simpl in Hlen; lia|].
      simpl. unfold DataModel.snapshot. simpl.
      rewrite pushSnapshots_heap, map_app. simpl. split; [reflexivity|].
      rewrite length_app, length_map. simpl in *. lia.
    + rewrite length_app, length_map in Hge. simpl in Hge. lia.
  - intros m. reflexivity.
Qed.

(** The exported [saveState] keeps 100 snapshots and clears the redo
    stack as well. *)
Lemma free_saveState_bounded (s : FreeFunctions.Store) :
  length (FreeFunctions.undoStack s) <= 100 ->
  length (FreeFunctions.undoStack (FreeFunctions.saveState_store s)) <= 100
  /\ FreeFunctions.redoStack (FreeFunctions.saveState_store s) = [].
Proof.
  intros H. split; [|reflexivity].
  unfold FreeFunctions.saveState_store. simpl.
  destruct (Nat.ltb_spec 100
              (length (FreeFunctions.undoStack s
                       ++ [JSON_stringify (FreeFunctions.points s)])))
    as [Hlt|Hge].
  - rewrite length_tail, length_app. simpl. lia.
  - exact Hge.
Qed.

End History.

(** The default configuration has [MAX_UNDO = 50]. *)
Lemma undo_history_bounded_witness :
  (forall ops : list Operation,
     (Z.of_nat (length (DataModel.undoStack (performAll DEFAULT_CONFIG ops)))
      <= 50)%Z)
  /\ (forall (m : DataModel.t) (sequences : list (list ref)),
        DataModel.undoStack m = [] ->
        Z.of_nat (length sequences) = 51%Z ->
        DataModel.undoStack (pushSnapshots DEFAULT_CONFIG sequences m) =
        map (snapshotOf (DataModel.heap m)) (tail sequences)
        /\ Z.of_nat (length (DataModel.undoStack
                               (pushSnapshots DEFAULT_CONFIG sequences m)))
           = 50%Z)
  /\ (forall m : DataModel.t,
        DataModel.redoStack (DataModel.saveState DEFAULT_CONFIG m) = []).
Proof. exact (undo_history_bounded DEFAULT_CONFIG eq_refl). Defined.

(* ================================================================= *)
(** ** Loading, and the selection across undo and redo *)

Section Replacement.
Import DataModel.

(** C10.  [loadPoints] installs the given list as the sequence, clears the
    selection set and the selected point, and empties both stacks; right
    after it [undo()] and [redo()] return [false] and change nothing. *)
Theorem loadPoints_resets_history :
  forall (newPoints : list ref) (m : DataModel.t),
    let m' := loadPoints newPoints m in
    points m' = newPoints
    /\ selectedPoints m' = [] /\ selectedPoint m' = None
    /\ undoStack m' = [] /\ redoStack m' = []
    /\ undo m' = (false, m') /\ redo m' = (false, m').
Proof. intros newPoints m. repeat split. Qed.

(** C4.  [undo()] and [redo()] do not touch the selection: the selection
    set and the selected point after the call are those before it.  With
    one point added and selected, [undo()] returns [true] and empties the
    sequence, and the selection set still holds the point that is gone. *)
Theorem undo_redo_keep_selection :
  (forall m : DataModel.t,
     selectedPoints (snd (undo m)) = selectedPoints m
     /\ selectedPoint (snd (undo m)) = selectedPoint m
     /\ selectedPoints (snd (redo m)) = selectedPoints m
     /\ selectedPoint (snd (redo m)) = selectedPoint m)
  /\ fst (undo onePointSelected) = true
  /\ points (snd (undo onePointSelected)) = []
  /\ selectedPoints (snd (undo onePointSelected)) = [0].
Proof.
  split.
  - intros m. unfold undo, redo.
    destruct (last (undoStack m)), (last (redoStack m)); repeat split.
  - repeat split.
Qed.

End Replacement.

(* ================================================================= *)
(** ** Sorting by time *)

Section Sorting.
Variable h : Heap.

Lemma sort_insert_Permutation (a : ref) (l : list ref) :
  Permutation (sort_insert h a l) (a :: l).
Proof.
  induction l as [|b l IH]; simpl; [reflexivity|].
  destruct (0 <? comparator h a b)%float; [|reflexivity].
  rewrite IH. apply perm_swap.
Qed.

Lemma sortByTime_Permutation (l : list ref) :
  Permutation (sortByTime h l) l.
Proof.
  induction l as [|a l IH]; simpl; [reflexivity|].
  unfold sortByTime in *. simpl. rewrite sort_insert_Permutation.
  constructor. exact IH.
Qed.

Lemma sort_insert_HdRel (a b : ref) (l : list ref) :
  inOrder h b a -> HdRel (inOrder h) b l ->
  HdRel (inOrder h) b (sort_insert h a l).
Proof.
  intros Hba Hl. destruct l as [|c l]; simpl; [constructor; exact Hba|].
  destruct (0 <? comparator h a c)%float; constructor;
    [inversion Hl; assumption | exact Hba].
Qed.

Lemma sort_insert_Sorted (a : ref) (l : list ref) :
  Sorted (inOrder h) l -> Sorted (inOrder h) (sort_insert h a l).
Proof.
  induction l as [|b l IH]; intros Hs; simpl.
  - repeat constructor.
  - destruct (0 <? comparator h a b)%float eqn:E.
    + inversion Hs; subst. constructor; [apply IH; assumption|].
      apply sort_insert_HdRel; [|assumption].
      unfold inOrder, comparator in *. apply sub_sign_antisym. exact E.
    + constructor; [exact Hs|]. constructor. exact E.
Qed.

(** The sort leaves every pair of neighbours in the comparator's order. *)
Lemma sortByTime_Sorted (l : list ref) : Sorted (inOrder h) (sortByTime h l).
Proof.
  induction l as [|a l IH]; simpl; [constructor|].
  apply sort_insert_Sorted. exact IH.
Qed.

End Sorting.

(* ================================================================= *)
(** ** Paste *)

Section Paste.
Import DataModel.

Lemma Set_add_fresh (s : list nat) (r : nat) :
  r ∉ s -> JS.Set_add s r = s ++ [r].
Proof.
  intros H. unfold JS.Set_add, JS.Set_has.
  rewrite bool_decide_eq_false_2 by assumption. reflexivity.
Qed.

Lemma Set_of_from (l : list nat) :
  forall acc : list nat,
    NoDup (acc ++ l) -> fold_left JS.Set_add l acc = acc ++ l.
Proof.
  induction l as [|r l IH]; intros acc H; simpl.
  - rewrite app_nil_r. reflexivity.
  - rewrite Set_add_fresh.
    + rewrite IH; rewrite <- app_assoc; [reflexivity|exact H].
    + apply NoDup_app in H as (_ & H & _). intros Hin.
      apply (H r Hin). left.
Qed.

(** [new Set(array)] of distinct objects keeps the array. *)
Lemma Set_of_NoDup (l : list nat) : NoDup l -> JS.Set_of l = l.
Proof.
  intros H. unfold JS.Set_of. rewrite Set_of_from; [reflexivity|exact H].
Qed.

(** C5, as the code has it.  With a non-empty clipboard, [pastePoints]
    pushes a snapshot of the sequence as [saveState] does, and appends
    fresh objects holding the clipboard's values with every time
    translated by [startTime - firstCopiedTime], where [startTime] is the
    time of the current last point, or [0] when the sequence is empty.
    The new objects are returned and become the selection set, and the
    sequence is the sort of the old sequence followed by the new objects:
    a permutation of them with neighbours in the comparator's order.  For
    a finite first clipboard time the first pasted time equals
    [startTime]. *)
Theorem pastePoints_translates_clipboard :
  forall (CONFIG : Config) (m : DataModel.t) (first : Point)
         (rest : list Point),
    copiedPoints m = first :: rest ->
    let startTime :=
      match last (points m) with
      | Some lastPoint => timeOf (heap m) lastPoint
      | None => 0%float
      end in
    let pasted :=
      map (fun p => {| time := startTime + (time p - time first);
                       amplitude := amplitude p |}%float) (first :: rest) in
    let newPoints := seq (length (heap m)) (length pasted) in
    let m' := snd (pastePoints CONFIG m) in
    fst (pastePoints CONFIG m) = Some newPoints
    /\ undoStack m' = undoStack (saveState CONFIG m)
    /\ redoStack m' = []
    /\ heap m' = heap m ++ pasted
    /\ selectedPoints m' = newPoints
    /\ points m' = sortByTime (heap m') (points m ++ newPoints)
    /\ Permutation (points m') (points m ++ newPoints)
    /\ Sorted (inOrder (heap m')) (points m')
    /\ (is_finite (time first) = true -> is_nan startTime = false ->
        exists p, heap m' !! length (heap m) = Some p
                  /\ (time p =? startTime)%float = true
                  /\ amplitude p = amplitude first)
    /\ (points m = [] -> startTime = 0%float).
Proof.
  intros CONFIG m first rest Hclip startTime pasted newPoints m'.
  assert (Hm' : pastePoints CONFIG m =
                (Some newPoints,
                 sortPoints
                   (set_selectedPoints (JS.Set_of newPoints)
                      (set_points (points m ++ newPoints)
                         (set_heap (heap m ++ pasted)
                            (saveState CONFIG m)))))).
  { unfold pastePoints.
    change (copiedPoints (saveState CONFIG m)) with (copiedPoints m).
    rewrite Hclip. reflexivity. }
  subst m'. rewrite Hm'. simpl fst. simpl snd.
  assert (Hset : JS.Set_of newPoints = newPoints).
  { apply Set_of_NoDup. apply NoDup_seq. }
  split; [reflexivity|]. split; [reflexivity|]. split; [reflexivity|].
  split; [reflexivity|]. split; [exact Hset|]. split; [reflexivity|].
  split; [apply sortByTime_Permutation|].
  split; [apply sortByTime_Sorted|].
  split.
  - intros Hfin Hnum. simpl heap.
    exists {| time := startTime + (time first - time first);
              amplitude := amplitude first |}%float.
    split; [|split; [|reflexivity]].
    + rewrite lookup_app_r by lia. rewrite Nat.sub_diag. reflexivity.
    + simpl. rewrite sub_self by assumption. apply add_zero_eqb.
      exact Hnum.
  - intros Hempty. subst startTime. rewrite Hempty. reflexivity.
Qed.

(** Copying the selection [A], [B] of the example model and pasting it
    puts the copy of [A] at the time of the last point, 9.99. *)
Lemma pastePoints_translates_clipboard_witness :
  heap (snd (pastePoints DEFAULT_CONFIG (copySelected exampleModel)))
  = heap exampleModel
    ++ [ {| time := 9.99 + (0.1 - 0.1); amplitude := 0.2 |};
         {| time := 9.99 + (9.99 - 0.1); amplitude := 0.5 |} ]%float
  /\ selectedPoints (snd (pastePoints DEFAULT_CONFIG
                            (copySelected exampleModel))) = [2; 3].
Proof.
  pose proof (pastePoints_translates_clipboard DEFAULT_CONFIG
                (copySelected exampleModel)
                {| time := 0.1; amplitude := 0.2 |}
                [ {| time := 9.99; amplitude := 0.5 |} ] eq_refl) as H.
  cbv zeta in H. destruct H as (_ & _ & _ & Hheap & Hsel & _).
  split; [exact Hheap|exact Hsel].
Defined.

(** With an empty sequence the clipboard point [(2, 0.5)] is pasted at
    time [0], which is not its own time. *)
Lemma pastePoints_empty_sequence_counterexample :
  points emptyWithClipboard = []
  /\ copiedPoints emptyWithClipboard = [ {| time := 2; amplitude := 0.5 |} ]
  /\ valuesOf (heap (snd (pastePoints DEFAULT_CONFIG emptyWithClipboard)))
       (points (snd (pastePoints DEFAULT_CONFIG emptyWithClipboard)))
     = [ {| time := 0; amplitude := 0.5 |} ]
  /\ (0 =? 2)%float = false.
Proof. repeat split. Qed.

End Paste.

(* ================================================================= *)
(** ** Synthesis *)

Section Synthesis.

Lemma findIndexFrom_firstAfter (t : float) (points : list Point) :
  forall i : Z,
    findIndexFrom (fun p => JS.gtb (time p) t) points i =
    match Spec.firstAfter t points with
    | Some j => (i + Z.of_nat j)%Z
    | None => (-1)%Z
    end.
Proof.
  induction points as [|p rest IH]; intros i; simpl; [reflexivity|].
  destruct (JS.gtb (time p) t); [simpl; lia|].
  rewrite IH. destruct (Spec.firstAfter t rest); simpl; [lia|reflexivity].
Qed.

Lemma at_index_of_nat {A : Type} (l : list A) (n : nat) :
  at_index l (Z.of_nat n) = l !! n.
Proof.
  unfold at_index. destruct (Z.ltb_spec (Z.of_nat n) 0); [lia|].
  rewrite Nat2Z.id. reflexivity.
Qed.

Lemma firstAfter_lt (t : float) (points : list Point) (j : nat) :
  Spec.firstAfter t points = Some j -> j < length points.
Proof.
  revert j. induction points as [|p rest IH]; intros j; simpl;
    [discriminate|].
  destruct (JS.gtb (time p) t).
  - intros [= <-]. lia.
  - destruct (Spec.firstAfter t rest) as [k|]; simpl; [|discriminate].
    intros [= <-]. specialize (IH k eq_refl). lia.
Qed.

(** The loop body, in terms of the position of [p2]. *)
Lemma amplitudeAt_position (points : list Point) (t : float) (j : nat) :
  Spec.p2_position points t = Some j ->
  AudioEngine.amplitudeAt points t =
  match at_index points (Z.max 0 (Z.of_nat j - 1)), points !! j with
  | Some p1, Some p2 =>
      if JS.strict_neq (time p2) (time p1)
      then Spec.interpolation p1 p2 t else amplitude p1
  | Some p1, None => amplitude p1
  | None, _ => 0%float
  end.
Proof.
  unfold Spec.p2_position, AudioEngine.amplitudeAt, findIndex.
  rewrite findIndexFrom_firstAfter.
  destruct (Spec.firstAfter t points) as [k|] eqn:E.
  - intros [= <-]. rewrite Z.add_0_l. cbv zeta.
    destruct (Z.eqb_spec (Z.of_nat k) (-1)); [lia|].
    rewrite at_index_of_nat. reflexivity.
  - destruct points as [|p rest]; [discriminate|]. intros [= <-].
    cbv zeta. simpl Z.eqb. cbv iota.
    replace (Z.of_nat (length (p :: rest)) - 1)%Z
      with (Z.of_nat (length (p :: rest) - 1)) by (simpl; lia).
    rewrite at_index_of_nat. reflexivity.
Qed.

(** The loop body computes the amplitude the specification words. *)
Lemma amplitudeAt_refines (points : list Point) (t : float) :
  forallb (fun p => negb (is_nan (time p))) points = true ->
  AudioEngine.amplitudeAt points t = Spec.amplitudeAt points t.
Proof.
  intros Hnum. unfold Spec.amplitudeAt.
  destruct (Spec.p2_position points t) as [j|] eqn:E.
  - rewrite (amplitudeAt_position _ _ _ E). unfold Spec.p1_position.
    destruct j as [|j].
    + replace (Z.max 0 (Z.of_nat 0 - 1)) with (Z.of_nat 0) by reflexivity.
      rewrite at_index_of_nat.
      simpl Nat.pred. simpl Nat.eqb. simpl negb. simpl andb.
      destruct (points !! 0) as [p|] eqn:Hp; [|reflexivity].
      unfold JS.strict_neq. rewrite not_nan_eqb_refl; [reflexivity|].
      rewrite forallb_forall in Hnum.
      apply list_elem_of_lookup_2, list_elem_of_In in Hp.
      specialize (Hnum p Hp). apply negb_true_iff in Hnum. exact Hnum.
    + replace (Z.max 0 (Z.of_nat (S j) - 1)) with (Z.of_nat j) by lia.
      rewrite at_index_of_nat. simpl Nat.pred.
      replace (j =? S j) with false by (symmetry; apply Nat.eqb_neq; lia).
      simpl negb. simpl andb.
      destruct (points !! j) as [p1|] eqn:H1;
        destruct (points !! S j) as [p2|] eqn:H2; try reflexivity.
      exfalso. apply lookup_ge_None in H2.
      assert (S j < length points); [|lia].
      unfold Spec.p2_position in E.
      destruct (Spec.firstAfter t points) eqn:F.
      * injection E as <-. eapply firstAfter_lt; eauto.
      * destruct points; [discriminate|]. injection E as E.
        simpl in *. lia.
  - unfold Spec.p2_position in E.
    destruct (Spec.firstAfter t points); [discriminate|].
    destruct points; [reflexivity|discriminate].
Qed.

(** The sample loop writes every index below [count] and no other. *)
Lemma fillSamples_spec (sampleRate : float) (points : list Point) :
  forall (count : nat) (data : list float),
    count <= length data ->
    let data' := AudioEngine.fillSamples sampleRate points count data in
    length data' = length data
    /\ (forall i, i < count ->
          data' !! i =
          Some (JS.Math_fround
                  (AudioEngine.amplitudeAt points
                     (JS.of_nat i / sampleRate)%float)))
    /\ (forall i, count <= i -> data' !! i = data !! i).
Proof.
  induction count as [|n IH]; intros data Hlen; cbv zeta.
  - split; [reflexivity|]. split; [intros; lia|reflexivity].
  - unfold AudioEngine.fillSamples in *.
    rewrite seq_S, fold_left_app. simpl.
    destruct (IH data ltac:(lia)) as (IH1 & IH2 & IH3).
    rewrite length_insert. split; [exact IH1|]. split.
    + intros i Hi. destruct (decide (i = n)) as [->|Hne].
      * apply list_lookup_insert_eq. rewrite IH1. lia.
      * rewrite list_lookup_insert_ne by congruence. apply IH2. lia.
    + intros i Hi. rewrite list_lookup_insert_ne by lia. apply IH3. lia.
Qed.

Lemma generateBuffer_Some (sampleRate : float) (points : list Point)
    (duration : float) (buffer : AudioBuffer.t) :
  AudioEngine.generateBuffer sampleRate points duration = Some buffer ->
  exists n : Z,
    AudioEngine.bufferLength sampleRate points duration = Some n
    /\ (1 <= n < 4294967296)%Z
    /\ AudioBuffer.length buffer = Z.to_nat n
    /\ AudioEngine.samples buffer =
       AudioEngine.fillSamples sampleRate points (Z.to_nat n)
         (replicate (Z.to_nat n) 0%float).
Proof.
  unfold AudioEngine.generateBuffer, AudioEngine.createBuffer.
  destruct (AudioEngine.bufferLength sampleRate points duration) as [n|];
    [|discriminate].
  destruct (Z.leb_spec 1 n); simpl; [|discriminate].
  destruct (Z.ltb_spec n 4294967296); simpl; [|discriminate].
  intros [= <-]. exists n. repeat split; try lia.
Qed.

Lemma generateBuffer_contents (sampleRate : float) (points : list Point)
    (duration : float) (buffer : AudioBuffer.t) :
  AudioEngine.generateBuffer sampleRate points duration = Some buffer ->
  exists n : Z,
    AudioEngine.bufferLength sampleRate points duration = Some n
    /\ (1 <= n < 4294967296)%Z
    /\ AudioBuffer.length buffer = Z.to_nat n
    /\ length (AudioEngine.samples buffer) = Z.to_nat n
    /\ forall i, i < Z.to_nat n ->
         AudioEngine.samples buffer !! i =
         Some (JS.Math_fround
                 (AudioEngine.amplitudeAt points
                    (JS.of_nat i / sampleRate)%float)).
Proof.
  intros H.
  destruct (generateBuffer_Some _ _ _ _ H) as (n & Hn & Hr & Hl & Hs).
  exists n. repeat split; try assumption; try lia.
  - rewrite Hs.
    destruct (fillSamples_spec sampleRate points (Z.to_nat n)
                (replicate (Z.to_nat n) 0%float)) as (L & _ & _).
    + rewrite length_replicate. lia.
    + rewrite L, length_replicate. reflexivity.
  - intros i Hi. rewrite Hs.
    destruct (fillSamples_spec sampleRate points (Z.to_nat n)
                (replicate (Z.to_nat n) 0%float)) as (_ & V & _).
    + rewrite length_replicate. lia.
    + apply V. exact Hi.
Qed.

(** C2, as the code has it.  The buffer has
    [ceil(sampleRate * lastPointTime)] samples when the sequence is not
    empty and the time of its last point is neither [0] nor NaN, and
    [ceil(sampleRate * duration)] samples otherwise; the duration is not
    compared with the last point's time.  A buffer is produced exactly
    when that count is between 1 and [2^32 - 1]. *)
Theorem generateBuffer_length :
  forall (sampleRate : float) (points : list Point) (duration : float),
    let total :=
      match last points with
      | Some lastPoint =>
          if negb (is_nan (time lastPoint) || is_zero (time lastPoint))
          then time lastPoint else duration
      | None => duration
      end in
    match AudioEngine.generateBuffer sampleRate points duration with
    | Some buffer =>
        JS.Math_ceil (sampleRate * total)%float =
        Some (Z.of_nat (length (AudioEngine.samples buffer)))
        /\ AudioBuffer.length buffer = length (AudioEngine.samples buffer)
    | None =>
        forall n : Z,
          JS.Math_ceil (sampleRate * total)%float = Some n ->
          ~ (1 <= n < 4294967296)%Z
    end.
Proof.
  intros sampleRate points duration total.
  destruct (AudioEngine.generateBuffer sampleRate points duration)
    as [buffer|] eqn:E.
  - destruct (generateBuffer_contents _ _ _ _ E)
      as (n & Hn & Hr & Hl & Hs & _).
    unfold AudioEngine.bufferLength, AudioEngine.totalTime, JS.truthy in Hn.
    fold total in Hn. rewrite Hn, Hs, Hl. split; [|reflexivity].
    f_equal. lia.
  - intros n Hn Hr.
    unfold AudioEngine.generateBuffer, AudioEngine.createBuffer in E.
    unfold AudioEngine.bufferLength, AudioEngine.totalTime, JS.truthy in E.
    fold total in E. rewrite Hn in E.
    destruct (Z.leb_spec 1 n); [|lia].
    destruct (Z.ltb_spec n 4294967296); [|lia]. discriminate.
Qed.

(** The points [(0, 0)], [(1, 1)] with a duration of 10 at 4 samples per
    second give 4 samples, where [ceil(4 * max(10, 1))] is 40. *)
Lemma generateBuffer_length_counterexample :
  exists buffer : AudioBuffer.t,
    AudioEngine.generateBuffer 4 examplePoints 10 = Some buffer
    /\ length (AudioEngine.samples buffer) = 4
    /\ JS.Math_ceil (4 * JS.Math_max 10 1)%float = Some 40%Z.
Proof.
  eexists. split; [vm_compute; reflexivity|]. split; vm_compute; reflexivity.
Qed.

(** C3, as the code has it.  For a sequence whose times are numbers,
    sample [i] of a generated buffer is the binary32 rounding of the
    amplitude the specification words at [t = i / sampleRate]: with [p2]
    the first point with [time > t], or the last point if there is none,
    and [p1] its predecessor, or [p2] itself, the linear interpolation of
    [p1] and [p2] at [t] when they are distinct points with different
    times, [p1.amplitude] otherwise, and [0] for an empty sequence.  For
    the points [(0, 0)], [(1, 1)] at 4 samples per second the buffer is
    exactly [0, 0.25, 0.5, 0.75], whatever the duration; the worded
    amplitude at [t = 1.0] is [1.0]. *)
Theorem generateBuffer_samples_interpolate :
  (forall (sampleRate : float) (points : list Point) (duration : float)
          (buffer : AudioBuffer.t) (i : nat),
      forallb (fun p => negb (is_nan (time p))) points = true ->
      AudioEngine.generateBuffer sampleRate points duration = Some buffer ->
      i < AudioBuffer.length buffer ->
      AudioEngine.samples buffer !! i =
      Some (JS.Math_fround
              (Spec.amplitudeAt points (JS.of_nat i / sampleRate)%float)))
  /\ (forall duration : float,
        option_map AudioEngine.samples
          (AudioEngine.generateBuffer 4 examplePoints duration)
        = Some [0; 0.25; 0.5; 0.75]%float)
  /\ Spec.amplitudeAt examplePoints 1 = 1%float.
Proof.
  split; [|split].
  - intros sampleRate points duration buffer i Hnum Hgen Hi.
    destruct (generateBuffer_contents _ _ _ _ Hgen)
      as (n & _ & _ & Hl & _ & Hs).
    rewrite Hs by lia. rewrite amplitudeAt_refines by assumption.
    reflexivity.
  - intros duration. vm_compute. reflexivity.
  - vm_compute. reflexivity.
Qed.

(** The third sample of the example buffer, through the theorem. *)
Lemma generateBuffer_samples_interpolate_witness :
  forallb (fun p => negb (is_nan (time p))) examplePoints = true
  /\ exists buffer : AudioBuffer.t,
       AudioEngine.generateBuffer 4 examplePoints 10 = Some buffer
       /\ AudioEngine.samples buffer !! 3 = Some 0.75%float.
Proof.
  split; [reflexivity|]. eexists. split; [vm_compute; reflexivity|].
  refine (proj1 generateBuffer_samples_interpolate 4%float examplePoints
            10%float _ 3 eq_refl eq_refl _).
  vm_compute. lia.
Defined.

(** The example buffer has four samples: there is none at index 4, that
    is at [t = 1.0]. *)
Lemma generateBuffer_example_counterexample :
  exists buffer : AudioBuffer.t,
    AudioEngine.generateBuffer 4 examplePoints 10 = Some buffer
    /\ AudioEngine.samples buffer = [0; 0.25; 0.5; 0.75]%float
    /\ AudioEngine.samples buffer !! 4 = None.
Proof.
  eexists. split; [vm_compute; reflexivity|]. split; vm_compute; reflexivity.
Qed.

End Synthesis.

(* ================================================================= *)
(** ** The coordinate maps *)

Section CoordinateRoundTrip.



(** In binary64 the round trip is not exact: on the same canvas with a
    pan of 0.3, [x = 1] comes back as [1.0000000000000009]. *)
Example timeToX_xToTime_binary64 :
  (timeToX 10 10 0.3 1000 (xToTime 10 10 0.3 1000 1))%float
  = 1.0000000000000009%float.
Proof. reflexivity. Qed.

End CoordinateRoundTrip.

(* ================================================================= *)
(** ** Import *)

Section ImportFacts.
Import FreeFunctions.
Variable StringToNumber : string -> float.
Variable ObjectToNumber : JSON -> completion float.

Lemma toPoint_cases (p : JSON) (s : Store) :
  (exists q, toPoint StringToNumber ObjectToNumber p s = (Normal q, s)
             /\ converts StringToNumber ObjectToNumber p q)
  \/ (exists e, toPoint StringToNumber ObjectToNumber p s = (Throw e, s)).
Proof.
  unfold toPoint, bind, lift, ret, converts.
  destruct (getProperty p "time") as [t|e]; [|right; eexists; reflexivity].
  destruct (ToNumber StringToNumber ObjectToNumber t) as [x|e] eqn:Ht;
    [|right; eexists; reflexivity].
  destruct (getProperty p "amplitude") as [a|e];
    [|right; eexists; reflexivity].
  destruct (ToNumber StringToNumber ObjectToNumber a) as [y|e] eqn:Ha;
    [|right; eexists; reflexivity].
  left. exists {| time := x; amplitude := y |}. split; [reflexivity|].
  exists t, a. simpl. auto.
Qed.

(** Converting the entries never changes the store, and stops at the
    first entry that throws. *)
Lemma mapM_toPoint_cases (items : list JSON) (s : Store) :
  (exists qs,
      mapM (toPoint StringToNumber ObjectToNumber) items s = (Normal qs, s)
      /\ Forall2 (converts StringToNumber ObjectToNumber) items qs)
  \/ (exists e,
        mapM (toPoint StringToNumber ObjectToNumber) items s = (Throw e, s)).
Proof.
  induction items as [|p items IH].
  - left. exists []. split; [reflexivity|constructor].
  - destruct (toPoint_cases p s) as [(q & Eq & Hq)|(e & Ee)].
    + destruct IH as [(qs & Eqs & Hqs)|(e & Ee)].
      * left. exists (q :: qs). split; [|constructor; assumption].
        cbn [mapM]. unfold bind. rewrite Eq, Eqs. reflexivity.
      * right. exists e. cbn [mapM]. unfold bind. rewrite Eq, Ee.
        reflexivity.
    + right. exists e. cbn [mapM]. unfold bind. rewrite Ee. reflexivity.
Qed.


End ImportFacts.


(* ================================================================= *)
(** ** WAV serialization *)

Section Serialization.

Lemma setInt16_length (pos : nat) (v : Z) (view : list Z) :
  length (DataView.setInt16 pos v view) = length view.
Proof.
  unfold DataView.setInt16, DataView.setUint16, DataView.setUint8.
  rewrite !length_insert. reflexivity.
Qed.

Lemma setInt16_low (pos : nat) (v : Z) (view : list Z) :
  pos + 1 < length view ->
  DataView.setInt16 pos v view !! pos = Some (lowByte v).
Proof.
  intros H. unfold DataView.setInt16, DataView.setUint16, DataView.setUint8.
  rewrite list_lookup_insert_ne by lia.
  rewrite list_lookup_insert_eq by lia.
  f_equal. unfold lowByte. Z.div_mod_to_equations. lia.
Qed.

Lemma setInt16_high (pos : nat) (v : Z) (view : list Z) :
  pos + 1 < length view ->
  DataView.setInt16 pos v view !! (pos + 1) = Some (highByte v).
Proof.
  intros H. unfold DataView.setInt16, DataView.setUint16, DataView.setUint8.
  rewrite list_lookup_insert_eq by (rewrite length_insert; lia).
  f_equal. unfold highByte. Z.div_mod_to_equations. lia.
Qed.

Lemma setInt16_other (pos : nat) (v : Z) (view : list Z) (q : nat) :
  q <> pos -> q <> pos + 1 ->
  DataView.setInt16 pos v view !! q = view !! q.
Proof.
  intros H1 H2.
  unfold DataView.setInt16, DataView.setUint16, DataView.setUint8.
  rewrite !list_lookup_insert_ne by lia. reflexivity.
Qed.

(** Writing a list of integers from [pos] on: the position advances by two
    for each, the bytes before [pos] stay, and integer [j] is at
    [pos + 2 * j]. *)
Lemma put16_all (values : list Z) :
  forall (view : list Z) (pos : nat),
    pos + 2 * length values <= length view ->
    let st := fold_left put16 values (view, pos) in
    snd st = pos + 2 * length values
    /\ length (fst st) = length view
    /\ (forall q, q < pos -> fst st !! q = view !! q)
    /\ (forall j v, values !! j = Some v ->
          fst st !! (pos + 2 * j) = Some (lowByte v)
          /\ fst st !! (pos + 2 * j + 1) = Some (highByte v)).
Proof.
  induction values as [|v0 values IH]; intros view pos Hlen; cbv zeta.
  - simpl. split; [lia|]. split; [reflexivity|]. split; [reflexivity|].
    intros j v Hj. discriminate.
  - simpl fold_left. unfold put16 at 2. simpl fst. simpl snd.
    simpl length in Hlen.
    destruct (IH (DataView.setInt16 pos v0 view) (pos + 2))
      as (P & L & B & W).
    { rewrite setInt16_length. lia. }
    cbv zeta in P, L, B, W. rewrite setInt16_length in L.
    split; [simpl length; lia|]. split; [exact L|]. split.
    + intros q Hq. rewrite B by lia. apply setInt16_other; lia.
    + intros j v Hj. destruct j as [|j].
      * injection Hj as <-. rewrite Nat.mul_0_r, Nat.add_0_r.
        rewrite !B by lia.
        split; [apply setInt16_low|apply setInt16_high]; lia.
      * simpl in Hj. destruct (W j v Hj) as [W1 W2].
        replace (pos + 2 * S j) with (pos + 2 + 2 * j) by lia.
        split; assumption.
Qed.

Lemma writeFrame_put16 (buffer : AudioBuffer.t) (numChannels i : nat)
    (st : DataView.t * nat) :
  FileIO.writeFrame buffer numChannels i st =
  fold_left put16 (frameValues buffer numChannels i) st.
Proof.
  unfold FileIO.writeFrame, frameValues.
  generalize (seq 0 numChannels). intros l. revert st.
  induction l as [|ch l IH]; intros st; simpl; [reflexivity|].
  rewrite IH. destruct st as [view pos]. reflexivity.
Qed.

Lemma writeFrames_put16 (buffer : AudioBuffer.t) (numChannels : nat)
    (l : list nat) :
  forall st : DataView.t * nat,
    fold_left (fun st i => FileIO.writeFrame buffer numChannels i st) l st =
    fold_left put16 (flat_map (frameValues buffer numChannels) l) st.
Proof.
  induction l as [|i l IH]; intros st; simpl; [reflexivity|].
  rewrite fold_left_app, IH, writeFrame_put16. reflexivity.
Qed.

Lemma frameValues_length (buffer : AudioBuffer.t) (numChannels i : nat) :
  length (frameValues buffer numChannels i) = numChannels.
Proof. unfold frameValues. rewrite length_map, length_seq. reflexivity. Qed.

Lemma frameValues_lookup (buffer : AudioBuffer.t) (numChannels i ch : nat) :
  ch < numChannels ->
  frameValues buffer numChannels i !! ch = Some (pcmValue buffer ch i).
Proof.
  intros H. unfold frameValues.
  change (map ?f ?l) with (f <$> l).
  rewrite list_lookup_fmap, lookup_seq_lt by assumption. reflexivity.
Qed.

Lemma flat_map_frames_length (buffer : AudioBuffer.t) (numChannels : nat) :
  forall n a : nat,
    length (flat_map (frameValues buffer numChannels) (seq a n))
    = n * numChannels.
Proof.
  induction n as [|n IH]; intros a; simpl; [reflexivity|].
  rewrite length_app, frameValues_length, IH. reflexivity.
Qed.

(** Frames are interleaved: channel [ch] of frame [i] is integer number
    [i * numChannels + ch]. *)
Lemma flat_map_frames_lookup (buffer : AudioBuffer.t)
    (numChannels ch : nat) :
  forall n a i : nat,
    i < n -> ch < numChannels ->
    flat_map (frameValues buffer numChannels) (seq a n)
      !! (i * numChannels + ch)
    = Some (pcmValue buffer ch (a + i)).
Proof.
  induction n as [|n IH]; intros a i Hi Hch; [lia|]. simpl.
  destruct i as [|i].
  - simpl. rewrite lookup_app_l by (rewrite frameValues_length; lia).
    rewrite Nat.add_0_r. apply frameValues_lookup. exact Hch.
  - rewrite lookup_app_r by (rewrite frameValues_length; simpl; lia).
    rewrite frameValues_length.
    replace (S i * numChannels + ch - numChannels)
      with (i * numChannels + ch) by (simpl; lia).
    rewrite IH by lia. f_equal. f_equal. lia.
Qed.

Lemma writeString_length (s : string) :
  forall (offset : nat) (view : list Z),
    length (FileIO.writeString offset s view) = length view.
Proof.
  induction s as [|c s IH]; intros offset view; simpl; [reflexivity|].
  rewrite IH. unfold DataView.setUint8. apply length_insert.
Qed.

Lemma writeHeader_length (numChannels : nat) (sampleRate : float)
    (dataSize : nat) (view : list Z) :
  length (FileIO.writeHeader numChannels sampleRate dataSize view)
  = length view.
Proof.
  unfold FileIO.writeHeader, DataView.setUint32, DataView.setUint16,
    DataView.setUint8.
  repeat (rewrite ?length_insert, ?writeString_length). reflexivity.
Qed.

(** C9, as the code has it.  For every sample of every channel, the two
    bytes at offset [44 + 2 * (i * numberOfChannels + ch)] are the
    little-endian 16-bit integer obtained by clamping the sample to
    [[-1, 1]], multiplying by 32768 if negative and by 32767 otherwise,
    and rounding the product down with [Math.floor], that is toward minus
    infinity. *)
Theorem audioBufferToWav_sample_bytes :
  forall (buffer : AudioBuffer.t) (ch i : nat),
    ch < AudioBuffer.numberOfChannels buffer ->
    i < AudioBuffer.length buffer ->
    let sample := FileIO.getSample buffer ch i in
    let clamped := JS.Math_max (-1) (JS.Math_min 1 sample) in
    let scaled :=
      if (clamped <? 0)%float then (clamped * 32768)%float
      else (clamped * 32767)%float in
    let value := JS.ToInt16 (JS.Math_floor scaled) in
    let pos := 44 + 2 * (i * AudioBuffer.numberOfChannels buffer + ch) in
    FileIO.audioBufferToWav buffer !! pos = Some (lowByte value)
    /\ FileIO.audioBufferToWav buffer !! (pos + 1) = Some (highByte value).
Proof.
  intros buffer ch i Hch Hi sample clamped scaled value pos.
  unfold FileIO.audioBufferToWav. rewrite writeFrames_put16.
  set (nch := AudioBuffer.numberOfChannels buffer) in *.
  set (n := AudioBuffer.length buffer) in *.
  set (header := FileIO.writeHeader nch _ _ _).
  destruct (put16_all (flat_map (frameValues buffer nch) (seq 0 n))
              header 44) as (_ & _ & _ & W).
  { subst header. rewrite writeHeader_length. unfold DataView.create.
    rewrite length_replicate, flat_map_frames_length. simpl. lia. }
  cbv zeta in W.
  apply (W (i * nch + ch) value).
  rewrite flat_map_frames_lookup by assumption. reflexivity.
Qed.

(** The sample [-2^-16] is scaled to [-0.5] and written as [-1], the
    bytes [255, 255]. *)
Lemma audioBufferToWav_sample_bytes_witness :
  FileIO.audioBufferToWav quietSample !! 44 = Some 255%Z
  /\ FileIO.audioBufferToWav quietSample !! 45 = Some 255%Z.
Proof.
  refine (audioBufferToWav_sample_bytes quietSample 0 0 _ _);
    vm_compute; lia.
Defined.

(** Truncation toward zero would write [0] for that sample. *)
Lemma audioBufferToWav_floors_counterexample :
  FileIO.audioBufferToWav quietSample !! 44 = Some 255%Z
  /\ FileIO.audioBufferToWav quietSample !! 45 = Some 255%Z
  /\ (JS.Math_max (-1) (JS.Math_min 1 (-0.0000152587890625)) * 32768)%float
     = (-0.5)%float
  /\ JS.ToInt16 (JS.Math_trunc (-0.5)) = 0%Z.
Proof. repeat split; vm_compute; reflexivity. Qed.

End Serialization.

(* ================================================================= *)
(** * Further properties of the code

    The properties below are read off the code: the rest of the data
    model, the event handlers of interaction.js, the hit test, playback,
    the WAV container, audio import and the exported functions of
    dataModel.js. *)

(* ================================================================= *)
(** ** Reading a snapshot back *)

Section SnapshotFacts.
Import DataModel.

Lemma valuesOf_alloc (vals : list Point) :
  forall h : Heap,
    valuesOf (h ++ vals) (seq (length h) (length vals)) = vals.
Proof.
  induction vals as [|v vals IH]; intros h; [reflexivity|].
  unfold valuesOf in *. simpl.
  rewrite list_lookup_middle by reflexivity.
  f_equal.
  specialize (IH (h ++ [v])).
  rewrite length_app, <- app_assoc in IH. simpl in IH.
  rewrite Nat.add_1_r in IH. exact IH.
Qed.

Lemma restore_values (text : JSONText) (m : t) :
  valuesOf (heap (restore text m)) (points (restore text m))
  = JSON_parse text.
Proof. unfold restore, alloc. simpl. apply valuesOf_alloc. Qed.

Lemma is_zero_finite (x : float) : is_zero x = true -> is_finite x = true.
Proof.
  unfold is_zero, is_finite, is_nan, is_infinity.
  rewrite !FloatAxioms.eqb_spec, abs_spec.
  destruct (Prim2SF x) as [s|s| |s m e]; try (cbv; congruence).
  all: destruct s; cbv; congruence.
Qed.

Lemma JSON_number_idempotent (x : float) :
  JSON_number (JSON_number x) = JSON_number x.
Proof.
  unfold JSON_number. destruct (is_zero x) eqn:E; [reflexivity|].
  rewrite E. reflexivity.
Qed.

Lemma JSON_field_number (x : float) :
  JSON_field (JSON_number x) = JSON_field x.
Proof.
  unfold JSON_field. rewrite JSON_number_idempotent.
  unfold JSON_number at 1. destruct (is_zero x) eqn:E; [|reflexivity].
  rewrite (is_zero_finite x E). reflexivity.
Qed.

(** Writing out what was read from a text gives the same text. *)
Lemma JSON_fields_parse (text : JSONText) :
  JSON_fields (JSON_stringify (JSON_parse text)) = JSON_fields text.
Proof.
  destruct text as [vals]. simpl. rewrite map_map.
  apply map_ext. intros p. simpl. rewrite !JSON_field_number. reflexivity.
Qed.

Lemma JSON_parse_idempotent (text : JSONText) :
  JSON_parse (JSON_stringify (JSON_parse text)) = JSON_parse text.
Proof.
  destruct text as [vals]. simpl. rewrite map_map.
  apply map_ext. intros p. simpl. rewrite !JSON_number_idempotent.
  reflexivity.
Qed.

Lemma last_snoc {A : Type} (l : list A) (x : A) : last (l ++ [x]) = Some x.
Proof. induction l as [|a [|b l] IH]; simpl in *; auto. Qed.

End SnapshotFacts.

Section HistoryRoundTrip.
Import DataModel.



End HistoryRoundTrip.

(* ================================================================= *)
(** ** Undo after an edit *)

Section UndoAfterEdit.
Import DataModel.
Variable CONFIG : Config.

Lemma saveState_last (m : DataModel.t) :
  (0 < MAX_UNDO CONFIG)%Z ->
  last (undoStack (saveState CONFIG m)) = Some (snapshot m).
Proof.
  intros Hpos. rewrite saveState_undoStack. cbv zeta.
  rewrite (maxUndo_positive CONFIG Hpos).
  destruct (Z.ltb_spec (MAX_UNDO CONFIG)
              (Z.of_nat (length (undoStack m ++ [snapshot m]))))
    as [Hlt|Hge]; [|apply last_snoc].
  destruct (undoStack m) as [|a l]; simpl in *; [lia|].
  apply last_snoc.
Qed.

Lemma undo_to_top (m : DataModel.t) (text : JSONText) :
  last (undoStack m) = Some text ->
  fst (undo m) = true
  /\ valuesOf (heap (snd (undo m))) (points (snd (undo m))) = JSON_parse text
  /\ redoStack (snd (undo m)) = redoStack m ++ [snapshot m].
Proof.
  intros Htop. unfold undo. rewrite Htop. simpl fst. simpl snd.
  split; [reflexivity|]. split; [apply restore_values|].
  unfold restore, alloc. reflexivity.
Qed.


End UndoAfterEdit.


(* ================================================================= *)
(** ** Adding a point to an ordered sequence *)

Section AddPoint.
Import DataModel.

Lemma sort_insert_HdRel_id (h : Heap) (a : ref) (l : list ref) :
  HdRel (inOrder h) a l -> sort_insert h a l = a :: l.
Proof.
  intros H. destruct l as [|b l]; [reflexivity|].
  inversion H as [|? ? Hab]; subst. simpl.
  unfold inOrder in Hab. rewrite Hab. reflexivity.
Qed.

(** The sort does not move anything in a sequence whose neighbours are in
    order. *)
Lemma sortByTime_Sorted_id (h : Heap) (l : list ref) :
  Sorted (inOrder h) l -> sortByTime h l = l.
Proof.
  induction 1 as [|a l Hs IH Hd]; [reflexivity|].
  unfold sortByTime in *. simpl. rewrite IH.
  apply sort_insert_HdRel_id. exact Hd.
Qed.

(** Sorting an ordered sequence with one element pushed at its end puts
    the element somewhere and leaves the others in their order. *)
Lemma sortByTime_snoc (h : Heap) (x : ref) (l : list ref) :
  Sorted (inOrder h) l ->
  exists before after,
    l = before ++ after /\ sortByTime h (l ++ [x]) = before ++ x :: after.
Proof.
  unfold sortByTime. rewrite fold_right_app. simpl.
  induction 1 as [|a l Hs IH Hd].
  - exists [], []. split; reflexivity.
  - destruct IH as (before & after & Hl & Hsort). simpl. rewrite Hsort.
    destruct before as [|b before].
    + simpl in *. subst after.
      destruct (0 <? comparator h a x)%float eqn:E.
      * exists [], (a :: l). split; [reflexivity|]. simpl. rewrite ?E.
        rewrite sort_insert_HdRel_id by exact Hd. reflexivity.
      * exists [a], l. split; [reflexivity|]. simpl. rewrite ?E.
        reflexivity.
    + exists (a :: b :: before), after. subst l. split; [reflexivity|].
      inversion Hd as [|? ? Hab]; subst. simpl.
      unfold inOrder in Hab. rewrite Hab. reflexivity.
Qed.

Lemma comparator_app (h : Heap) (extra : list Point) (a b : ref) :
  a < length h -> b < length h ->
  comparator (h ++ extra) a b = comparator h a b.
Proof.
  intros Ha Hb. unfold comparator, timeOf.
  rewrite !lookup_app_l by assumption. reflexivity.
Qed.

Lemma Sorted_inOrder_app (h : Heap) (extra : list Point) (l : list ref) :
  Forall (fun r => r < length h) l ->
  Sorted (inOrder h) l -> Sorted (inOrder (h ++ extra)) l.
Proof.
  intros Hlive Hs. induction Hs as [|a l Hs IH Hd]; [constructor|].
  apply Forall_cons in Hlive as [Ha Hl].
  constructor; [apply IH, Hl|].
  destruct Hd as [|b l Hab]; constructor.
  apply Forall_cons in Hl as [Hb _].
  unfold inOrder in *. rewrite comparator_app by assumption. exact Hab.
Qed.

(** X3.  [addPoint(time, amplitude)] on a sequence of live objects whose
    neighbours are in time order: one object with the given values is
    created and no other object changes; it is put somewhere in the
    sequence and the other points keep their order; the neighbours of
    the new sequence are in time order; the selection is kept, and the
    redo stack is emptied. *)
Theorem addPoint_inserts_in_order :
  forall (CONFIG : Config) (t a : float) (m : DataModel.t),
    Forall (fun r => r < length (heap m)) (points m) ->
    Sorted (inOrder (heap m)) (points m) ->
    let m' := addPoint CONFIG t a m in
    let new := length (heap m) in
    heap m' = heap m ++ [ {| time := t; amplitude := a |} ]
    /\ (exists before after,
          points m = before ++ after
          /\ points m' = before ++ new :: after)
    /\ Sorted (inOrder (heap m')) (points m')
    /\ selectedPoints m' = selectedPoints m
    /\ selectedPoint m' = selectedPoint m
    /\ redoStack m' = [].
Proof.
  intros CONFIG t a m Hlive Hs m' new.
  split; [reflexivity|].
  split; [|split; [apply sortByTime_Sorted | repeat split]].
  apply sortByTime_snoc.
  apply (Sorted_inOrder_app (heap m)); assumption.
Qed.

Lemma addPoint_inserts_in_order_witness :
  let m' := addPoint DEFAULT_CONFIG 5 0 exampleModel in
  heap m' = heap exampleModel ++ [ {| time := 5; amplitude := 0 |} ]
  /\ Sorted (inOrder (heap m')) (points m')
  /\ points m' = [0; 2; 1].
Proof.
  assert (Hlive : Forall (fun r => r < length (heap exampleModel))
                    (points exampleModel)).
  { repeat constructor. }
  assert (Hs : Sorted (inOrder (heap exampleModel)) (points exampleModel)).
  { repeat constructor. }
  pose proof (addPoint_inserts_in_order DEFAULT_CONFIG 5 0 exampleModel
                Hlive Hs) as H.
  cbv zeta in H. destruct H as (H1 & _ & H3 & _).
  split; [exact H1|]. split; [exact H3|]. reflexivity.
Defined.

End AddPoint.

(* ================================================================= *)
(** ** Drags that are turned down, and the editing area *)

Section DragBounds.
Import InteractionHandler.

Lemma canMoveAll_existsb (h : Heap) (d dx dy : float) (l : list ref) :
  canMoveAll h d dx dy l =
  negb (existsb (fun r => exceedsBounds d (candidateTime h dx r)
                            (candidateAmplitude h dy r)) l).
Proof.
  induction l as [|r l IH]; simpl; [reflexivity|].
  unfold candidateTime, candidateAmplitude in *.
  destruct (exceedsBounds _ _ _); simpl; auto.
Qed.

Lemma dragPoints_heap_rejected (point : ref) (e : MouseEvent) (h : t) :
  dragRejected point e h = true ->
  DataModel.heap (dataModel (dragPoints point e h))
  = DataModel.heap (dataModel h).
Proof.
  unfold dragRejected, dragPoints. intros H. simpl.
  fold (dragDeltaTime e h) (dragDeltaAmplitude e h) in *.
  destruct (JS.Set_has _ point).
  - rewrite canMoveAll_existsb, H. reflexivity.
  - apply negb_true_iff in H.
    unfold inBounds, candidateTime, candidateAmplitude in H.
    unfold JS.geb. rewrite H. reflexivity.
Qed.

(** X4.  A drag that is turned down changes nothing: on a sequence whose
    neighbours are in time order, [dragPoints] returns the handler it was
    given, with the same objects, sequence, selection and history. *)
Theorem dragPoints_rejected_unchanged :
  forall (h : InteractionHandler.t) (e : MouseEvent) (point : ref),
    Sorted (inOrder (DataModel.heap (dataModel h)))
      (DataModel.points (dataModel h)) ->
    dragRejected point e h = true ->
    dragPoints point e h = h.
Proof.
  intros h e point Hs Hrej.
  pose proof (dragPoints_heap_rejected point e h Hrej) as Hheap.
  assert (Hdm : dataModel (dragPoints point e h)
                = DataModel.sortPoints
                    (DataModel.set_heap
                       (DataModel.heap (dataModel (dragPoints point e h)))
                       (dataModel h))).
  { reflexivity. }
  assert (Hh : dragPoints point e h
               = set_dataModel (dataModel (dragPoints point e h)) h).
  { reflexivity. }
  rewrite Hh, Hdm, Hheap. unfold DataModel.sortPoints. simpl.
  rewrite (sortByTime_Sorted_id _ _ Hs).
  destruct h as [c dm dr dp lx ly ck]. destruct dm. reflexivity.
Qed.

Lemma dragPoints_rejected_unchanged_witness :
  dragPoints 0 exampleDrag exampleHandler = exampleHandler.
Proof.
  apply dragPoints_rejected_unchanged; [|reflexivity].
  repeat constructor.
Defined.

Lemma lookup_pointInBounds (dm dm' : DataModel.t) (r : ref) :
  DataModel.duration dm' = DataModel.duration dm ->
  DataModel.heap dm' !! r = DataModel.heap dm !! r ->
  pointInBounds dm' r = pointInBounds dm r.
Proof.
  intros Hd Hl. unfold pointInBounds, timeOf, amplitudeOf.
  rewrite Hd, Hl. reflexivity.
Qed.

(** X5.  Dragging never takes a point of the sequence out of the editing
    area [[0, duration] x [-1, 1]]: if every point of the sequence is
    inside before [dragPoints], every point is inside after it.  (For a
    drag on the selection this needs what the group move needs: a
    duration and candidate positions that are numbers, and a selection
    set without repeats; the test of a single point refuses a candidate
    that is not a number by itself.) *)
Theorem dragPoints_keeps_points_in_bounds :
  forall (h : InteractionHandler.t) (e : MouseEvent) (point : ref),
    let dm := dataModel h in
    let dm' := dataModel (dragPoints point e h) in
    let dx := dragDeltaTime e h in
    let dy := dragDeltaAmplitude e h in
    NoDup (DataModel.selectedPoints dm) ->
    is_nan (DataModel.duration dm) = false ->
    forallb
      (fun r => negb (is_nan (candidateTime (DataModel.heap dm) dx r))
                && negb (is_nan (candidateAmplitude (DataModel.heap dm) dy r)))
      (DataModel.selectedPoints dm) = true ->
    Forall (fun r => pointInBounds dm r = true) (DataModel.points dm) ->
    Forall (fun r => pointInBounds dm' r = true) (DataModel.points dm').
Proof.
  intros h e point dm dm' dx dy Hnd Hd Hnum Hin.
  assert (Hdur : DataModel.duration dm' = DataModel.duration dm)
    by reflexivity.
  assert (Hone : forall r, pointInBounds dm r = true ->
                           pointInBounds dm' r = true).
  { intros r Hr.
    destruct (JS.Set_has (DataModel.selectedPoints dm) point) eqn:Hsel.
    - assert (Hheap : DataModel.heap dm' =
        if canMoveAll (DataModel.heap dm) (DataModel.duration dm) dx dy
             (DataModel.selectedPoints dm)
        then moveAll dx dy (DataModel.selectedPoints dm) (DataModel.heap dm)
        else DataModel.heap dm).
      { apply dragPoints_heap_group. exact Hsel. }
      rewrite canMoveAll_forallb in Hheap.
      destruct (forallb _ (DataModel.selectedPoints dm)) eqn:Hcan in Hheap;
        [|rewrite <- Hr; apply lookup_pointInBounds; congruence].
      destruct (decide (r ∈ DataModel.selectedPoints dm)) as [Hmem|Hmem].
      + unfold pointInBounds, timeOf, amplitudeOf.
        rewrite Hdur, Hheap, moveAll_lookup_in by assumption.
        destruct (DataModel.heap dm !! r) as [p|] eqn:Hp.
        * rewrite forallb_forall in Hcan, Hnum.
          apply list_elem_of_In in Hmem.
          specialize (Hcan r Hmem). specialize (Hnum r Hmem).
          apply andb_true_iff in Hnum as [Ht Ha].
          apply negb_true_iff in Ht, Ha, Hcan.
          unfold candidateTime, candidateAmplitude, timeOf, amplitudeOf
            in Ht, Ha, Hcan.
          rewrite Hp in Ht, Ha, Hcan. simpl.
          destruct (inBounds _ _ _) eqn:Hb; [reflexivity|].
          rewrite (outOfBounds_exceeds _ _ _ Hd Ht Ha Hb) in Hcan.
          discriminate.
        * unfold pointInBounds, timeOf, amplitudeOf in Hr.
          rewrite Hp in Hr. exact Hr.
      + rewrite <- Hr. apply lookup_pointInBounds; [exact Hdur|].
        rewrite Hheap. apply moveAll_lookup_notin. exact Hmem.
    - set (newTime := (timeOf (DataModel.heap dm) point + dx)%float).
      set (newAmp := (amplitudeOf (DataModel.heap dm) point + dy)%float).
      assert (Hheap : DataModel.heap dm' =
        if inBounds (DataModel.duration dm) newTime newAmp
        then alter (fun _ => {| time := newTime; amplitude := newAmp |})
               point (DataModel.heap dm)
        else DataModel.heap dm).
      { subst dm'. unfold dragPoints. fold dm dx dy. rewrite Hsel.
        reflexivity. }
      destruct (inBounds _ newTime newAmp) eqn:Hok;
        [|rewrite <- Hr; apply lookup_pointInBounds; congruence].
      destruct (decide (r = point)) as [->|Hne].
      + unfold pointInBounds, timeOf, amplitudeOf.
        rewrite Hdur, Hheap, list_lookup_alter_eq.
        destruct (DataModel.heap dm !! point) as [p|] eqn:Hp.
        * exact Hok.
        * unfold pointInBounds, timeOf, amplitudeOf in Hr.
          rewrite Hp in Hr. exact Hr.
      + rewrite <- Hr. apply lookup_pointInBounds; [exact Hdur|].
        rewrite Hheap. apply list_lookup_alter_ne. congruence. }
  assert (Hpts : Permutation (DataModel.points dm') (DataModel.points dm)).
  { apply sortByTime_Permutation. }
  apply (Permutation_Forall (Permutation_sym Hpts)).
  eapply List.Forall_impl; [|exact Hin]. exact Hone.
Qed.

Lemma dragPoints_keeps_points_in_bounds_witness :
  let e := {| offsetX := 90; offsetY := 100; clientX := 90 |} in
  let dm' := dataModel (dragPoints 0 e exampleHandler) in
  Forall (fun r => pointInBounds dm' r = true) (DataModel.points dm')
  /\ (timeOf (DataModel.heap dm') 1 <? 9.99)%float = true.
Proof.
  split; [|reflexivity].
  apply dragPoints_keeps_points_in_bounds; try reflexivity.
  - apply (bool_decide_unpack _). reflexivity.
  - repeat constructor.
Defined.

End DragBounds.

(* ================================================================= *)
(** ** The rubber band *)

Section BoxSelect.
Import Interaction.

Lemma Set_add_elem (s : list nat) (p r : nat) :
  r ∈ JS.Set_add s p <-> r ∈ s \/ r = p.
Proof.
  unfold JS.Set_add, JS.Set_has. case_bool_decide as Hp.
  - split; [auto|]. intros [H| ->]; assumption.
  - rewrite elem_of_app, list_elem_of_singleton. reflexivity.
Qed.

Lemma Set_add_NoDup (s : list nat) (p : nat) :
  NoDup s -> NoDup (JS.Set_add s p).
Proof.
  intros H. unfold JS.Set_add, JS.Set_has. case_bool_decide as Hp;
    [exact H|].
  apply NoDup_app. split; [exact H|]. split.
  - intros x Hx Hx'. apply list_elem_of_singleton in Hx'. subst. auto.
  - apply NoDup_singleton.
Qed.

Lemma Set_add_extends (s : list nat) (p : nat) :
  exists added, JS.Set_add s p = s ++ added.
Proof.
  unfold JS.Set_add. destruct (JS.Set_has s p).
  - exists []. rewrite app_nil_r. reflexivity.
  - exists [p]. reflexivity.
Qed.

Lemma fold_Set_add_spec (f : ref -> bool) (l : list ref) :
  forall selected : list ref,
    let result :=
      fold_left (fun selected p =>
                   if f p then JS.Set_add selected p else selected)
        l selected in
    (exists added, result = selected ++ added)
    /\ (forall r, r ∈ result <-> r ∈ selected \/ (r ∈ l /\ f r = true))
    /\ (NoDup selected -> NoDup result).
Proof.
  induction l as [|p l IH]; intros selected; simpl.
  - split; [exists []; rewrite app_nil_r; reflexivity|]. split; [|auto].
    intros r. split; [auto|]. intros [H|[H _]]; [exact H|inversion H].
  - specialize (IH (if f p then JS.Set_add selected p else selected)).
    cbv zeta in IH. destruct IH as ((added & Hadd) & Hmem & Hnd).
    split; [|split].
    + rewrite Hadd. destruct (f p).
      * destruct (Set_add_extends selected p) as (a & ->).
        exists (a ++ added). rewrite app_assoc. reflexivity.
      * exists added. reflexivity.
    + intros r. rewrite Hmem, elem_of_cons. destruct (f p) eqn:Hp.
      * rewrite Set_add_elem. split.
        -- intros [[H| ->]|[H1 H2]]; auto.
        -- intros [H|[[->|H1] H2]]; auto.
      * split.
        -- intros [H|[H1 H2]]; auto.
        -- intros [H|[[->|H1] H2]]; auto. congruence.
    + intros H. apply Hnd. destruct (f p); [|exact H].
      apply Set_add_NoDup, H.
Qed.

Variable CONFIG : Config.

(** X6.  While the command key is held and a rubber band is open, a
    pointer move only adds to the selection: the selection set after the
    move is the one before, followed by the points of the sequence drawn
    inside the rectangle spanned by the start of the band and the
    pointer that were not in it yet; no point is deselected when the
    rectangle shrinks; the set has no repeats; the point objects, the
    sequence and the history are not touched. *)
Theorem onMouseMove_box_select_grows :
  forall (e : MouseEvent) (s : Interaction.t) (box : SelectionBox),
    InteractionHandler.isDragging (handler s) = true ->
    InteractionHandler.isCommandKey (handler s) = true ->
    selectionBox s = Some box ->
    let dm := dataModel s in
    let dm' := dataModel (onMouseMove CONFIG e s) in
    let inside :=
      insideBox (InteractionHandler.canvas (handler s)) dm
        (JS.Math_min (fst (selectionStart s)) (offsetX e))
        (JS.Math_max (fst (selectionStart s)) (offsetX e))
        (JS.Math_min (snd (selectionStart s)) (offsetY e))
        (JS.Math_max (snd (selectionStart s)) (offsetY e)) in
    (exists added,
       DataModel.selectedPoints dm' = DataModel.selectedPoints dm ++ added)
    /\ (forall r,
          r ∈ DataModel.selectedPoints dm' <->
          r ∈ DataModel.selectedPoints dm
          \/ (r ∈ DataModel.points dm /\ inside r = true))
    /\ (NoDup (DataModel.selectedPoints dm) ->
        NoDup (DataModel.selectedPoints dm'))
    /\ DataModel.heap dm' = DataModel.heap dm
    /\ DataModel.points dm' = DataModel.points dm
    /\ DataModel.undoStack dm' = DataModel.undoStack dm
    /\ DataModel.redoStack dm' = DataModel.redoStack dm.
Proof.
  intros e s box Hdrag Hcmd Hbox dm dm' inside.
  assert (Hdm : dm' =
    boxSelect (InteractionHandler.canvas (handler s))
      (JS.Math_min (fst (selectionStart s)) (offsetX e))
      (JS.Math_max (fst (selectionStart s)) (offsetX e))
      (JS.Math_min (snd (selectionStart s)) (offsetY e))
      (JS.Math_max (snd (selectionStart s)) (offsetY e)) dm).
  { subst dm'. unfold onMouseMove. rewrite Hdrag, Hcmd, Hbox. reflexivity. }
  rewrite Hdm. unfold boxSelect. simpl.
  destruct (fold_Set_add_spec inside (DataModel.points dm)
              (DataModel.selectedPoints dm)) as (H1 & H2 & H3).
  repeat split; try assumption; apply H2.
Qed.

End BoxSelect.

Lemma onMouseMove_box_select_grows_witness :
  let s :=
    {| Interaction.handler :=
         {| InteractionHandler.canvas := {| width := 1000; height := 500 |};
            InteractionHandler.dataModel :=
              DataModel.clearSelection exampleModel;
            InteractionHandler.isDragging := true;
            InteractionHandler.draggingPoint := None;
            InteractionHandler.lastX := 50;
            InteractionHandler.lastY := 50;
            InteractionHandler.isCommandKey := true |};
       Interaction.mouseDownTime := 0;
       Interaction.selectionBox :=
         Some {| box_x := 50; box_y := 50; box_width := 0; box_height := 0 |};
       Interaction.selectionStart := (50%float, 50%float) |} in
  let dm' :=
    Interaction.dataModel
      (Interaction.onMouseMove DEFAULT_CONFIG
         {| offsetX := 200; offsetY := 300; clientX := 200 |} s) in
  0 ∈ DataModel.selectedPoints dm' /\ DataModel.points dm' = [0; 1].
Proof.
  intros s.
  destruct (onMouseMove_box_select_grows DEFAULT_CONFIG
              {| offsetX := 200; offsetY := 300; clientX := 200 |} s
              {| box_x := 50; box_y := 50; box_width := 0; box_height := 0 |}
              eq_refl eq_refl eq_refl) as (_ & Hmem & _ & _ & Hpts & _).
  split; [|exact Hpts].
  apply Hmem. right. split; [|reflexivity].
  apply (bool_decide_unpack _). reflexivity.
Defined.

(* ================================================================= *)
(** ** Keys and clicks *)

Section KeysAndClicks.
Import Interaction.
Variable CONFIG : Config.

Lemma removePoints_elem (pointsToRemove : list ref) (m : DataModel.t)
    (r : ref) :
  r ∈ DataModel.points (DataModel.removePoints CONFIG pointsToRemove m)
  <-> r ∈ DataModel.points m /\ r ∉ pointsToRemove.
Proof.
  unfold DataModel.removePoints, JS.Set_has. simpl.
  rewrite list_elem_of_filter. split.
  - intros [H1 H2]. split; [exact H2|].
    apply negb_prop_elim in H1. rewrite bool_decide_spec in H1. exact H1.
  - intros [H1 H2]. split; [|exact H1].
    apply negb_prop_intro. rewrite bool_decide_spec. exact H2.
Qed.

(** X7.  Backspace and Delete, with or without a modifier key: with an
    empty selection set and no selected point the data model is left as
    it is (no snapshot is taken); otherwise a snapshot is taken, the
    sequence loses exactly the points of the selection set (or, when the
    set is empty, the selected point), keeping the order of the others,
    and the selection is cleared.  No point object changes. *)
Theorem onKeyDown_delete_removes_selection :
  forall (e : KeyboardEvent) (s : Interaction.t),
    key e = "Delete"%string \/ key e = "Backspace"%string ->
    let dm := dataModel s in
    let dm' := dataModel (onKeyDown CONFIG e s) in
    let doomed :=
      match DataModel.selectedPoints dm, DataModel.selectedPoint dm with
      | [], Some p => [p]
      | selected, _ => selected
      end in
    match doomed with
    | [] => dm' = dm
    | _ :: _ =>
        DataModel.points dm'
        = filter (fun p => negb (bool_decide (p ∈ doomed))) (DataModel.points dm)
        /\ (forall r, r ∈ DataModel.points dm' <->
                      r ∈ DataModel.points dm /\ r ∉ doomed)
        /\ DataModel.selectedPoints dm' = []
        /\ DataModel.selectedPoint dm' = None
        /\ DataModel.heap dm' = DataModel.heap dm
        /\ DataModel.undoStack dm'
           = DataModel.undoStack (DataModel.saveState CONFIG dm)
        /\ DataModel.redoStack dm' = []
    end.
Proof.
  intros e s Hkey dm dm' doomed.
  assert (Hdm : dm' = deleteSelection CONFIG dm).
  { subst dm' dm. unfold onKeyDown.
    destruct Hkey as [-> | ->]; destruct (metaKey e || ctrlKey e);
      reflexivity. }
  rewrite Hdm. unfold deleteSelection. subst doomed.
  destruct (DataModel.selectedPoints dm) as [|a sel] eqn:Hsel.
  - destruct (DataModel.selectedPoint dm) as [p|] eqn:Hp; simpl;
      [|reflexivity].
    change (JS.Set_of [p]) with [p].
    split; [reflexivity|]. split; [|repeat split].
    intros r. apply (removePoints_elem [p] dm r).
  - simpl.
    split; [reflexivity|]. split; [|repeat split].
    intros r. apply (removePoints_elem (a :: sel) dm r).
Qed.

Lemma find_pointwise {A : Type} (f g : A -> bool) (l : list A) :
  (forall x, f x = g x) -> find f l = find g l.
Proof.
  intros H. induction l as [|a l IH]; simpl; [reflexivity|].
  rewrite H, IH. reflexivity.
Qed.

(** [pickPointAt] reads the point objects, the sequence and the view, not
    the selection. *)
Lemma pickPointAt_selection (canvas : Canvas) (dm dm' : DataModel.t)
    (x y tol : float) :
  DataModel.heap dm' = DataModel.heap dm ->
  DataModel.points dm' = DataModel.points dm ->
  DataModel.duration dm' = DataModel.duration dm ->
  DataModel.zoom dm' = DataModel.zoom dm ->
  DataModel.pan dm' = DataModel.pan dm ->
  pickPointAt canvas dm' x y tol = pickPointAt canvas dm x y tol.
Proof.
  intros Hh Hp Hd Hz Hpan. unfold pickPointAt. rewrite Hp.
  apply find_pointwise. intros r.
  unfold withinTolerance, CanvasRenderer.timeToX. rewrite Hh, Hd, Hz, Hpan.
  reflexivity.
Qed.

Lemma onMouseDown_plain (now : float) (e : MouseEvent) (s : Interaction.t) :
  InteractionHandler.isCommandKey (handler s) = false ->
  let canvas := InteractionHandler.canvas (handler s) in
  let dm := dataModel s in
  let picked :=
    pickPointAt canvas dm (offsetX e) (offsetY e) (POINT_HIT_RADIUS CONFIG) in
  handler (onMouseDown CONFIG now e s) =
  {| InteractionHandler.canvas := canvas;
     InteractionHandler.dataModel :=
       match picked with
       | Some p =>
           DataModel.saveState CONFIG
             (if JS.Set_has (DataModel.selectedPoints dm) p then dm
              else DataModel.selectPoint p dm)
       | None => DataModel.clearSelection dm
       end;
     InteractionHandler.isDragging := true;
     InteractionHandler.draggingPoint := picked;
     InteractionHandler.lastX := clientX e;
     InteractionHandler.lastY := offsetY e;
     InteractionHandler.isCommandKey := false |}.
Proof.
  intros Hcmd canvas dm picked.
  unfold onMouseDown. cbv zeta. rewrite Hcmd. cbn [negb handler].
  change (InteractionHandler.dataModel (handler s)) with dm.
  fold canvas. fold picked.
  destruct picked as [p|] eqn:Hpick.
  - destruct (JS.Set_has (DataModel.selectedPoints dm) p) eqn:Hsel;
      cbn [negb].
    + fold picked. rewrite Hpick. reflexivity.
    + rewrite (pickPointAt_selection canvas dm (DataModel.selectPoint p dm))
        by reflexivity.
      fold picked. rewrite Hpick. reflexivity.
  - rewrite (pickPointAt_selection canvas dm (DataModel.clearSelection dm))
      by reflexivity.
    fold picked. rewrite Hpick. reflexivity.
Qed.

(** X8.  A press and a release with the command key up.  If the press
    was not on a point, the selection is cleared, and the release adds
    one point at the pointer's position if it comes less than 200 ms
    after the press, and nothing otherwise.  If the press was on a point,
    no point is created, however short the click: the point becomes the
    selected point unless it is in the selection set, and a snapshot is
    taken even though nothing was moved. *)
Theorem click_creates_point :
  forall (now1 now2 : float) (e1 e2 : MouseEvent) (s : Interaction.t),
    InteractionHandler.isCommandKey (handler s) = false ->
    let canvas := InteractionHandler.canvas (handler s) in
    let dm := dataModel s in
    let dm' :=
      dataModel (onMouseUp CONFIG now2 e2 (onMouseDown CONFIG now1 e1 s)) in
    match pickPointAt canvas dm (offsetX e1) (offsetY e1)
            (POINT_HIT_RADIUS CONFIG) with
    | None =>
        dm' =
        if (now2 - now1 <? 200)%float
        then DataModel.addPoint CONFIG
               (CanvasRenderer.xToTime canvas dm (offsetX e2))
               (CanvasRenderer.yToAmplitude canvas (offsetY e2))
               (DataModel.clearSelection dm)
        else DataModel.clearSelection dm
    | Some p =>
        dm' =
        DataModel.saveState CONFIG
          (if JS.Set_has (DataModel.selectedPoints dm) p then dm
           else DataModel.selectPoint p dm)
    end.
Proof.
  intros now1 now2 e1 e2 s Hcmd canvas dm dm'.
  subst dm'. unfold onMouseUp, dataModel. cbv zeta.
  cbn [handler InteractionHandler.dataModel].
  change (mouseDownTime (onMouseDown CONFIG now1 e1 s)) with now1.
  rewrite (onMouseDown_plain now1 e1 s Hcmd). cbv zeta.
  cbn [InteractionHandler.draggingPoint InteractionHandler.isCommandKey
       InteractionHandler.canvas InteractionHandler.dataModel].
  change (InteractionHandler.dataModel (handler s)) with dm.
  fold canvas. subst dm.
  destruct (pickPointAt canvas (dataModel s) (offsetX e1) (offsetY e1)
              (POINT_HIT_RADIUS CONFIG)) as [p|].
  - rewrite (bool_decide_true (is_Some (Some p))) by eauto.
    rewrite andb_false_r. reflexivity.
  - rewrite (bool_decide_false (is_Some (@None ref)))
      by (intros [? ?]; discriminate).
    rewrite andb_true_r, andb_true_r.
    destruct (now2 - now1 <? 200)%float; reflexivity.
Qed.

(** Moves while a point is being dragged with the command key up leave
    the history alone. *)
Lemma onMouseMove_dragging (e : MouseEvent) (s : Interaction.t) (p : ref) :
  InteractionHandler.isDragging (handler s) = true ->
  InteractionHandler.isCommandKey (handler s) = false ->
  InteractionHandler.draggingPoint (handler s) = Some p ->
  let s' := onMouseMove CONFIG e s in
  InteractionHandler.isDragging (handler s') = true
  /\ InteractionHandler.isCommandKey (handler s') = false
  /\ InteractionHandler.draggingPoint (handler s') = Some p
  /\ DataModel.undoStack (dataModel s') = DataModel.undoStack (dataModel s).
Proof.
  intros Hd Hc Hp. unfold onMouseMove. rewrite Hd, Hc, Hp. simpl.
  destruct (selectionBox s); simpl; rewrite Hd, Hc, Hp; repeat split.
Qed.

Lemma moves_dragging (moves : list MouseEvent) :
  forall (s : Interaction.t) (p : ref),
    InteractionHandler.isDragging (handler s) = true ->
    InteractionHandler.isCommandKey (handler s) = false ->
    InteractionHandler.draggingPoint (handler s) = Some p ->
    DataModel.undoStack
      (dataModel (fold_left (fun s e => onMouseMove CONFIG e s) moves s))
    = DataModel.undoStack (dataModel s).
Proof.
  induction moves as [|e moves IH]; intros s p Hd Hc Hp; [reflexivity|].
  simpl. destruct (onMouseMove_dragging e s p Hd Hc Hp) as (H1 & H2 & H3 & H4).
  rewrite (IH _ p H1 H2 H3). exact H4.
Qed.


End KeysAndClicks.

Lemma onKeyDown_delete_removes_selection_witness :
  let dm' :=
    Interaction.dataModel
      (Interaction.onKeyDown DEFAULT_CONFIG deleteKey exampleSession) in
  DataModel.points dm' = [] /\ DataModel.selectedPoints dm' = []
  /\ length (DataModel.undoStack dm') = 1.
Proof.
  pose proof (onKeyDown_delete_removes_selection DEFAULT_CONFIG deleteKey
                exampleSession (or_introl eq_refl)) as H.
  cbv zeta in H.
  change (DataModel.selectedPoints (Interaction.dataModel exampleSession))
    with [0; 1] in H.
  cbv iota in H. destruct H as (H1 & _ & H3 & _ & _ & H6 & _).
  split; [rewrite H1; reflexivity|]. split; [exact H3|].
  rewrite H6. reflexivity.
Defined.

Lemma click_creates_point_witness :
  let dm' :=
    Interaction.dataModel
      (Interaction.onMouseUp DEFAULT_CONFIG 120 pressOnNothing
         (Interaction.onMouseDown DEFAULT_CONFIG 0 pressOnNothing
            exampleSession)) in
  DataModel.heap dm'
  = DataModel.heap exampleModel ++ [ {| time := 0.5; amplitude := 0.6 |} ]
  /\ DataModel.points dm' = [0; 2; 1]
  /\ DataModel.selectedPoints dm' = [].
Proof.
  pose proof (click_creates_point DEFAULT_CONFIG 0 120 pressOnNothing
                pressOnNothing exampleSession eq_refl) as H.
  cbv zeta in H.
  change (pickPointAt _ _ _ _ _) with (@None ref) in H.
  cbv iota in H. cbv zeta. rewrite H. repeat split.
Defined.


(* ================================================================= *)
(** ** Clamping *)

Section Clamp.

Lemma leb_refl (x : float) : is_nan x = false -> (x <=? x)%float = true.
Proof.
  intros H. rewrite FloatAxioms.leb_spec. unfold SFleb.
  rewrite SFcompare_refl; [reflexivity|]. apply is_nan_Prim2SF, H.
Qed.

Lemma ltb_leb (x y : float) :
  (x <? y)%float = true -> (x <=? y)%float = true.
Proof.
  rewrite FloatAxioms.ltb_spec, FloatAxioms.leb_spec. unfold SFltb, SFleb.
  destruct (SFcompare (Prim2SF x) (Prim2SF y)) as [[]|]; congruence.
Qed.

Lemma not_ltb_leb (x y : float) :
  is_nan x = false -> is_nan y = false ->
  (y <? x)%float = false -> (x <=? y)%float = true.
Proof.
  intros Hx Hy H. rewrite (ltb_negb_leb x y Hx Hy) in H.
  apply negb_false_iff in H. exact H.
Qed.

Lemma leb_not_nan (x y : float) :
  (x <=? y)%float = true -> is_nan x = false /\ is_nan y = false.
Proof.
  rewrite FloatAxioms.leb_spec. unfold SFleb, is_nan.
  rewrite !FloatAxioms.eqb_spec. unfold SFeqb.
  destruct (Prim2SF x) as [s|s| |s m e], (Prim2SF y) as [s'|s'| |s' m' e'];
    try (cbv; congruence); intros _.
  all: rewrite !SFcompare_refl by discriminate; auto.
Qed.

Lemma Math_min_cases (a b : float) :
  is_nan a = false -> is_nan b = false ->
  (JS.Math_min a b = a \/ JS.Math_min a b = b)
  /\ (JS.Math_min a b <=? a)%float = true.
Proof.
  intros Ha Hb. unfold JS.Math_min. rewrite Ha, Hb. simpl.
  destruct (a <? b)%float eqn:Hab; [split; [auto|apply leb_refl, Ha]|].
  destruct (b <? a)%float eqn:Hba; [split; [auto|apply ltb_leb, Hba]|].
  destruct (get_sign a); split; auto using leb_refl, not_ltb_leb.
Qed.

Lemma Math_max_cases (a b : float) :
  is_nan a = false -> is_nan b = false ->
  (JS.Math_max a b = a \/ JS.Math_max a b = b)
  /\ (a <=? JS.Math_max a b)%float = true.
Proof.
  intros Ha Hb. unfold JS.Math_max. rewrite Ha, Hb. simpl.
  destruct (a <? b)%float eqn:Hab; [split; [auto|apply ltb_leb, Hab]|].
  destruct (b <? a)%float eqn:Hba; [split; [auto|apply leb_refl, Ha]|].
  destruct (get_sign a); split; auto using leb_refl, not_ltb_leb.
Qed.

Lemma Math_max_not_nan (a b : float) :
  is_nan (JS.Math_max a b) = false -> is_nan a = false /\ is_nan b = false.
Proof.
  unfold JS.Math_max. destruct (is_nan a), (is_nan b); simpl; auto;
    intros H; discriminate H.
Qed.

Lemma Math_min_not_nan (a b : float) :
  is_nan (JS.Math_min a b) = false -> is_nan a = false /\ is_nan b = false.
Proof.
  unfold JS.Math_min. destruct (is_nan a), (is_nan b); simpl; auto;
    intros H; discriminate H.
Qed.

(** [Math.max(lo, Math.min(hi, x))] is NaN or at least [lo], and at most
    [hi] when [lo <= hi]. *)
Lemma clamp_within (lo hi x : float) :
  let r := JS.Math_max lo (JS.Math_min hi x) in
  is_nan r = false ->
  (lo <=? r)%float = true
  /\ ((lo <=? hi)%float = true -> (r <=? hi)%float = true).
Proof.
  intros r Hr. subst r.
  destruct (Math_max_not_nan _ _ Hr) as [Hlo Hm].
  destruct (Math_min_not_nan _ _ Hm) as [Hhi Hx].
  destruct (Math_max_cases lo (JS.Math_min hi x) Hlo Hm) as [Hcase Hge].
  destruct (Math_min_cases hi x Hhi Hx) as [_ Hle].
  split; [exact Hge|]. intros Hlohi.
  destruct Hcase as [-> | ->]; assumption.
Qed.

End Clamp.

(* ================================================================= *)
(** ** Invariants of a session *)

Section SessionView.
Import Interaction.
Variable CONFIG : Config.
Variable Math_exp : float -> float.

Lemma view_pastePoints (dm : DataModel.t) :
  view (snd (DataModel.pastePoints CONFIG dm)) = view dm.
Proof.
  unfold DataModel.pastePoints. destruct (DataModel.copiedPoints dm);
    reflexivity.
Qed.

Lemma view_undo (dm : DataModel.t) : view (snd (DataModel.undo dm)) = view dm.
Proof.
  unfold DataModel.undo. destruct (last (DataModel.undoStack dm));
    reflexivity.
Qed.

Lemma view_redo (dm : DataModel.t) : view (snd (DataModel.redo dm)) = view dm.
Proof.
  unfold DataModel.redo. destruct (last (DataModel.redoStack dm));
    reflexivity.
Qed.

Lemma view_deleteSelection (dm : DataModel.t) :
  view (deleteSelection CONFIG dm) = view dm.
Proof.
  unfold deleteSelection.
  destruct (negb _); [reflexivity|].
  destruct (DataModel.selectedPoint dm); reflexivity.
Qed.

Lemma view_onMouseDown (now : float) (e : MouseEvent) (s : Interaction.t) :
  view (dataModel (onMouseDown CONFIG now e s)) = view (dataModel s).
Proof.
  unfold onMouseDown, dataModel. cbv zeta.
  cbn [handler InteractionHandler.dataModel].
  destruct (InteractionHandler.isCommandKey (handler s)); cbn [negb].
  - reflexivity.
  - destruct (pickPointAt _ (InteractionHandler.dataModel (handler s)) _ _ _)
      as [p|].
    + destruct (negb (JS.Set_has _ p));
        match goal with
        | |- context [match ?pick with Some _ => _ | None => _ end] =>
            destruct pick
        end; reflexivity.
    + match goal with
      | |- context [match ?pick with Some _ => _ | None => _ end] =>
          destruct pick
      end; reflexivity.
Qed.

Lemma view_onMouseUp (now : float) (e : MouseEvent) (s : Interaction.t) :
  view (dataModel (onMouseUp CONFIG now e s)) = view (dataModel s).
Proof.
  unfold onMouseUp, dataModel. cbv zeta.
  cbn [handler InteractionHandler.dataModel].
  match goal with |- context [if ?c then _ else _] => destruct c end;
    reflexivity.
Qed.

Lemma view_onKeyDown (e : KeyboardEvent) (s : Interaction.t) :
  view (dataModel (onKeyDown CONFIG e s)) = view (dataModel s).
Proof.
  assert (H1 : forall b s, dataModel (set_isCommandKey b s) = dataModel s)
    by reflexivity.
  assert (H2 : forall dm s, dataModel (set_dataModel dm s) = dm)
    by reflexivity.
  unfold onKeyDown. cbv zeta.
  set (s1 := if metaKey e || ctrlKey e then set_isCommandKey true s else s).
  assert (Hs1 : dataModel s1 = dataModel s).
  { subst s1. destruct (metaKey e || ctrlKey e); reflexivity. }
  repeat match goal with
         | |- context [if ?c then set_dataModel _ _ else _] => destruct c
         end;
    rewrite ?H2, ?view_pastePoints, ?view_undo, ?view_redo,
      ?view_deleteSelection, Hs1; reflexivity.
Qed.

Lemma view_onKeyUp (e : KeyboardEvent) (s : Interaction.t) :
  view (dataModel (onKeyUp e s)) = view (dataModel s).
Proof. unfold onKeyUp. destruct (_ || _); reflexivity. Qed.

Lemma panInRange_clamped (x : float) (dm : DataModel.t) :
  panInRange
    (DataModel.set_pan (JS.Math_max 0 (JS.Math_min (maxPan dm) x)) dm).
Proof.
  unfold panInRange. intros Hnan.
  exact (clamp_within 0 (maxPan dm) x Hnan).
Qed.

Lemma panInRange_view (dm dm' : DataModel.t) :
  view dm' = view dm -> panInRange dm -> panInRange dm'.
Proof.
  unfold view, panInRange, maxPan, CanvasRenderer.visibleRange.
  intros H. injection H as Hd Hz Hp. rewrite Hd, Hz, Hp. auto.
Qed.

Lemma zoomInRange_view (dm dm' : DataModel.t) :
  DataModel.zoom dm' = DataModel.zoom dm ->
  zoomInRange CONFIG dm -> zoomInRange CONFIG dm'.
Proof. unfold zoomInRange. intros ->. auto. Qed.

Lemma viewInvariant_view (dm dm' : DataModel.t) :
  view dm' = view dm -> viewInRange CONFIG dm -> viewInRange CONFIG dm'.
Proof.
  intros H (Hp & Hz & Hd). split; [|split].
  - apply (panInRange_view dm dm' H Hp).
  - apply (zoomInRange_view dm dm'); [|exact Hz].
    unfold view in H. congruence.
  - unfold view in H. congruence.
Qed.

Lemma viewInvariant_panCanvas (e : MouseEvent) (s : Interaction.t) :
  viewInRange CONFIG (dataModel s) ->
  viewInRange CONFIG (dataModel (panCanvas CONFIG e s)).
Proof.
  intros (Hp & Hz & Hd). unfold panCanvas, dataModel. cbv zeta.
  cbn [set_dataModel set_handler handler InteractionHandler.set_dataModel
       InteractionHandler.dataModel].
  split; [apply panInRange_clamped|]. split; [|exact Hd].
  apply (zoomInRange_view (InteractionHandler.dataModel (handler s)));
    [reflexivity|exact Hz].
Qed.

Lemma viewInvariant_onMouseMove (e : MouseEvent) (s : Interaction.t) :
  viewInRange CONFIG (dataModel s) ->
  viewInRange CONFIG (dataModel (onMouseMove CONFIG e s)).
Proof.
  intros H. unfold onMouseMove.
  destruct (negb (InteractionHandler.isDragging (handler s))); [exact H|].
  assert (Hlast : forall x y s', dataModel (set_last x y s') = dataModel s')
    by reflexivity.
  rewrite Hlast.
  destruct (selectionBox s) as [box|],
    (InteractionHandler.isCommandKey (handler s)),
    (InteractionHandler.draggingPoint (handler s)) as [p|];
    try (apply viewInvariant_panCanvas, H);
    try (apply (viewInvariant_view (dataModel s)); [reflexivity|exact H]).
Qed.

Lemma viewInvariant_onWheel (e : WheelEvent) (s : Interaction.t) :
  viewInRange CONFIG (dataModel s) ->
  viewInRange CONFIG (dataModel (onWheel CONFIG Math_exp e s)).
Proof.
  intros (Hp & Hz & Hd). unfold onWheel, dataModel in *. cbv zeta.
  destruct (JS.gtb (abs (deltaX e)) (abs (deltaY e)));
    cbn [set_dataModel set_handler handler InteractionHandler.set_dataModel
         InteractionHandler.dataModel].
  - split; [apply panInRange_clamped|]. split; [|exact Hd].
    apply (zoomInRange_view (InteractionHandler.dataModel (handler s)));
      [reflexivity|exact Hz].
  - split; [|split; [|exact Hd]].
    + apply (panInRange_clamped _
               (DataModel.set_zoom _ (InteractionHandler.dataModel (handler s)))).
    + unfold zoomInRange. cbn [DataModel.zoom DataModel.set_pan
                                 DataModel.set_zoom].
      intros Hnan. right. exact (clamp_within _ _ _ Hnan).
Qed.

Lemma viewInvariant_dispatch (s : Interaction.t) (ev : Event) :
  viewInRange CONFIG (dataModel s) ->
  viewInRange CONFIG (dataModel (dispatch CONFIG Math_exp s ev)).
Proof.
  intros H. destruct ev as [now e|now e|e|e|e|e]; simpl.
  - apply (viewInvariant_view (dataModel s)); [apply view_onMouseDown|exact H].
  - apply (viewInvariant_view (dataModel s)); [apply view_onMouseUp|exact H].
  - apply viewInvariant_onMouseMove, H.
  - apply viewInvariant_onWheel, H.
  - apply (viewInvariant_view (dataModel s)); [apply view_onKeyDown|exact H].
  - apply (viewInvariant_view (dataModel s)); [apply view_onKeyUp|exact H].
Qed.

(** X10.  Whatever the pointer, the wheel and the keys do, the view stays
    in range: after every session the duration is the one the model was
    created with; the pan, if it is a number, is at least 0 and at most
    [duration - visibleRange] when that is not negative; and the zoom, if
    it is a number, is the initial zoom or lies between
    [CONFIG.ZOOM_MIN] and [CONFIG.ZOOM_MAX] (the upper limit for limits
    that are in order). *)
Theorem session_view_in_range :
  forall (canvas : Canvas) (events : list Event),
    let dm := dataModel (session CONFIG Math_exp canvas events) in
    panInRange dm
    /\ zoomInRange CONFIG dm
    /\ DataModel.duration dm
       = DataModel.duration (DataModel.constructor CONFIG).
Proof.
  intros canvas events. unfold session.
  assert (H0 : viewInRange CONFIG
                 (dataModel (constructor canvas (DataModel.constructor CONFIG)))).
  { split; [|split; [|reflexivity]].
    - unfold panInRange. intros _. split; [reflexivity|].
      intros H. exact H.
    - unfold zoomInRange. intros _. left. reflexivity. }
  revert H0. generalize (constructor canvas (DataModel.constructor CONFIG)).
  induction events as [|ev events IH]; intros s H; simpl; [exact H|].
  apply IH, viewInvariant_dispatch, H.
Qed.

End SessionView.

(* ================================================================= *)
(** ** The history and the store over a session *)

Section SessionHistory.
Import Interaction.
Variable CONFIG : Config.
Variable Math_exp : float -> float.
Hypothesis MAX_UNDO_positive : (0 < MAX_UNDO CONFIG)%Z.

Lemma maxUndo_nonneg : (0 <= DataModel.maxUndo CONFIG)%Z.
Proof. rewrite (maxUndo_positive CONFIG MAX_UNDO_positive). lia. Qed.

Lemma Set_of_is_NoDup (l : list ref) : NoDup (JS.Set_of l).
Proof.
  destruct (fold_Set_add_spec (fun _ => true) l []) as (_ & _ & H).
  apply H. constructor.
Qed.

Lemma moveAll_length (dx dy : float) (l : list ref) :
  forall h : Heap, length (InteractionHandler.moveAll dx dy l h) = length h.
Proof.
  unfold InteractionHandler.moveAll.
  induction l as [|a l IH]; intros h; simpl; [reflexivity|].
  rewrite IH. apply length_alter.
Qed.

(** A change that keeps the stacks, the sequence up to its order, the
    size of the store and the selection set keeps the invariant. *)
Lemma sessionInvariant_same (dm dm' : DataModel.t) :
  DataModel.undoStack dm' = DataModel.undoStack dm ->
  DataModel.redoStack dm' = DataModel.redoStack dm ->
  DataModel.points dm' ≡ₚ DataModel.points dm ->
  length (DataModel.heap dm') = length (DataModel.heap dm) ->
  DataModel.selectedPoints dm' = DataModel.selectedPoints dm ->
  sessionInvariant CONFIG dm -> sessionInvariant CONFIG dm'.
Proof.
  intros Hu Hr Hp Hh Hs (Hb & Hnd & Hlive & Hsel).
  split; [|split; [|split]].
  - unfold historyBounded in *. rewrite Hu, Hr. exact Hb.
  - rewrite Hp. exact Hnd.
  - rewrite Hp, Hh. exact Hlive.
  - rewrite Hs. exact Hsel.
Qed.

Lemma sessionInvariant_selection (selected : list ref) (dm : DataModel.t) :
  NoDup selected ->
  sessionInvariant CONFIG dm ->
  sessionInvariant CONFIG (DataModel.set_selectedPoints selected dm).
Proof. intros Hs (Hb & Hnd & Hlive & _). repeat split; assumption. Qed.

Lemma sessionInvariant_saveState (dm : DataModel.t) :
  sessionInvariant CONFIG dm ->
  sessionInvariant CONFIG (DataModel.saveState CONFIG dm).
Proof.
  intros (Hb & Hwf). split; [|exact Hwf].
  apply saveState_bounded; [apply maxUndo_nonneg|exact Hb].
Qed.

(** New objects put at the end of the sequence, which is then sorted. *)
Lemma sessionInvariant_append (vals : list Point) (dm : DataModel.t) :
  sessionInvariant CONFIG dm ->
  sessionInvariant CONFIG
    (DataModel.sortPoints
       (DataModel.set_points
          (DataModel.points dm
           ++ seq (length (DataModel.heap dm)) (length vals))
          (DataModel.set_heap (DataModel.heap dm ++ vals) dm))).
Proof.
  intros (Hb & Hnd & Hlive & Hsel).
  split; [exact Hb|]. unfold wellFormed. simpl.
  rewrite sortByTime_Permutation, length_app.
  split; [|split; [|exact Hsel]].
  - apply NoDup_app. split; [exact Hnd|]. split; [|apply NoDup_seq].
    intros r Hr Hr'. rewrite Forall_forall in Hlive.
    specialize (Hlive r Hr). apply elem_of_seq in Hr'. lia.
  - apply Forall_app. split.
    + eapply List.Forall_impl; [|exact Hlive]. simpl. intros; lia.
    + apply Forall_forall. intros r Hr. apply elem_of_seq in Hr. lia.
Qed.

Lemma sessionInvariant_restore (text : JSONText) (dm : DataModel.t) :
  historyBounded CONFIG dm -> NoDup (DataModel.selectedPoints dm) ->
  sessionInvariant CONFIG (DataModel.restore text dm).
Proof.
  intros Hb Hsel. split; [exact Hb|]. unfold wellFormed, DataModel.restore.
  simpl. rewrite length_app.
  split; [apply NoDup_seq|]. split; [|exact Hsel].
  apply Forall_forall. intros r Hr. apply elem_of_seq in Hr. lia.
Qed.

Lemma sessionInvariant_undo (dm : DataModel.t) :
  sessionInvariant CONFIG dm ->
  sessionInvariant CONFIG (snd (DataModel.undo dm)).
Proof.
  intros H. pose proof (undo_bounded CONFIG dm (proj1 H)) as Hb.
  revert Hb. unfold DataModel.undo.
  destruct (last (DataModel.undoStack dm)) as [top|]; simpl snd; intros Hb;
    [|exact H].
  apply sessionInvariant_restore; [exact Hb|]. apply H.
Qed.

Lemma sessionInvariant_redo (dm : DataModel.t) :
  sessionInvariant CONFIG dm ->
  sessionInvariant CONFIG (snd (DataModel.redo dm)).
Proof.
  intros H. pose proof (redo_bounded CONFIG dm (proj1 H)) as Hb.
  revert Hb. unfold DataModel.redo.
  destruct (last (DataModel.redoStack dm)) as [top|]; simpl snd; intros Hb;
    [|exact H].
  apply sessionInvariant_restore; [exact Hb|]. apply H.
Qed.

Lemma sessionInvariant_selectedPoint (p : option ref) (dm : DataModel.t) :
  sessionInvariant CONFIG dm ->
  sessionInvariant CONFIG (DataModel.set_selectedPoint p dm).
Proof. apply sessionInvariant_same; reflexivity. Qed.

Lemma sessionInvariant_clearSelection (dm : DataModel.t) :
  sessionInvariant CONFIG dm ->
  sessionInvariant CONFIG (DataModel.clearSelection dm).
Proof.
  intros H. apply sessionInvariant_selectedPoint,
    sessionInvariant_selection; [constructor|exact H].
Qed.

Lemma sessionInvariant_selectPoint (p : ref) (dm : DataModel.t) :
  sessionInvariant CONFIG dm ->
  sessionInvariant CONFIG (DataModel.selectPoint p dm).
Proof.
  intros H. apply sessionInvariant_selectedPoint,
    sessionInvariant_selection; [constructor|exact H].
Qed.

Lemma sessionInvariant_addPoint (t a : float) (dm : DataModel.t) :
  sessionInvariant CONFIG dm ->
  sessionInvariant CONFIG (DataModel.addPoint CONFIG t a dm).
Proof.
  intros H.
  apply (sessionInvariant_append [ {| time := t; amplitude := a |} ]
           (DataModel.saveState CONFIG dm)).
  apply sessionInvariant_saveState, H.
Qed.

Lemma sessionInvariant_pastePoints (dm : DataModel.t) :
  sessionInvariant CONFIG dm ->
  sessionInvariant CONFIG (snd (DataModel.pastePoints CONFIG dm)).
Proof.
  intros H. unfold DataModel.pastePoints.
  destruct (DataModel.copiedPoints dm) as [|first rest] eqn:Hclip;
    [exact H|].
  change (DataModel.copiedPoints (DataModel.saveState CONFIG dm))
    with (DataModel.copiedPoints dm). rewrite Hclip. cbv zeta.
  match goal with
  | |- context [alloc ?h ?vals] =>
      change (alloc h vals) with (h ++ vals, seq (length h) (length vals));
      set (pasted := vals)
  end.
  cbv iota. simpl snd.
  apply (sessionInvariant_selection
           (JS.Set_of (seq (length (DataModel.heap dm)) (length pasted)))
           (DataModel.sortPoints
              (DataModel.set_points
                 (DataModel.points (DataModel.saveState CONFIG dm)
                  ++ seq (length (DataModel.heap
                                    (DataModel.saveState CONFIG dm)))
                       (length pasted))
                 (DataModel.set_heap
                    (DataModel.heap (DataModel.saveState CONFIG dm) ++ pasted)
                    (DataModel.saveState CONFIG dm))))).
  - apply Set_of_is_NoDup.
  - apply sessionInvariant_append, sessionInvariant_saveState, H.
Qed.

Lemma sessionInvariant_removePoints (l : list ref) (dm : DataModel.t) :
  sessionInvariant CONFIG dm ->
  sessionInvariant CONFIG (DataModel.removePoints CONFIG l dm).
Proof.
  intros H. apply sessionInvariant_saveState in H.
  destruct H as (Hb & Hnd & Hlive & Hsel).
  unfold DataModel.removePoints. cbv zeta.
  split; [exact Hb|]. split; [|split; [|exact Hsel]]; simpl.
  - apply NoDup_filter, Hnd.
  - apply Forall_forall. intros r Hr. apply list_elem_of_filter in Hr.
    rewrite Forall_forall in Hlive. apply Hlive, Hr.
Qed.

Lemma sessionInvariant_deleteSelection (dm : DataModel.t) :
  sessionInvariant CONFIG dm ->
  sessionInvariant CONFIG (deleteSelection CONFIG dm).
Proof.
  intros H. unfold deleteSelection.
  destruct (negb _).
  - apply sessionInvariant_clearSelection, sessionInvariant_removePoints, H.
  - destruct (DataModel.selectedPoint dm); [|exact H].
    apply sessionInvariant_clearSelection, sessionInvariant_removePoints, H.
Qed.

Lemma sessionInvariant_dragPoints (point : ref) (e : MouseEvent)
    (h : InteractionHandler.t) :
  sessionInvariant CONFIG (InteractionHandler.dataModel h) ->
  sessionInvariant CONFIG
    (InteractionHandler.dataModel (InteractionHandler.dragPoints point e h)).
Proof.
  apply sessionInvariant_same; try reflexivity.
  - apply sortByTime_Permutation.
  - unfold InteractionHandler.dragPoints. simpl.
    repeat match goal with
           | |- context [if ?c then _ else _] => destruct c
           end;
      rewrite ?moveAll_length, ?length_alter; reflexivity.
Qed.

Lemma sessionInvariant_boxSelect (canvas : Canvas)
    (left right top bottom : float) (dm : DataModel.t) :
  sessionInvariant CONFIG dm ->
  sessionInvariant CONFIG (boxSelect canvas left right top bottom dm).
Proof.
  intros H. unfold boxSelect. apply sessionInvariant_selection; [|exact H].
  destruct (fold_Set_add_spec (insideBox canvas dm left right top bottom)
              (DataModel.points dm) (DataModel.selectedPoints dm))
    as (_ & _ & Hnd).
  apply Hnd, H.
Qed.

Lemma sessionInvariant_onMouseDown (now : float) (e : MouseEvent)
    (s : Interaction.t) :
  sessionInvariant CONFIG (dataModel s) ->
  sessionInvariant CONFIG (dataModel (onMouseDown CONFIG now e s)).
Proof.
  intros H. unfold onMouseDown, dataModel in *. cbv zeta.
  cbn [handler InteractionHandler.dataModel].
  destruct (InteractionHandler.isCommandKey (handler s)); cbn [negb];
    [exact H|].
  assert (H1 : sessionInvariant CONFIG
    match pickPointAt (InteractionHandler.canvas (handler s))
            (InteractionHandler.dataModel (handler s)) (offsetX e) (offsetY e)
            (POINT_HIT_RADIUS CONFIG) with
    | Some clickedPoint =>
        if negb (JS.Set_has
                   (DataModel.selectedPoints
                      (InteractionHandler.dataModel (handler s)))
                   clickedPoint)
        then DataModel.selectPoint clickedPoint
               (InteractionHandler.dataModel (handler s))
        else InteractionHandler.dataModel (handler s)
    | None => DataModel.clearSelection
                (InteractionHandler.dataModel (handler s))
    end).
  { destruct (pickPointAt _ _ _ _ _) as [p|].
    - destruct (negb _); [apply sessionInvariant_selectPoint, H|exact H].
    - apply sessionInvariant_clearSelection, H. }
  match goal with
  | |- context [match ?pick with Some _ => DataModel.saveState _ _
                                 | None => _ end] => destruct pick
  end; [apply sessionInvariant_saveState|]; exact H1.
Qed.

Lemma sessionInvariant_onMouseUp (now : float) (e : MouseEvent)
    (s : Interaction.t) :
  sessionInvariant CONFIG (dataModel s) ->
  sessionInvariant CONFIG (dataModel (onMouseUp CONFIG now e s)).
Proof.
  intros H. unfold onMouseUp, dataModel in *. cbv zeta.
  cbn [handler InteractionHandler.dataModel].
  match goal with |- context [if ?c then _ else _] => destruct c end;
    [apply sessionInvariant_addPoint|]; exact H.
Qed.

Lemma sessionInvariant_onMouseMove (e : MouseEvent) (s : Interaction.t) :
  sessionInvariant CONFIG (dataModel s) ->
  sessionInvariant CONFIG (dataModel (onMouseMove CONFIG e s)).
Proof.
  intros H. unfold onMouseMove.
  destruct (negb (InteractionHandler.isDragging (handler s))); [exact H|].
  assert (Hlast : forall x y s', dataModel (set_last x y s') = dataModel s')
    by reflexivity.
  rewrite Hlast.
  destruct (selectionBox s) as [box|],
    (InteractionHandler.isCommandKey (handler s)),
    (InteractionHandler.draggingPoint (handler s)) as [p|];
    try (apply sessionInvariant_dragPoints, H);
    try (apply sessionInvariant_boxSelect, H);
    (apply (sessionInvariant_same (dataModel s)); [..|exact H]; reflexivity).
Qed.

Lemma sessionInvariant_onWheel (e : WheelEvent) (s : Interaction.t) :
  sessionInvariant CONFIG (dataModel s) ->
  sessionInvariant CONFIG (dataModel (onWheel CONFIG Math_exp e s)).
Proof.
  intros H. unfold onWheel. cbv zeta.
  destruct (JS.gtb _ _);
    (apply (sessionInvariant_same (dataModel s)); [..|exact H]; reflexivity).
Qed.

Lemma sessionInvariant_onKeyDown (e : KeyboardEvent) (s : Interaction.t) :
  sessionInvariant CONFIG (dataModel s) ->
  sessionInvariant CONFIG (dataModel (onKeyDown CONFIG e s)).
Proof.
  intros H.
  assert (H2 : forall dm s, dataModel (set_dataModel dm s) = dm)
    by reflexivity.
  unfold onKeyDown. cbv zeta.
  set (s1 := if metaKey e || ctrlKey e then set_isCommandKey true s else s).
  assert (Hs1 : dataModel s1 = dataModel s).
  { subst s1. destruct (metaKey e || ctrlKey e); reflexivity. }
  repeat match goal with
         | |- context [if ?c then set_dataModel _ _ else _] => destruct c
         end;
    rewrite ?H2, Hs1.
  - apply sessionInvariant_selectedPoint, sessionInvariant_selection;
      [apply Set_of_is_NoDup|exact H].
  - apply (sessionInvariant_same (dataModel s)); [..|exact H]; reflexivity.
  - apply sessionInvariant_pastePoints, H.
  - apply sessionInvariant_undo, H.
  - apply sessionInvariant_redo, H.
  - apply sessionInvariant_deleteSelection, H.
  - exact H.
Qed.

Lemma sessionInvariant_dispatch (s : Interaction.t) (ev : Event) :
  sessionInvariant CONFIG (dataModel s) ->
  sessionInvariant CONFIG (dataModel (dispatch CONFIG Math_exp s ev)).
Proof.
  intros H. destruct ev as [now e|now e|e|e|e|e]; simpl.
  - apply sessionInvariant_onMouseDown, H.
  - apply sessionInvariant_onMouseUp, H.
  - apply sessionInvariant_onMouseMove, H.
  - apply sessionInvariant_onWheel, H.
  - apply sessionInvariant_onKeyDown, H.
  - unfold onKeyUp. destruct (_ || _); exact H.
Qed.

(** X11.  With a positive [CONFIG.MAX_UNDO], whatever the pointer, the
    wheel and the keys do: after every session the two history stacks
    hold at most [MAX_UNDO] snapshots together; the sequence holds each
    of its points once; every point of the sequence is an object of the
    store; and the selection set has no repeats. *)
Theorem session_keeps_history_bounded :
  forall (canvas : Canvas) (events : list Event),
    let dm := dataModel (session CONFIG Math_exp canvas events) in
    historyBounded CONFIG dm
    /\ NoDup (DataModel.points dm)
    /\ Forall (fun r => r < length (DataModel.heap dm)) (DataModel.points dm)
    /\ NoDup (DataModel.selectedPoints dm).
Proof.
  intros canvas events. unfold session.
  assert (H0 : sessionInvariant CONFIG
                 (dataModel (constructor canvas (DataModel.constructor CONFIG)))).
  { split; [|repeat split; constructor].
    unfold historyBounded. simpl. pose proof maxUndo_nonneg. lia. }
  revert H0. generalize (constructor canvas (DataModel.constructor CONFIG)).
  induction events as [|ev events IH]; intros s H; simpl; [exact H|].
  apply IH, sessionInvariant_dispatch, H.
Qed.

End SessionHistory.

(* ================================================================= *)
(** ** Synthesis where there is nothing to interpolate *)

Section FlatSynthesis.

Lemma ltb_not_nan_r (x y : float) :
  (x <? y)%float = true -> is_nan y = false.
Proof. intros H. apply (leb_not_nan x y), ltb_leb, H. Qed.

Lemma amplitudeAt_nil (t : float) : AudioEngine.amplitudeAt [] t = 0%float.
Proof. reflexivity. Qed.

(** Before the first point the amplitude is the first point's. *)
Lemma amplitudeAt_lead_in (p : Point) (rest : list Point) (t : float) :
  (t <? time p)%float = true ->
  AudioEngine.amplitudeAt (p :: rest) t = amplitude p.
Proof.
  intros H. unfold AudioEngine.amplitudeAt, findIndex. simpl.
  unfold JS.gtb. rewrite H. simpl.
  unfold JS.strict_neq.
  rewrite (not_nan_eqb_refl _ (ltb_not_nan_r _ _ H)). reflexivity.
Qed.

Lemma amplitudeAt_single (p : Point) (t : float) :
  is_nan (time p) = false ->
  AudioEngine.amplitudeAt [p] t = amplitude p.
Proof.
  intros H. unfold AudioEngine.amplitudeAt, findIndex. simpl.
  destruct (JS.gtb (time p) t); simpl; unfold JS.strict_neq;
    rewrite (not_nan_eqb_refl _ H); reflexivity.
Qed.

Lemma samples_constant (sampleRate : float) (points : list Point)
    (duration value : float) (buffer : AudioBuffer.t) :
  AudioEngine.generateBuffer sampleRate points duration = Some buffer ->
  (forall t, AudioEngine.amplitudeAt points t = value) ->
  AudioEngine.samples buffer
  = replicate (AudioBuffer.length buffer) (JS.Math_fround value).
Proof.
  intros Hgen Hval.
  destruct (generateBuffer_contents _ _ _ _ Hgen)
    as (n & _ & _ & Hl & Hlen & Hs).
  apply list_eq. intros i. rewrite Hl.
  destruct (decide (i < Z.to_nat n)) as [Hi|Hi].
  - rewrite (Hs i Hi), Hval.
    symmetry. apply lookup_replicate_2. exact Hi.
  - rewrite lookup_ge_None_2 by lia.
    symmetry. apply lookup_ge_None_2. rewrite length_replicate. lia.
Qed.

(** X12.  Where there is nothing to interpolate the buffer is flat: for
    an empty sequence every sample is 0; for a single point whose time
    is a number every sample is the point's amplitude (as a binary32
    value); and in any sequence every sample before the time of the
    first point is the first point's amplitude. *)
Theorem generateBuffer_flat :
  forall (sampleRate duration : float) (buffer : AudioBuffer.t),
    (AudioEngine.generateBuffer sampleRate [] duration = Some buffer ->
     AudioEngine.samples buffer
     = replicate (AudioBuffer.length buffer) 0%float)
    /\ (forall p : Point,
          is_nan (time p) = false ->
          AudioEngine.generateBuffer sampleRate [p] duration = Some buffer ->
          AudioEngine.samples buffer
          = replicate (AudioBuffer.length buffer)
              (JS.Math_fround (amplitude p)))
    /\ (forall (p : Point) (rest : list Point) (i : nat),
          AudioEngine.generateBuffer sampleRate (p :: rest) duration
          = Some buffer ->
          i < AudioBuffer.length buffer ->
          (JS.of_nat i / sampleRate <? time p)%float = true ->
          AudioEngine.samples buffer !! i
          = Some (JS.Math_fround (amplitude p))).
Proof.
  intros sampleRate duration buffer. split; [|split].
  - intros Hgen.
    apply (samples_constant sampleRate [] duration 0 buffer Hgen).
    intros t. reflexivity.
  - intros p Hp Hgen.
    apply (samples_constant sampleRate [p] duration (amplitude p) buffer Hgen).
    intros t. apply amplitudeAt_single, Hp.
  - intros p rest i Hgen Hi Ht.
    destruct (generateBuffer_contents _ _ _ _ Hgen)
      as (n & _ & _ & Hl & _ & Hs).
    rewrite Hs by lia. rewrite amplitudeAt_lead_in by exact Ht.
    reflexivity.
Qed.

Lemma generateBuffer_flat_witness :
  exists buffer : AudioBuffer.t,
    AudioEngine.generateBuffer 4 [ {| time := 1; amplitude := 0.5 |} ] 10
    = Some buffer
    /\ AudioEngine.samples buffer = [0.5; 0.5; 0.5; 0.5]%float.
Proof.
  eexists. split; [vm_compute; reflexivity|].
  refine (proj1 (proj2 (generateBuffer_flat 4 10 _))
            {| time := 1; amplitude := 0.5 |} eq_refl eq_refl).
Defined.

End FlatSynthesis.

(* ================================================================= *)
(** ** The buffer cache of the audio engine *)

Section PlaybackCache.
Import AudioPlayback.

Lemma field_eqb_eq (a b : option float) : field_eqb a b = true <-> a = b.
Proof.
  destruct a as [x|], b as [y|]; simpl; try (split; congruence).
  rewrite FloatAxioms.Leibniz.eqb_spec. split; congruence.
Qed.

Lemma fields_eqb_eq (a : list (option float * option float)) :
  forall b, fields_eqb a b = true <-> a = b.
Proof.
  induction a as [|[t1 a1] a IH]; intros [|[t2 a2] b]; simpl;
    try (split; congruence).
  rewrite !andb_true_iff, !field_eqb_eq, IH. split.
  - intros [[-> ->] ->]. reflexivity.
  - intros [= -> -> ->]. auto.
Qed.

(** The comparison of two texts is an equivalence. *)
Lemma JSON_text_eqb_eq (a b : JSONText) :
  JSON_text_eqb a b = true <-> JSON_fields a = JSON_fields b.
Proof. apply fields_eqb_eq. Qed.

Lemma play_Some (sampleRate : float) (points : list Point) (duration : float)
    (a a1 : AudioPlayback.t) :
  play sampleRate points duration a = Some a1 ->
  exists (buffer : AudioBuffer.t) (hash : JSONText),
    a1 = {| isPlaying := true; currentSource := Some buffer;
            cachedBuffer := Some buffer; lastPointsHash := Some hash |}
    /\ JSON_fields hash = JSON_fields (hashPoints points).
Proof.
  unfold play. destruct (stale (hashPoints points) a) eqn:Hstale.
  - destruct (AudioEngine.generateBuffer sampleRate points duration)
      as [buffer|]; [|discriminate].
    intros [= <-]. exists buffer, (hashPoints points). split; reflexivity.
  - unfold stale in Hstale. apply orb_false_iff in Hstale as [Hh Hc].
    destruct (lastPointsHash a) as [h|]; [|discriminate].
    destruct (cachedBuffer a) as [buffer|]; [|discriminate].
    intros [= <-]. exists buffer, h. split; [reflexivity|].
    apply negb_false_iff, JSON_text_eqb_eq in Hh. congruence.
Qed.

(** X13.  The cache of [play] is keyed on the text of the points alone.
    After a [play] that went through, the engine is playing the cached
    buffer; a second [play] with points that have the same text starts
    the cached buffer again and leaves the engine as it is, whatever
    duration it is given; a second [play] with points of another text
    builds its buffer anew. *)
Theorem play_reuses_cached_buffer :
  forall (sampleRate : float) (points : list Point) (duration : float)
         (a a1 : AudioPlayback.t),
    play sampleRate points duration a = Some a1 ->
    isPlaying a1 = true
    /\ is_Some (cachedBuffer a1)
    /\ currentSource a1 = cachedBuffer a1
    /\ forall (points' : list Point) (duration' : float),
         play sampleRate points' duration' a1 =
         if JSON_text_eqb (hashPoints points') (hashPoints points)
         then Some a1
         else
           match AudioEngine.generateBuffer sampleRate points' duration' with
           | Some buffer =>
               Some {| isPlaying := true; currentSource := Some buffer;
                       cachedBuffer := Some buffer;
                       lastPointsHash := Some (hashPoints points') |}
           | None => None
           end.
Proof.
  intros sampleRate points duration a a1 Hplay.
  destruct (play_Some _ _ _ _ _ Hplay) as (buffer & hash & -> & Hhash).
  split; [reflexivity|]. split; [eexists; reflexivity|].
  split; [reflexivity|].
  intros points' duration'. unfold play, stale. simpl.
  assert (Heq : JSON_text_eqb (hashPoints points') hash
                = JSON_text_eqb (hashPoints points') (hashPoints points)).
  { unfold JSON_text_eqb. rewrite Hhash. reflexivity. }
  rewrite Heq.
  destruct (JSON_text_eqb (hashPoints points') (hashPoints points)); simpl.
  - reflexivity.
  - destruct (AudioEngine.generateBuffer sampleRate points' duration');
      reflexivity.
Qed.

Lemma play_reuses_cached_buffer_witness :
  exists a1 : AudioPlayback.t,
    play 4 [] 1 constructor = Some a1
    /\ play 4 [] 2 a1 = Some a1
    /\ option_map AudioBuffer.length (cachedBuffer a1) = Some 4.
Proof.
  eexists. split; [vm_compute; reflexivity|]. split; [|reflexivity].
  refine (proj2 (proj2 (proj2
            (play_reuses_cached_buffer 4 [] 1 constructor _ eq_refl)))
            [] 2%float).
Defined.

End PlaybackCache.

(* ================================================================= *)
(** ** The WAV container *)

Section Container.

Lemma writeHeader_bytes (numChannels : nat) (sampleRate : float)
    (dataSize : nat) (rest : list Z) :
  FileIO.writeHeader numChannels sampleRate dataSize
    (replicate 44 0%Z ++ rest)
  = wavHeader numChannels sampleRate dataSize ++ rest.
Proof.
  unfold FileIO.writeHeader, wavHeader, le32, le16, charCodes,
    FileIO.writeString, DataView.setUint32, DataView.setUint16,
    DataView.setUint8.
  change (16 / 8) with 2.
  set (blockAlign := numChannels * 2).
  generalize (Z.of_nat (36 + dataSize)) (Z.of_nat numChannels)
    (JS.ToUint32 sampleRate)
    (JS.ToUint32 (sampleRate * JS.of_nat blockAlign)%float)
    (Z.of_nat blockAlign) (Z.of_nat dataSize).
  intros riff nch rate byteRate align size.
  generalize ((riff mod 4294967296)%Z) ((nch mod 65536)%Z)
    ((rate mod 4294967296)%Z) ((byteRate mod 4294967296)%Z)
    ((align mod 65536)%Z) ((size mod 4294967296)%Z).
  intros u1 u2 u3 u4 u5 u6.
  reflexivity.
Qed.

Lemma wavHeader_length (numChannels : nat) (sampleRate : float)
    (dataSize : nat) :
  length (wavHeader numChannels sampleRate dataSize) = 44.
Proof. reflexivity. Qed.

(** X14.  The file [audioBufferToWav] writes is 44 bytes of header
    followed by two bytes for each sample of each channel.  The header
    bytes are those of the layout [wavHeader]: the tags, the format
    fields (PCM, channel count, rates, block size, 16 bits) and the two
    size fields, which hold the size of the file less 8 and the size of
    the sample data (modulo 2^32); no header write lands on another, and
    the sample loop leaves the header alone.  The buffer the synthesis
    produces is mono, so its file has [44 + 2 * length] bytes. *)
Theorem audioBufferToWav_container :
  forall buffer : AudioBuffer.t,
    let numChannels := AudioBuffer.numberOfChannels buffer in
    let dataSize := AudioBuffer.length buffer * (numChannels * 2) in
    let wav := FileIO.audioBufferToWav buffer in
    length wav = 44 + dataSize
    /\ take 44 wav
       = wavHeader numChannels (AudioBuffer.sampleRate buffer) dataSize
    /\ (forall (sampleRate duration : float) (points : list Point),
          AudioEngine.generateBuffer sampleRate points duration = Some buffer ->
          length wav = 44 + 2 * AudioBuffer.length buffer).
Proof.
  intros buffer numChannels dataSize wav.
  assert (Hwav : wav =
    fst (fold_left put16
           (flat_map (frameValues buffer numChannels)
              (seq 0 (AudioBuffer.length buffer)))
           (wavHeader numChannels (AudioBuffer.sampleRate buffer) dataSize
            ++ replicate dataSize 0%Z, 44))).
  { subst wav. unfold FileIO.audioBufferToWav. rewrite writeFrames_put16.
    change (16 / 8) with 2. fold numChannels. fold dataSize.
    unfold DataView.create. rewrite replicate_add, writeHeader_bytes.
    reflexivity. }
  destruct (put16_all
              (flat_map (frameValues buffer numChannels)
                 (seq 0 (AudioBuffer.length buffer)))
              (wavHeader numChannels (AudioBuffer.sampleRate buffer) dataSize
               ++ replicate dataSize 0%Z) 44) as (_ & L & B & _).
  { rewrite length_app, wavHeader_length, length_replicate,
      flat_map_frames_length. subst dataSize. lia. }
  cbv zeta in L, B. rewrite <- Hwav in L, B.
  rewrite length_app, wavHeader_length, length_replicate in L.
  split; [exact L|]. split.
  - apply list_eq. intros i. destruct (decide (i < 44)) as [Hi|Hi].
    + rewrite lookup_take_lt by exact Hi. rewrite B by exact Hi.
      apply lookup_app_l. rewrite wavHeader_length. exact Hi.
    + rewrite lookup_take_ge by lia. symmetry.
      apply lookup_ge_None_2. rewrite wavHeader_length. lia.
  - intros sampleRate duration points Hgen. rewrite L. subst dataSize.
    assert (Hch : numChannels = 1).
    { subst numChannels. unfold AudioEngine.generateBuffer in Hgen.
      destruct (AudioEngine.createBuffer 1 _ sampleRate) as [b|] eqn:Hb;
        [|discriminate].
      injection Hgen as <-. simpl.
      unfold AudioEngine.createBuffer in Hb.
      destruct (AudioEngine.bufferLength sampleRate points duration);
        [|discriminate].
      destruct (_ && _); [|discriminate]. injection Hb as <-. reflexivity. }
    rewrite Hch. lia.
Qed.

Lemma audioBufferToWav_container_witness :
  exists buffer : AudioBuffer.t,
    AudioEngine.generateBuffer 4 examplePoints 10 = Some buffer
    /\ length (FileIO.audioBufferToWav buffer) = 52
    /\ take 4 (FileIO.audioBufferToWav buffer) = [82; 73; 70; 70]%Z.
Proof.
  eexists. split; [vm_compute; reflexivity|]. split; [|reflexivity].
  refine (proj2 (proj2 (audioBufferToWav_container _)) 4%float 10%float
            examplePoints eq_refl).
Defined.

(* ================================================================= *)
(** ** Saturation *)

Lemma SFcompare_Eq_finite (s : bool) (m : positive) (e : Z)
    (y : spec_float) :
  SFcompare (S754_finite s m e) y = Some Eq -> y = S754_finite s m e.
Proof.
  destruct y as [s'|s'| |s' m' e']; simpl; intros H;
    try discriminate H; try (destruct s; discriminate H);
    try (destruct s'; discriminate H).
  destruct s, s'; try discriminate H;
    destruct (Z.compare_spec e e'); try discriminate H; subst;
    injection H as H.
  - apply CompOpp_iff in H. simpl in H.
    apply Pos.compare_eq in H. subst. reflexivity.
  - apply Pos.compare_eq in H. subst. reflexivity.
Qed.

(** A number that is neither below nor above a finite non-zero number is
    that number. *)
Lemma not_ltb_eq (c x : float) (s : bool) (m : positive) (e : Z) :
  Prim2SF c = S754_finite s m e ->
  is_nan x = false ->
  (c <? x)%float = false -> (x <? c)%float = false -> x = c.
Proof.
  intros Hc Hx H1 H2. apply Prim2SF_inj.
  rewrite FloatAxioms.ltb_spec in H1, H2. unfold SFltb in H1, H2.
  rewrite (SFcompare_antisym (Prim2SF c) (Prim2SF x)) in H2.
  pose proof (SFcompare_defined (Prim2SF c) (Prim2SF x)) as D.
  rewrite Hc in *. apply SFcompare_Eq_finite.
  destruct (SFcompare (S754_finite s m e) (Prim2SF x)) as [[]|];
    try discriminate; [reflexivity|].
  exfalso. apply D; [discriminate|apply is_nan_Prim2SF, Hx|reflexivity].
Qed.

Lemma Math_min_one (x : float) :
  (1 <=? x)%float = true -> JS.Math_min 1 x = 1%float.
Proof.
  intros H. destruct (leb_not_nan 1 x H) as [_ Hx].
  unfold JS.Math_min. rewrite Hx. simpl.
  destruct (1 <? x)%float eqn:H1; [reflexivity|].
  rewrite (leb_not_ltb 1 x H). simpl.
  apply (not_ltb_eq 1 x false 4503599627370496 (-52) eq_refl Hx H1).
  apply leb_not_ltb, H.
Qed.

Lemma Math_max_minus_one (x : float) :
  (x <=? -1)%float = true -> JS.Math_max (-1) (JS.Math_min 1 x) = (-1)%float.
Proof.
  intros H. destruct (leb_not_nan x (-1) H) as [Hx _].
  assert (Hneg : (1 <? x)%float = false /\ (x <? 1)%float = true).
  { revert H. rewrite FloatAxioms.leb_spec, !FloatAxioms.ltb_spec.
    unfold SFleb, SFltb.
    destruct (Prim2SF x) as [s|s| |s m e]; simpl; intros H;
      try discriminate H; destruct s; try discriminate H; split;
      reflexivity. }
  destruct Hneg as [H1 H2].
  unfold JS.Math_min. rewrite Hx. simpl. rewrite H1, H2.
  unfold JS.Math_max. rewrite Hx. simpl.
  rewrite (leb_not_ltb x (-1) H).
  destruct (x <? -1)%float eqn:H3; [reflexivity|].
  simpl.
  apply (not_ltb_eq (-1) x true 4503599627370496 (-52) eq_refl Hx).
  - apply leb_not_ltb, H.
  - exact H3.
Qed.

(** X15.  The sample loop saturates: a sample of 1 or more (positive
    infinity included) is written as 32767, a sample of -1 or less as
    -32768, and a sample that is not a number as 0. *)
Theorem quantize_saturates :
  forall sample : float,
    ((1 <=? sample)%float = true ->
     JS.ToInt16 (FileIO.quantize sample) = 32767%Z)
    /\ ((sample <=? -1)%float = true ->
        JS.ToInt16 (FileIO.quantize sample) = (-32768)%Z)
    /\ (is_nan sample = true ->
        JS.ToInt16 (FileIO.quantize sample) = 0%Z).
Proof.
  intros sample. unfold FileIO.quantize. split; [|split].
  - intros H. rewrite (Math_min_one sample H). reflexivity.
  - intros H. rewrite (Math_max_minus_one sample H). reflexivity.
  - intros H. unfold JS.Math_min. rewrite H. reflexivity.
Qed.

Lemma quantize_saturates_witness :
  JS.ToInt16 (FileIO.quantize 2.5) = 32767%Z
  /\ JS.ToInt16 (FileIO.quantize neg_infinity) = (-32768)%Z
  /\ JS.ToInt16 (FileIO.quantize nan) = 0%Z.
Proof.
  destruct (quantize_saturates 2.5) as (H1 & _ & _).
  destruct (quantize_saturates neg_infinity) as (_ & H2 & _).
  destruct (quantize_saturates nan) as (_ & _ & H3).
  split; [apply H1; reflexivity|].
  split; [apply H2; reflexivity|apply H3; reflexivity].
Defined.

End Container.

(* ================================================================= *)
(** ** Points from decoded audio *)

Section ValueSort.

Lemma insertValue_Permutation (a : Point) (l : list Point) :
  Permutation (insertValue a l) (a :: l).
Proof.
  induction l as [|b l IH]; simpl; [reflexivity|].
  destruct (0 <? time a - time b)%float; [|reflexivity].
  rewrite IH. apply perm_swap.
Qed.

Lemma sortValues_Permutation (l : list Point) :
  Permutation (sortValues l) l.
Proof.
  induction l as [|a l IH]; simpl; [reflexivity|].
  unfold sortValues in *. simpl. rewrite insertValue_Permutation.
  constructor. exact IH.
Qed.

Lemma insertValue_HdRel (a b : Point) (l : list Point) :
  valuesInOrder b a -> HdRel valuesInOrder b l ->
  HdRel valuesInOrder b (insertValue a l).
Proof.
  intros Hba Hl. destruct l as [|c l]; simpl; [constructor; exact Hba|].
  destruct (0 <? time a - time c)%float; constructor;
    [inversion Hl; assumption | exact Hba].
Qed.

Lemma insertValue_Sorted (a : Point) (l : list Point) :
  Sorted valuesInOrder l -> Sorted valuesInOrder (insertValue a l).
Proof.
  induction l as [|b l IH]; intros Hs; simpl.
  - repeat constructor.
  - destruct (0 <? time a - time b)%float eqn:E.
    + inversion Hs; subst. constructor; [apply IH; assumption|].
      apply insertValue_HdRel; [|assumption].
      unfold valuesInOrder. apply sub_sign_antisym. exact E.
    + constructor; [exact Hs|]. constructor. exact E.
Qed.

Lemma sortValues_Sorted (l : list Point) :
  Sorted valuesInOrder (sortValues l).
Proof.
  induction l as [|a l IH]; simpl; [constructor|].
  apply insertValue_Sorted. exact IH.
Qed.

End ValueSort.

Section AudioImportFacts.
Import AudioImport.

Lemma totalSamples_le (maxDuration sampleRate : float) (available : nat) :
  totalSamples maxDuration sampleRate available <= available.
Proof.
  unfold totalSamples. destruct (JS.Math_floor _) as [n|].
  - lia.
  - destruct (0 <? _)%float; lia.
Qed.

(** X16.  [loadAudio] makes one point for each of the first
    [totalSamples] samples of channel 0, at time [i / sampleRate] with
    the sample as amplitude, and returns them with neighbours in time
    order.  It never reads past the channel, and when
    [floor(min(duration, MAX_AUDIO_IMPORT_DURATION) * sampleRate)] is an
    integer it makes no more points than that. *)
Theorem loadAudio_points :
  forall (CONFIG : Config) (duration : float) (audioBuffer : AudioBuffer.t),
    let data := default [] (AudioBuffer.channelData audioBuffer !! 0) in
    let sampleRate := AudioBuffer.sampleRate audioBuffer in
    let maxDuration :=
      JS.Math_min duration (MAX_AUDIO_IMPORT_DURATION CONFIG) in
    let count := totalSamples maxDuration sampleRate (length data) in
    let points := loadAudio CONFIG duration audioBuffer in
    count <= length data
    /\ length points = count
    /\ (forall p : Point,
          p ∈ points <->
          exists (i : nat) (sample : float),
            i < count /\ data !! i = Some sample
            /\ p = {| time := (JS.of_nat i / sampleRate)%float;
                      amplitude := sample |})
    /\ Sorted valuesInOrder points
    /\ (forall n : Z,
          JS.Math_floor (maxDuration * sampleRate)%float = Some n ->
          (Z.of_nat count <= Z.max 0 n)%Z).
Proof.
  intros CONFIG duration audioBuffer data sampleRate maxDuration count points.
  pose proof (totalSamples_le maxDuration sampleRate (length data)) as Hle.
  fold count in Hle.
  assert (Hperm : points ≡ₚ
    map (fun i => {| time := (JS.of_nat i / sampleRate)%float;
                     amplitude := default nan (data !! i) |})
        (seq 0 count)).
  { apply sortValues_Permutation. }
  split; [exact Hle|]. split; [|split; [|split]].
  - rewrite Hperm, length_map, length_seq. reflexivity.
  - intros p. rewrite Hperm. rewrite list_elem_of_In, in_map_iff. split.
    + intros (i & <- & Hi). apply in_seq in Hi.
      destruct (lookup_lt_is_Some_2 data i ltac:(lia)) as [sample Hs].
      exists i, sample. rewrite Hs. repeat split. lia.
    + intros (i & sample & Hi & Hs & ->). exists i. rewrite Hs.
      split; [reflexivity|]. apply in_seq. lia.
  - apply sortValues_Sorted.
  - intros n Hn. subst count. unfold totalSamples. rewrite Hn. lia.
Qed.

End AudioImportFacts.

(* ================================================================= *)
(** ** The exported editing functions *)

Section FreeEditFacts.
Import FreeFunctions FreeEdits.

Lemma saveState_store_stack (s : Store) :
  exists kept : list JSONText,
    undoStack (saveState_store s) = kept ++ [JSON_stringify (points s)]
    /\ last kept = last (undoStack s)
    /\ redoStack (saveState_store s) = []
    /\ points (saveState_store s) = points s.
Proof.
  unfold saveState_store. simpl.
  destruct (100 <? length (undoStack s ++ [JSON_stringify (points s)]))
    eqn:E.
  - apply Nat.ltb_lt in E. rewrite length_app in E. simpl in E.
    destruct (undoStack s) as [|u0 [|u1 U]] eqn:HU; simpl in E; try lia.
    exists (u1 :: U). repeat split.
  - exists (undoStack s). repeat split.
Qed.

Lemma apply_saveState (ed : Edit) (s : Store) :
  takesSnapshot ed s ->
  exists s', apply ed s = saveState_store s'
             /\ undoStack s' = undoStack s.
Proof.
  destruct ed as [l|t a|offset|]; simpl; intros H.
  - eexists. split; reflexivity.
  - eexists. split; reflexivity.
  - unfold pastePoints. destruct (copiedPoints s); [congruence|].
    eexists. split; reflexivity.
  - eexists. split; reflexivity.
Qed.



End FreeEditFacts.

Lemma loadAudio_points_witness :
  length (AudioImport.loadAudio DEFAULT_CONFIG 1.5 shortClip) = 3
  /\ {| time := 0.5; amplitude := (-0.5)%float |}
     ∈ AudioImport.loadAudio DEFAULT_CONFIG 1.5 shortClip.
Proof.
  destruct (loadAudio_points DEFAULT_CONFIG 1.5 shortClip)
    as (_ & Hlen & Hmem & _).
  split; [exact Hlen|].
  apply Hmem. exists 1, (-0.5)%float.
  split; [vm_compute; lia|]. split; reflexivity.
Defined.

(* ================================================================= *)
(** ** The hit test *)

Section HitTest.

Lemma find_first {A : Type} (f : A -> bool) (l : list A) :
  match find f l with
  | Some x =>
      exists before after,
        l = before ++ x :: after /\ f x = true
        /\ Forall (fun y => f y = false) before
  | None => Forall (fun y => f y = false) l
  end.
Proof.
  induction l as [|a l IH]; simpl; [constructor|].
  destruct (f a) eqn:Ha.
  - exists [], l. repeat split; [exact Ha|constructor].
  - destruct (find f l) as [x|].
    + destruct IH as (before & after & -> & Hx & Hb).
      exists (a :: before), after. repeat split; [exact Hx|].
      constructor; assumption.
    + constructor; assumption.
Qed.

(** X18.  [pickPointAt] takes the first point of the sequence, in
    sequence order, whose drawn position is within the tolerance of the
    pointer on both axes: every point before the one it returns is out
    of tolerance, and it returns nothing exactly when every point is. *)
Theorem pickPointAt_first_hit :
  forall (canvas : Canvas) (dm : DataModel.t) (x y tolerancePx : float),
    match pickPointAt canvas dm x y tolerancePx with
    | Some picked =>
        exists before after,
          DataModel.points dm = before ++ picked :: after
          /\ withinTolerance canvas dm x y tolerancePx picked = true
          /\ Forall (fun r => withinTolerance canvas dm x y tolerancePx r
                              = false) before
    | None =>
        Forall (fun r => withinTolerance canvas dm x y tolerancePx r = false)
          (DataModel.points dm)
    end.
Proof.
  intros canvas dm x y tolerancePx. unfold pickPointAt.
  apply (find_first (withinTolerance canvas dm x y tolerancePx)
           (DataModel.points dm)).
Qed.

(** X19.  Every point that is drawn can be picked: with a positive
    tolerance, pointing exactly at the drawn position of a point of the
    sequence (a finite position) picks a point, and that point is the
    one pointed at or one that comes before it in the sequence. *)
Theorem pickPointAt_own_position :
  forall (canvas : Canvas) (dm : DataModel.t) (tolerancePx : float)
         (r : ref),
    let x :=
      CanvasRenderer.timeToX canvas dm (timeOf (DataModel.heap dm) r) in
    let y :=
      CanvasRenderer.amplitudeToY canvas (amplitudeOf (DataModel.heap dm) r) in
    r ∈ DataModel.points dm ->
    is_finite x = true -> is_finite y = true ->
    (0 <? tolerancePx)%float = true ->
    exists picked before after,
      pickPointAt canvas dm x y tolerancePx = Some picked
      /\ DataModel.points dm = before ++ picked :: after
      /\ r ∉ before.
Proof.
  intros canvas dm tolerancePx r x y Hr Hx Hy Htol.
  assert (Hhit : withinTolerance canvas dm x y tolerancePx r = true).
  { unfold withinTolerance. fold x y.
    rewrite (sub_self x Hx), (sub_self y Hy).
    change (abs 0) with 0%float. rewrite Htol. reflexivity. }
  pose proof (find_first (withinTolerance canvas dm x y tolerancePx)
                (DataModel.points dm)) as H.
  fold (pickPointAt canvas dm x y tolerancePx) in H.
  destruct (pickPointAt canvas dm x y tolerancePx) as [picked|].
  - destruct H as (before & after & Hpts & _ & Hb).
    exists picked, before, after. repeat split; [exact Hpts|].
    intros Hin. rewrite Forall_forall in Hb.
    specialize (Hb r Hin). congruence.
  - rewrite Forall_forall in H. specialize (H r Hr). congruence.
Qed.

Lemma pickPointAt_own_position_witness :
  is_Some
    (pickPointAt {| width := 1000; height := 500 |} exampleModel
       ((9.99 - 0) / (10 / 10) * 1000)%float
       (500 / 2 - 0.5 * (500 / 2))%float 8).
Proof.
  destruct (pickPointAt_own_position {| width := 1000; height := 500 |}
              exampleModel 8 1) as (picked & before & after & Hp & _).
  - apply (bool_decide_unpack _). reflexivity.
  - reflexivity.
  - reflexivity.
  - reflexivity.
  - exists picked. exact Hp.
Defined.

End HitTest.

(* ================================================================= *)
(** ** The point selected by a click and the clipboard *)

Section ClickedPoint.
Import Interaction.
Variable CONFIG : Config.

(** X20.  A point that was selected by a click cannot be copied.  After
    a press, with the command key up, on a point that is not in the
    selection set, and the release, the point is the selected point and
    the selection set is empty; the copy key then empties the clipboard,
    whatever it held, and the paste key after it changes nothing in the
    data model. *)
Theorem clicked_point_is_not_copied :
  forall (now1 now2 : float) (e1 e2 : MouseEvent) (c v : KeyboardEvent)
         (s : Interaction.t) (p : ref),
    InteractionHandler.isCommandKey (handler s) = false ->
    pickPointAt (InteractionHandler.canvas (handler s)) (dataModel s)
      (offsetX e1) (offsetY e1) (POINT_HIT_RADIUS CONFIG) = Some p ->
    JS.Set_has (DataModel.selectedPoints (dataModel s)) p = false ->
    metaKey c || ctrlKey c = true -> key c = "c"%string ->
    metaKey v || ctrlKey v = true -> key v = "v"%string ->
    let clicked := onMouseUp CONFIG now2 e2 (onMouseDown CONFIG now1 e1 s) in
    let copied := onKeyDown CONFIG c clicked in
    DataModel.selectedPoint (dataModel clicked) = Some p
    /\ DataModel.selectedPoints (dataModel clicked) = []
    /\ DataModel.copiedPoints (dataModel copied) = []
    /\ dataModel (onKeyDown CONFIG v copied) = dataModel copied.
Proof.
  intros now1 now2 e1 e2 c v s p Hcmd Hpick Hsel Hc Hkc Hv Hkv clicked copied.
  pose proof (onMouseDown_plain CONFIG now1 e1 s Hcmd) as Hdown.
  cbv zeta in Hdown. rewrite Hpick, Hsel in Hdown.
  assert (Hclicked : dataModel clicked =
            DataModel.saveState CONFIG
              (DataModel.selectPoint p (dataModel s))).
  { subst clicked. unfold onMouseUp, dataModel. cbv zeta.
    cbn [handler InteractionHandler.dataModel].
    rewrite Hdown.
    cbn [InteractionHandler.draggingPoint InteractionHandler.isCommandKey
         InteractionHandler.canvas InteractionHandler.dataModel].
    rewrite (bool_decide_true (is_Some (Some p))) by eauto.
    rewrite andb_false_r. reflexivity. }
  assert (Hcopied : dataModel copied =
            DataModel.copySelected (dataModel clicked)).
  { subst copied. unfold onKeyDown. rewrite Hc, Hkc. reflexivity. }
  split; [rewrite Hclicked; reflexivity|].
  split; [rewrite Hclicked; reflexivity|].
  assert (Hclip : DataModel.copiedPoints (dataModel copied) = []).
  { rewrite Hcopied, Hclicked. reflexivity. }
  split; [exact Hclip|].
  unfold onKeyDown. rewrite Hv, Hkv. cbv zeta. simpl.
  change (dataModel (set_isCommandKey true copied)) with (dataModel copied).
  unfold DataModel.pastePoints. rewrite Hclip. reflexivity.
Qed.

End ClickedPoint.

Lemma clicked_point_is_not_copied_witness :
  let s :=
    Interaction.constructor {| width := 1000; height := 500 |}
      (DataModel.clearSelection exampleModel) in
  let clicked :=
    Interaction.onMouseUp DEFAULT_CONFIG 100 pressOnA
      (Interaction.onMouseDown DEFAULT_CONFIG 0 pressOnA s) in
  DataModel.selectedPoint (Interaction.dataModel clicked) = Some 0
  /\ DataModel.copiedPoints
       (Interaction.dataModel
          (Interaction.onKeyDown DEFAULT_CONFIG copyKey clicked)) = [].
Proof.
  intros s clicked.
  destruct (clicked_point_is_not_copied DEFAULT_CONFIG 0 100 pressOnA
              pressOnA copyKey pasteKey s 0 eq_refl eq_refl eq_refl eq_refl
              eq_refl eq_refl eq_refl) as (H1 & _ & H3 & _).
  split; [exact H1|exact H3].
Defined.

Lemma session_keeps_history_bounded_witness :
  let dm :=
    Interaction.dataModel
      (session DEFAULT_CONFIG (fun x => (1 + x)%float)
         {| width := 1000; height := 500 |}
         [ MouseDown 0 pressOnNothing; MouseUp 100 pressOnNothing;
           KeyDown undoKey ]) in
  historyBounded DEFAULT_CONFIG dm
  /\ length (DataModel.redoStack dm) = 1
  /\ DataModel.points dm = [].
Proof.
  intros dm.
  destruct (session_keeps_history_bounded DEFAULT_CONFIG
              (fun x => (1 + x)%float) eq_refl
              {| width := 1000; height := 500 |}
              [ MouseDown 0 pressOnNothing; MouseUp 100 pressOnNothing;
                KeyDown undoKey ]) as (H & _).
  split; [exact H|]. split; reflexivity.
Defined.

(* ================================================================= *)
(** ** Zooming at the pointer *)

Section ZoomAtPointerFacts.
#[local] Open Scope Q_scope.


End ZoomAtPointerFacts.

(* ================================================================= *)
(** ** Editing one point, and clearing the sequence *)

Section UpdateAndClear.
Import DataModel.

(** X22.  [updatePoint] writes the new time and amplitude into the one
    object and sorts the sequence: no other object changes, the sequence
    holds the same points with neighbours in time order, and the
    selection is kept.  It takes no snapshot: both history stacks are as
    they were. *)
Theorem updatePoint_moves_one_object :
  forall (point : ref) (newTime newAmplitude : float) (m : DataModel.t),
    let m' := updatePoint point newTime newAmplitude m in
    (point < length (heap m) ->
     heap m' !! point
     = Some {| time := newTime; amplitude := newAmplitude |})
    /\ (forall r, r <> point -> heap m' !! r = heap m !! r)
    /\ length (heap m') = length (heap m)
    /\ points m' ≡ₚ points m
    /\ Sorted (inOrder (heap m')) (points m')
    /\ selectedPoints m' = selectedPoints m
    /\ selectedPoint m' = selectedPoint m
    /\ undoStack m' = undoStack m
    /\ redoStack m' = redoStack m.
Proof.
  intros point newTime newAmplitude m m'. subst m'.
  unfold updatePoint, sortPoints. simpl.
  split; [|split; [|split; [|split; [|split]]]].
  - intros Hlive. rewrite list_lookup_alter_eq.
    destruct (lookup_lt_is_Some_2 (heap m) point Hlive) as [p ->].
    reflexivity.
  - intros r Hr. apply list_lookup_alter_ne. congruence.
  - apply length_alter.
  - apply sortByTime_Permutation.
  - apply sortByTime_Sorted.
  - repeat split.
Qed.

Lemma updatePoint_moves_one_object_witness :
  let m' := updatePoint 0 9.995 0.2 exampleModel in
  heap m' !! 0 = Some {| time := 9.995; amplitude := 0.2 |}
  /\ points m' = [1; 0].
Proof.
  split; [|reflexivity].
  apply (proj1 (updatePoint_moves_one_object 0 9.995 0.2 exampleModel)).
  simpl. lia.
Defined.

End UpdateAndClear.

Section SelectAllDelete.
Import Interaction.
Variable CONFIG : Config.

Lemma Set_of_elem (l : list ref) (r : ref) : r ∈ JS.Set_of l <-> r ∈ l.
Proof.
  destruct (fold_Set_add_spec (fun _ => true) l []) as (_ & H & _).
  specialize (H r).
  change (r ∈ JS.Set_of l <-> r ∈ [] \/ (r ∈ l /\ true = true)) in H.
  rewrite H. split.
  - intros [Hr|[Hr _]]; [inversion Hr|exact Hr].
  - intros Hr. right. split; [exact Hr|reflexivity].
Qed.

Lemma filter_nothing {A : Type} (P : A -> Prop) `{forall x, Decision (P x)}
    (l : list A) :
  (forall x, x ∈ l -> ~ P x) -> filter P l = [].
Proof.
  intros Hnone. destruct (filter P l) as [|x l'] eqn:E; [reflexivity|].
  assert (Hx : x ∈ filter P l) by (rewrite E; left).
  apply list_elem_of_filter in Hx as [HP Hx].
  destruct (Hnone x Hx HP).
Qed.


End SelectAllDelete.


Section FreePaste.
Import FreeFunctions FreeEdits.

(** X24.  The exported [pastePoints(offset)] pastes the clipboard moved
    by [offset] in time (0.1 s unless told otherwise), wherever the
    sequence ends: it returns the pasted points; the sequence becomes
    the old points and the pasted ones with neighbours in time order; the
    snapshot on top of the undo stack is the text of the new sequence and
    the redo stack is empty.  From an empty clipboard it returns an empty
    array and leaves the store as it is. *)
Theorem free_pastePoints_shifts_clipboard :
  forall (offset : float) (s : Store),
    let pasted :=
      map (fun p => {| time := (time p + offset)%float;
                       amplitude := amplitude p |}) (copiedPoints s) in
    let s' := snd (pastePoints offset s) in
    fst (pastePoints offset s) = pasted
    /\ copiedPoints s' = copiedPoints s
    /\ match copiedPoints s with
       | [] => s' = s
       | _ :: _ =>
           points s' ≡ₚ points s ++ pasted
           /\ Sorted valuesInOrder (points s')
           /\ last (undoStack s') = Some (JSON_stringify (points s'))
           /\ redoStack s' = []
       end.
Proof.
  intros offset s pasted s'. subst s' pasted. unfold pastePoints.
  destruct (copiedPoints s) as [|c cs] eqn:Hclip.
  - repeat split. simpl. exact Hclip.
  - set (pasted := map _ (c :: cs)). simpl fst. simpl snd.
    split; [reflexivity|].
    destruct (saveState_store_stack
                (set_points (sortValues (points s ++ pasted)) s))
      as (kept & Hk & _ & Hr & Hp).
    split; [simpl; exact Hclip|].
    rewrite Hp, Hk, last_snoc, Hr. simpl.
    split; [apply sortValues_Permutation|].
    split; [apply sortValues_Sorted|]. split; reflexivity.
Qed.

End FreePaste.

(* ================================================================= *)
(** ** The depth limit at its edges *)

Section DepthLimit.
Import DataModel.
Variable CONFIG : Config.

Lemma saveState_negative (m : DataModel.t) :
  (MAX_UNDO CONFIG < 0)%Z ->
  undoStack m = [] ->
  undoStack (saveState CONFIG m) = [] /\ redoStack (saveState CONFIG m) = [].
Proof.
  intros Hneg Hempty. split; [|reflexivity].
  rewrite saveState_undoStack, Hempty. cbv zeta. simpl.
  unfold maxUndo. destruct (Z.eqb_spec (MAX_UNDO CONFIG) 0); [lia|].
  destruct (Z.ltb_spec (MAX_UNDO CONFIG) (Z.of_nat 1));
    [reflexivity|simpl in *; lia].
Qed.

Lemma perform_negative (m : DataModel.t) (op : Operation) :
  (MAX_UNDO CONFIG < 0)%Z ->
  undoStack m = [] /\ redoStack m = [] ->
  undoStack (perform CONFIG m op) = []
  /\ redoStack (perform CONFIG m op) = [].
Proof.
  intros Hneg [Hu Hr].
  destruct op; simpl; try (split; assumption);
    try (apply saveState_negative; assumption).
  - destruct (pastePoints_stacks CONFIG m) as [[Hu' Hr']|[Hu' Hr']];
      cbv zeta in Hu', Hr'; rewrite Hu', Hr'.
    + split; assumption.
    + apply saveState_negative; assumption.
  - unfold undo. rewrite Hu. simpl. split; assumption.
  - unfold redo. rewrite Hr. simpl. split; assumption.
  - split; reflexivity.
Qed.

(** X25.  The depth limit at its edges.  [CONFIG.MAX_UNDO] of 0 stands
    for a limit of 20.  A negative [MAX_UNDO] is taken as it is, and
    then nothing is ever recorded: after any sequence of operations on a
    new data model both history stacks are empty, and [undo()] and
    [redo()] return [false]. *)
Theorem MAX_UNDO_edges :
  (MAX_UNDO CONFIG = 0%Z -> maxUndo CONFIG = 20%Z)
  /\ ((MAX_UNDO CONFIG < 0)%Z ->
      forall ops : list Operation,
        let m := performAll CONFIG ops in
        undoStack m = [] /\ redoStack m = []
        /\ fst (undo m) = false /\ fst (redo m) = false).
Proof.
  split.
  - intros H. unfold maxUndo. rewrite H. reflexivity.
  - intros Hneg ops m.
    assert (H : undoStack m = [] /\ redoStack m = []).
    { subst m. unfold performAll.
      assert (H0 : undoStack (constructor CONFIG) = []
                   /\ redoStack (constructor CONFIG) = [])
        by (split; reflexivity).
      revert H0. generalize (constructor CONFIG).
      induction ops as [|op ops IH]; intros m0 H0; simpl; [exact H0|].
      apply IH, perform_negative; assumption. }
    destruct H as [Hu Hr]. unfold undo, redo. rewrite Hu, Hr.
    repeat split.
Qed.

End DepthLimit.

Lemma MAX_UNDO_edges_witness :
  let CONFIG :=
    {| PAN_WHEEL_SENSITIVITY := 600; PAN_MOUSE_SENSITIVITY := 1;
       ZOOM_SENSITIVITY := 0.001; ZOOM_MIN := 1; ZOOM_MAX := 10000;
       DEFAULT_DURATION := 10; DEFAULT_ZOOM := 10; MAX_UNDO := -1;
       POINT_HIT_RADIUS := 8; SELECTION_HIGHLIGHT_RADIUS := 6;
       MAX_AUDIO_IMPORT_DURATION := 5; AUDIO_EXPORT_BITRATE := 320 |} in
  let m := performAll CONFIG [AddPoint 1 0.5; AddPoint 2 0.25] in
  length (DataModel.points m) = 2 /\ DataModel.undoStack m = []
  /\ fst (DataModel.undo m) = false.
Proof.
  intros CONFIG m. split; [reflexivity|].
  destruct (proj2 (MAX_UNDO_edges CONFIG) eq_refl
              [AddPoint 1 0.5; AddPoint 2 0.25]) as (Hu & _ & Hf & _).
  split; [exact Hu|exact Hf].
Defined.

(* ================================================================= *)
(** ** The history of the exported functions *)

Section FreeHistory.
Import FreeFunctions FreeEdits.

Lemma apply_stacks (ed : Edit) (s : Store) :
  length (undoStack s) + length (redoStack s) <= 100 ->
  length (undoStack (apply ed s)) + length (redoStack (apply ed s)) <= 100.
Proof.
  intros H.
  assert (Hsave : forall s', undoStack s' = undoStack s ->
            length (undoStack (saveState_store s'))
            + length (redoStack (saveState_store s')) <= 100).
  { intros s' Hu.
    assert (Hle : length (undoStack s') <= 100) by (rewrite Hu; lia).
    destruct (free_saveState_bounded s' Hle) as [Hb Hr].
    rewrite Hr. cbn [length]. rewrite Nat.add_0_r. exact Hb. }
  destruct ed as [l|t a|offset|]; cbn [apply];
    unfold setPoints, addPoint, clearAllPoints;
    try (apply Hsave; reflexivity).
  unfold pastePoints. destruct (copiedPoints s); [exact H|].
  cbn [snd]. apply Hsave. reflexivity.
Qed.

Lemma call_stacks (c : Call) (s : Store) :
  length (undoStack s) + length (redoStack s) <= 100 ->
  length (undoStack (call s c)) + length (redoStack (call s c)) <= 100.
Proof.
  intros H. destruct c as [ed|l| |]; cbn [call].
  - apply apply_stacks, H.
  - exact H.
  - unfold undo. destruct (last (undoStack s)) as [top|] eqn:E; [|exact H].
    apply last_Some_length in E. simpl. rewrite length_app. simpl. lia.
  - unfold redo. destruct (last (redoStack s)) as [top|] eqn:E; [|exact H].
    apply last_Some_length in E. simpl. rewrite length_app. simpl. lia.
Qed.


End FreeHistory.

